(** * CasinoRuin: a shallow embedding of the gambler's-ruin simulator

    The repository holds two translation units, [Source.cpp] (trial engine
    returning the final bankroll, histogram summariser, campaign driver) and
    [main.cpp] (an earlier trial engine returning a boolean, and its driver).
    Each is embedded in a module of its own, [Source] and [Main].

    The C++ code computes on [double].  The embedding is written once, over
    an interface [DoubleOps] holding exactly the operations the code applies
    to doubles, and is instantiated with exact rationals ([Q]) and with
    IEEE-754 binary64 (as [SpecFloat] specifies it, and as the primitive
    floats compute it).  Results that only depend on the
    control flow are proved for every instance; results that need the laws
    of arithmetic are proved for the exact instance; the behaviour in
    doubles is computed at concrete inputs.

    The [int] and [long long] variables of the code are modelled by [Z]
    without wrap-around: they are counters bounded by the trial and bin
    counts, and overflow of a signed integer has no defined behaviour in
    C++.  The one unsigned conversion of the code, the seed, is written out
    modulo [2^32].  The characters the program prints are not modelled; the
    numbers it prints are. *)

From Stdlib Require Import ZArith QArith Qround List Bool Lia.
From Stdlib Require Import Floats.
Import ListNotations.

Local Open Scope Z_scope.

(** ** The operations the code applies to [double] *)

Class DoubleOps (D : Type) := {
  dadd : D -> D -> D;            (* x + y *)
  dsub : D -> D -> D;            (* x - y *)
  dmul : D -> D -> D;            (* x * y *)
  ddiv : D -> D -> D;            (* x / y *)
  dltb : D -> D -> bool;         (* x < y *)
  deqb : D -> D -> bool;         (* x == y *)
  dfloor : D -> D;               (* std::floor(x) *)
  of_int : Z -> D;               (* conversion of an int or long long *)
  DBL_MAX : D;                   (* std::numeric_limits<double>::max() *)
  DBL_LOWEST : D                 (* std::numeric_limits<double>::lowest() *)
}.

(** ** The random source

    [std::mt19937 generator(seed)] builds a generator state from a 32-bit
    seed; [distribution(generator)] returns one uniform draw and advances
    the state.  Both come from the C++ standard library, so they are taken
    as an interface. *)

Class RandomSource (D : Type) := {
  Generator : Type;
  mt19937 : Z -> Generator;
  distribution : Generator -> D * Generator
}.

(** How a [for] loop with a [return] in its body was left: through the
    [return] during iteration [i], or because the loop condition failed
    when the counter had reached [i]. *)
Inductive LoopExit (D G : Type) : Type :=
| Returned (i : Z) (cur : D) (g : G)
| Finished (i : Z) (cur : D) (g : G).
Arguments Returned {D G} i cur g.
Arguments Finished {D G} i cur g.

Definition exitBankroll {D G} (e : LoopExit D G) : D :=
  match e with Returned _ cur _ => cur | Finished _ cur _ => cur end.

Definition exitGenerator {D G} (e : LoopExit D G) : G :=
  match e with Returned _ _ g => g | Finished _ _ g => g end.

(** Number of loop bodies that were run: the body of iteration [i] has run
    when the [return] inside it is reached. *)
Definition betsPerformed {D G} (e : LoopExit D G) : Z :=
  match e with Returned i _ _ => i + 1 | Finished i _ _ => i end.

Definition isReturned {D G} (e : LoopExit D G) : bool :=
  match e with Returned _ _ _ => true | Finished _ _ _ => false end.

(** How a piece of code ends: normally with a value, by an exception that
    nothing catches (the program is then terminated by [std::terminate]),
    or in a state the language leaves undefined. *)
Inductive Outcome (A : Type) : Type :=
| Normal (a : A)
| Throws
| Undefined.
Arguments Normal {A} a.
Arguments Throws {A}.
Arguments Undefined {A}.

Definition bindO {A B} (o : Outcome A) (f : A -> Outcome B) : Outcome B :=
  match o with
  | Normal a => f a
  | Throws => Throws
  | Undefined => Undefined
  end.

(** [unsigned seed = ...count() + runIndex]: the sum of the clock reading (a
    64-bit tick count) and the run index, converted to a 32-bit unsigned. *)
Definition seedOf (now runIndex : Z) : Z := (now + runIndex) mod 2 ^ 32.

(** ** [std::map<double, int>]

    The entries of the map are kept in key order, as the iteration order of
    the container has them.  An iterator is the position of an entry;
    [end()] is [None].  Keys are compared with [<] only, as [std::less]
    does: two keys are the same key when neither is less than the other. *)

Definition DoubleMap (D : Type) : Type := list (D * Z).

Section DoubleMap.
Context {D : Type} {ops : DoubleOps D}.

(** [m[k] = v]: the first entry whose key is not less than [k] is looked
    up; when its key is not greater than [k] either, its value is
    assigned, otherwise a new entry is put in front of it. *)
Fixpoint map_assign (k : D) (v : Z) (m : DoubleMap D) : DoubleMap D :=
  match m with
  | [] => [(k, v)]
  | (k', v') :: t =>
      if dltb k' k then (k', v') :: map_assign k v t
      else if dltb k k' then (k, v) :: (k', v') :: t
      else (k', v) :: t
  end.

(** [m.find(k)] *)
Fixpoint map_find (k : D) (m : DoubleMap D) : option nat :=
  match m with
  | [] => None
  | (k', _) :: t =>
      if dltb k' k then option_map S (map_find k t)
      else if dltb k k' then None
      else Some O
  end.

(** [m.rbegin()], the entry with the greatest key; on an empty map it is
    [m.rend()], which must not be dereferenced. *)
Definition map_rbegin (m : DoubleMap D) : option nat :=
  match m with
  | [] => None
  | _ :: t => Some (length t)
  end.

(** [it->second] *)
Definition map_second (m : DoubleMap D) (it : nat) : Z :=
  match nth_error m it with
  | Some (_, v) => v
  | None => 0
  end.

(** [it->second++] *)
Fixpoint map_incr (m : DoubleMap D) (it : nat) : DoubleMap D :=
  match m, it with
  | [], _ => []
  | (k, v) :: t, O => (k, v + 1) :: t
  | e :: t, S it' => e :: map_incr t it'
  end.

Definition map_keys (m : DoubleMap D) : list D := map fst m.
Definition map_counts (m : DoubleMap D) : list Z := map snd m.

Definition sumCounts (m : DoubleMap D) : Z :=
  fold_right Z.add 0 (map_counts m).

End DoubleMap.

(** ** Source.cpp *)

Module Source.

Section Engine.
Context {D : Type} {ops : DoubleOps D} {rng : RandomSource D}.

(** The [for] loop of [simulateSingleRun], lines 33-50; [remaining] is
    [numBets - i]. *)
Fixpoint betLoop (betAmount houseWinProb : D) (remaining : nat) (i : Z)
    (currentBankroll : D) (generator : Generator) : LoopExit D Generator :=
  match remaining with
  | O => Finished i currentBankroll generator
  | S remaining' =>
      let (u, generator') := distribution generator in
      let currentBankroll' :=
        if dltb u houseWinProb
        then dadd currentBankroll betAmount
        else dsub currentBankroll betAmount in
      if dltb currentBankroll' betAmount
      then Returned i currentBankroll' generator'
      else betLoop betAmount houseWinProb remaining' (i + 1)
             currentBankroll' generator'
  end.

(** The body of [simulateSingleRun] up to its two [return]s; [now] is the
    value read from [std::chrono::system_clock]. *)
Definition runLoop (now : Z) (initialHouseBankroll betAmount : D)
    (numBets : Z) (houseWinProb : D) (runIndex : Z)
    : LoopExit D Generator :=
  let seed := seedOf now runIndex in
  let generator := mt19937 seed in
  betLoop betAmount houseWinProb (Z.to_nat numBets) 0
    initialHouseBankroll generator.

Definition simulateSingleRun (now : Z) (initialHouseBankroll betAmount : D)
    (numBets : Z) (houseWinProb : D) (runIndex : Z) : D :=
  exitBankroll
    (runLoop now initialHouseBankroll betAmount numBets houseWinProb runIndex).

(** The same loop, recording [currentBankroll] on entry to every
    iteration, that is, the bankroll each bet is placed from. *)
Fixpoint betsPlacedAt (betAmount houseWinProb : D) (remaining : nat)
    (currentBankroll : D) (generator : Generator) : list D :=
  match remaining with
  | O => []
  | S remaining' =>
      let (u, generator') := distribution generator in
      let currentBankroll' :=
        if dltb u houseWinProb
        then dadd currentBankroll betAmount
        else dsub currentBankroll betAmount in
      currentBankroll ::
      (if dltb currentBankroll' betAmount
       then []
       else betsPlacedAt betAmount houseWinProb remaining'
              currentBankroll' generator')
  end.

End Engine.

(** What [printBankrollHistogram] prints after the line that reports the
    number of survivors. *)
Record Histogram (D : Type) : Type := {
  hNumSurvivors : Z;
  hMinBankroll : D;
  hMaxBankroll : D;
  hBinWidth : D;
  hBins : DoubleMap D;
  hMaxBinCount : Z
}.
Arguments hNumSurvivors {D} _.
Arguments hMinBankroll {D} _.
Arguments hMaxBankroll {D} _.
Arguments hBinWidth {D} _.
Arguments hBins {D} _.
Arguments hMaxBinCount {D} _.

(** The state of the first loop of [printBankrollHistogram]. *)
Record Scan (D : Type) : Type := {
  survivingBankrolls : list D;
  ruinCount : Z;
  minBankroll : D;
  maxBankroll : D
}.
Arguments survivingBankrolls {D} _.
Arguments ruinCount {D} _.
Arguments minBankroll {D} _.
Arguments maxBankroll {D} _.

Section Summariser.
Context {D : Type} {ops : DoubleOps D}.

(** Body of the loop of lines 70-79. *)
Definition scanStep (betAmount : D) (s : Scan D) (finalBankroll : D)
    : Scan D :=
  if dltb finalBankroll betAmount then
    {| survivingBankrolls := survivingBankrolls s;
       ruinCount := ruinCount s + 1;
       minBankroll := minBankroll s;
       maxBankroll := maxBankroll s |}
  else
    {| survivingBankrolls := survivingBankrolls s ++ [finalBankroll];
       ruinCount := ruinCount s;
       minBankroll :=
         if dltb finalBankroll (minBankroll s) then finalBankroll
         else minBankroll s;
       maxBankroll :=
         if dltb (maxBankroll s) finalBankroll then finalBankroll
         else maxBankroll s |}.

Definition scanBankrolls (finalBankrolls : list D) (betAmount : D)
    : Scan D :=
  fold_left (scanStep betAmount) finalBankrolls
    {| survivingBankrolls := [];
       ruinCount := 0;
       minBankroll := DBL_MAX;
       maxBankroll := DBL_LOWEST |}.

(** Lines 90-96.  The literal [100.0] is the double of the integer 100. *)
Definition chooseBinWidth (minBankroll maxBankroll : D) (numBins : Z) : D :=
  let binWidth := ddiv (dsub maxBankroll minBankroll) (of_int numBins) in
  if deqb binWidth (of_int 0) then of_int 100 else binWidth.

(** Lines 99-101; [remaining] is [numBins - i]. *)
Fixpoint initBins (minBankroll binWidth : D) (remaining : nat) (i : Z)
    (bins : DoubleMap D) : DoubleMap D :=
  match remaining with
  | O => bins
  | S remaining' =>
      initBins minBankroll binWidth remaining' (i + 1)
        (map_assign (dadd minBankroll (dmul (of_int i) binWidth)) 0 bins)
  end.

(** Lines 106-113. *)
Definition binKeyOf (minBankroll binWidth bankroll : D) : D :=
  if deqb binWidth (of_int 0) then minBankroll
  else dadd minBankroll
         (dmul (dfloor (ddiv (dsub bankroll minBankroll) binWidth))
            binWidth).

(** [it->second++; if (it->second > maxBinCount) maxBinCount = it->second] *)
Definition bump (st : DoubleMap D * Z) (it : nat) : DoubleMap D * Z :=
  let (bins, maxBinCount) := st in
  let bins' := map_incr bins it in
  (bins',
   if maxBinCount <? map_second bins' it then map_second bins' it
   else maxBinCount).

(** Body of the loop of lines 105-128.  Dereferencing [bins.rbegin()]
    of an empty map is undefined. *)
Definition populateStep (minBankroll maxBankroll binWidth : D)
    (st : DoubleMap D * Z) (bankroll : D) : Outcome (DoubleMap D * Z) :=
  let binKey := binKeyOf minBankroll binWidth bankroll in
  if deqb bankroll maxBankroll then
    match map_rbegin (fst st) with
    | Some it => Normal (bump st it)
    | None => Undefined
    end
  else
    match map_find binKey (fst st) with
    | Some it => Normal (bump st it)
    | None => Normal st
    end.

(** The loop of lines 105-128. *)
Fixpoint populate (minBankroll maxBankroll binWidth : D)
    (bankrolls : list D) (st : DoubleMap D * Z)
    : Outcome (DoubleMap D * Z) :=
  match bankrolls with
  | [] => Normal st
  | bankroll :: rest =>
      bindO (populateStep minBankroll maxBankroll binWidth st bankroll)
        (populate minBankroll maxBankroll binWidth rest)
  end.

(** The function up to the printing of the chart.  [Normal None] stands
    for the line "No surviving runs to chart." and the early [return]. *)
Definition printBankrollHistogram (finalBankrolls : list D) (betAmount : D)
    (numBins totalRuns : Z) : Outcome (option (Histogram D)) :=
  let s := scanBankrolls finalBankrolls betAmount in
  let numSurvivors := Z.of_nat (length (survivingBankrolls s)) in
  if numSurvivors =? 0 then Normal None
  else
    let binWidth :=
      chooseBinWidth (minBankroll s) (maxBankroll s) numBins in
    let bins :=
      initBins (minBankroll s) binWidth (Z.to_nat numBins) 0 [] in
    bindO
      (populate (minBankroll s) (maxBankroll s) binWidth
         (survivingBankrolls s) (bins, 0))
      (fun st =>
         Normal
           (Some {| hNumSurvivors := numSurvivors;
                    hMinBankroll := minBankroll s;
                    hMaxBankroll := maxBankroll s;
                    hBinWidth := binWidth;
                    hBins := fst st;
                    hMaxBinCount := snd st |})).

(** One printed line per entry of the map, lines 141-163, without the
    bar: range start, range end, count, percentage of the survivors. *)
Definition printedRows (h : Histogram D) : list (D * D * Z * D) :=
  map (fun binPair : D * Z =>
         let rangeStart := fst binPair in
         let count := snd binPair in
         let rangeEnd := dadd rangeStart (hBinWidth h) in
         let percentage :=
           if 0 <? hNumSurvivors h
           then dmul (ddiv (of_int count) (of_int (hNumSurvivors h)))
                  (of_int 100)
           else of_int 0 in
         (rangeStart, rangeEnd, count, percentage))
      (hBins h).

End Summariser.

(** The configuration constants at the head of [main]. *)
Record Config (D : Type) : Type := {
  HOUSE_WIN_PROB : D;
  BET_AMOUNT : D;
  BETS_PER_RUN : Z;
  TOTAL_RUNS : Z;
  HISTOGRAM_BINS : Z;
  bankrollsToTest : list D
}.
Arguments HOUSE_WIN_PROB {D} _.
Arguments BET_AMOUNT {D} _.
Arguments BETS_PER_RUN {D} _.
Arguments TOTAL_RUNS {D} _.
Arguments HISTOGRAM_BINS {D} _.
Arguments bankrollsToTest {D} _.

(** What [main] computes for one starting bankroll: the three numbers of
    its line of the table ([rPrintedPercent] is the ruin probability as it
    is printed, times 100), the final bankrolls and the histogram. *)
Record Report (D : Type) : Type := {
  rStartBankroll : D;
  rRuinCount : Z;
  rRuinProbability : D;
  rPrintedPercent : D;
  rFinalBankrolls : list D;
  rHistogram : option (Histogram D)
}.
Arguments rStartBankroll {D} _.
Arguments rRuinCount {D} _.
Arguments rRuinProbability {D} _.
Arguments rPrintedPercent {D} _.
Arguments rFinalBankrolls {D} _.
Arguments rHistogram {D} _.

Section Driver.
Context {D : Type} {ops : DoubleOps D} {rng : RandomSource D}.

(** [clock n] is what the system clock reads at the [n]-th call of
    [simulateSingleRun] of the execution; [calls] counts the calls made
    so far. *)
Variable clock : nat -> Z.

(** The loop of lines 216-222; [remaining] is [TOTAL_RUNS - i]. *)
Fixpoint runsLoop (cfg : Config D) (startBankroll : D) (remaining : nat)
    (i : Z) (calls : nat) (ruinCount : Z) (finalBankrolls : list D)
    : Z * list D * nat :=
  match remaining with
  | O => (ruinCount, finalBankrolls, calls)
  | S remaining' =>
      let finalBankroll :=
        simulateSingleRun (clock calls) startBankroll (BET_AMOUNT cfg)
          (BETS_PER_RUN cfg) (HOUSE_WIN_PROB cfg) i in
      runsLoop cfg startBankroll remaining' (i + 1) (S calls)
        (if dltb finalBankroll (BET_AMOUNT cfg) then ruinCount + 1
         else ruinCount)
        (finalBankrolls ++ [finalBankroll])
  end.

(** Body of the loop of lines 209-235.  [finalBankrolls.reserve] takes
    an unsigned size: a negative [TOTAL_RUNS] is converted to a size above
    [max_size()] and [std::length_error] is thrown. *)
Definition testBankroll (cfg : Config D) (calls : nat) (startBankroll : D)
    : Outcome (Report D * nat) :=
  if TOTAL_RUNS cfg <? 0 then Throws
  else
    let '(ruinCount, finalBankrolls, calls') :=
      runsLoop cfg startBankroll (Z.to_nat (TOTAL_RUNS cfg)) 0 calls 0 []
    in
    let ruinProbability :=
      ddiv (of_int ruinCount) (of_int (TOTAL_RUNS cfg)) in
    bindO
      (printBankrollHistogram finalBankrolls (BET_AMOUNT cfg)
         (HISTOGRAM_BINS cfg) (TOTAL_RUNS cfg))
      (fun histogram =>
         Normal
           ({| rStartBankroll := startBankroll;
               rRuinCount := ruinCount;
               rRuinProbability := ruinProbability;
               rPrintedPercent := dmul ruinProbability (of_int 100);
               rFinalBankrolls := finalBankrolls;
               rHistogram := histogram |},
            calls')).

(** The loop of lines 209-235. *)
Fixpoint bankrollLoop (cfg : Config D) (calls : nat) (bankrolls : list D)
    : Outcome (list (Report D)) :=
  match bankrolls with
  | [] => Normal []
  | startBankroll :: rest =>
      bindO (testBankroll cfg calls startBankroll)
        (fun rc =>
           bindO (bankrollLoop cfg (snd rc) rest)
             (fun reports => Normal (fst rc :: reports)))
  end.

(** [main] with its constants abstracted: the reports and the value
    returned, which is the exit code of the program. *)
Definition mainWith (cfg : Config D) : Outcome (list (Report D) * Z) :=
  bindO (bankrollLoop cfg O (bankrollsToTest cfg))
    (fun reports => Normal (reports, 0)).

(** The constants of lines 175-191. *)
Definition config : Config D :=
  {| HOUSE_WIN_PROB := ddiv (of_int 5) (of_int 9);
     BET_AMOUNT := of_int 25;
     BETS_PER_RUN := 100;
     TOTAL_RUNS := 1000000;
     HISTOGRAM_BINS := 15;
     bankrollsToTest := [of_int 500] |}.

Definition main : Outcome (list (Report D) * Z) := mainWith config.

End Driver.

End Source.

(** ** main.cpp *)

Module Main.

Section Engine.
Context {D : Type} {ops : DoubleOps D} {rng : RandomSource D}.

(** The [for] loop of [simulateSingleRun], lines 29-46.  The bankroll is
    kept in the exit so that the two engines can be compared; the function
    itself returns only the boolean. *)
Fixpoint betLoop (betAmount houseWinProb : D) (remaining : nat) (i : Z)
    (currentBankroll : D) (generator : Generator) : LoopExit D Generator :=
  match remaining with
  | O => Finished i currentBankroll generator
  | S remaining' =>
      let (u, generator') := distribution generator in
      let currentBankroll' :=
        if dltb u houseWinProb
        then dadd currentBankroll betAmount
        else dsub currentBankroll betAmount in
      if dltb currentBankroll' betAmount
      then Returned i currentBankroll' generator'
      else betLoop betAmount houseWinProb remaining' (i + 1)
             currentBankroll' generator'
  end.

Definition runLoop (now : Z) (initialHouseBankroll betAmount : D)
    (numBets : Z) (houseWinProb : D) (runIndex : Z)
    : LoopExit D Generator :=
  let seed := seedOf now runIndex in
  let generator := mt19937 seed in
  betLoop betAmount houseWinProb (Z.to_nat numBets) 0
    initialHouseBankroll generator.

(** [return true] inside the loop, [return false] after it. *)
Definition simulateSingleRun (now : Z) (initialHouseBankroll betAmount : D)
    (numBets : Z) (houseWinProb : D) (runIndex : Z) : bool :=
  match runLoop now initialHouseBankroll betAmount numBets houseWinProb
          runIndex with
  | Returned _ _ _ => true
  | Finished _ _ _ => false
  end.

End Engine.

(** The configuration constants at the head of [main]. *)
Record Config (D : Type) : Type := {
  HOUSE_WIN_PROB : D;
  BET_AMOUNT : D;
  BETS_PER_RUN : Z;
  TOTAL_RUNS : Z;
  bankrollsToTest : list D
}.
Arguments HOUSE_WIN_PROB {D} _.
Arguments BET_AMOUNT {D} _.
Arguments BETS_PER_RUN {D} _.
Arguments TOTAL_RUNS {D} _.
Arguments bankrollsToTest {D} _.

(** What [main] computes for one starting bankroll; [rPrintedPercent] is
    the ruin probability as it is printed, times 100. *)
Record Report (D : Type) : Type := {
  rStartBankroll : D;
  rRuinCount : Z;
  rRuinProbability : D;
  rPrintedPercent : D
}.
Arguments rStartBankroll {D} _.
Arguments rRuinCount {D} _.
Arguments rRuinProbability {D} _.
Arguments rPrintedPercent {D} _.

Section Driver.
Context {D : Type} {ops : DoubleOps D} {rng : RandomSource D}.

Variable clock : nat -> Z.

(** The loop of lines 86-90; [remaining] is [TOTAL_RUNS - i]. *)
Fixpoint runsLoop (cfg : Config D) (startBankroll : D) (remaining : nat)
    (i : Z) (calls : nat) (ruinCount : Z) : Z * nat :=
  match remaining with
  | O => (ruinCount, calls)
  | S remaining' =>
      runsLoop cfg startBankroll remaining' (i + 1) (S calls)
        (if simulateSingleRun (clock calls) startBankroll (BET_AMOUNT cfg)
              (BETS_PER_RUN cfg) (HOUSE_WIN_PROB cfg) i
         then ruinCount + 1
         else ruinCount)
  end.

(** Body of the loop of lines 81-99. *)
Definition testBankroll (cfg : Config D) (calls : nat) (startBankroll : D)
    : Report D * nat :=
  let (ruinCount, calls') :=
    runsLoop cfg startBankroll (Z.to_nat (TOTAL_RUNS cfg)) 0 calls 0 in
  let ruinProbability :=
    ddiv (of_int ruinCount) (of_int (TOTAL_RUNS cfg)) in
  ({| rStartBankroll := startBankroll;
      rRuinCount := ruinCount;
      rRuinProbability := ruinProbability;
      rPrintedPercent := dmul ruinProbability (of_int 100) |},
   calls').

Fixpoint bankrollLoop (cfg : Config D) (calls : nat) (bankrolls : list D)
    : list (Report D) :=
  match bankrolls with
  | [] => []
  | startBankroll :: rest =>
      let (r, calls') := testBankroll cfg calls startBankroll in
      r :: bankrollLoop cfg calls' rest
  end.

Definition mainWith (cfg : Config D) : list (Report D) * Z :=
  (bankrollLoop cfg O (bankrollsToTest cfg), 0).

(** The constants of lines 54-65. *)
Definition config : Config D :=
  {| HOUSE_WIN_PROB := ddiv (of_int 5) (of_int 9);
     BET_AMOUNT := of_int 25;
     BETS_PER_RUN := 1000000;
     TOTAL_RUNS := 10000;
     bankrollsToTest :=
       map of_int [500; 1000; 2500; 5000; 7500; 10000; 15000; 20000] |}.

Definition main : list (Report D) * Z := mainWith config.

End Driver.

End Main.

(** ** Exact arithmetic: doubles read as rationals *)

Definition Qltb (x y : Q) : bool := negb (Qle_bool y x).

(** The largest finite double, (2 - 2^-52) * 2^1023. *)
Definition Q_DBL_MAX : Q := inject_Z (2 ^ 1024 - 2 ^ 971).

#[export] Instance ExactDouble : DoubleOps Q := {|
  dadd := Qplus;
  dsub := Qminus;
  dmul := Qmult;
  ddiv := Qdiv;
  dltb := Qltb;
  deqb := Qeq_bool;
  dfloor := fun x => inject_Z (Qfloor x);
  of_int := inject_Z;
  DBL_MAX := Q_DBL_MAX;
  DBL_LOWEST := Qopp Q_DBL_MAX
|}.

(** ** IEEE-754 binary64 arithmetic

    Doubles are given twice: as the values [SpecFloat] specifies, a sign, a
    mantissa and an exponent with the operations computed on integers and
    rounded to nearest even; and as the primitive floats of the system,
    which print as decimals. *)

(** Conversion of an integer, rounded to nearest. *)
Definition spec_of_Z (z : Z) : spec_float :=
  binary_normalize prec emax z 0 false.

(** [std::floor]: a finite double [m * 2^e] with [e >= 0] is an integer;
    otherwise the quotient of [m] by [2^-e] is rounded towards minus
    infinity, and is below 2^53, hence a double.  Zeros, infinities and NaN
    are returned as they are. *)
Definition spec_floor (x : spec_float) : spec_float :=
  match x with
  | S754_finite s m e =>
      if 0 <=? e then x
      else
        let q := Z.pos m / 2 ^ (- e) in
        let exact := Z.pos m mod 2 ^ (- e) =? 0 in
        if s then spec_of_Z (- (if exact then q else q + 1))
        else spec_of_Z q
  | _ => x
  end.

#[export] Instance SpecDouble : DoubleOps spec_float := {|
  dadd := SFadd prec emax;
  dsub := SFsub prec emax;
  dmul := SFmul prec emax;
  ddiv := SFdiv prec emax;
  dltb := SFltb;
  deqb := SFeqb;
  dfloor := spec_floor;
  of_int := spec_of_Z;
  DBL_MAX := SFmax_float prec emax;
  DBL_LOWEST := SFopp (SFmax_float prec emax)
|}.

(** Conversion of an integer below 2^63 in magnitude (every [int] and
    [long long] of the program is), rounded to nearest. *)
Definition float_of_Z (z : Z) : float :=
  match z with
  | Z0 => PrimFloat.zero
  | Zpos _ => PrimFloat.of_uint63 (Uint63.of_Z z)
  | Zneg p => PrimFloat.opp (PrimFloat.of_uint63 (Uint63.of_Z (Zpos p)))
  end.

Definition float_floor (x : float) : float := SF2Prim (spec_floor (Prim2SF x)).

Definition float_DBL_MAX : float := PrimFloat.next_down PrimFloat.infinity.

#[export] Instance IEEEDouble : DoubleOps float := {|
  dadd := PrimFloat.add;
  dsub := PrimFloat.sub;
  dmul := PrimFloat.mul;
  ddiv := PrimFloat.div;
  dltb := PrimFloat.ltb;
  deqb := PrimFloat.eqb;
  dfloor := float_floor;
  of_int := float_of_Z;
  DBL_MAX := float_DBL_MAX;
  DBL_LOWEST := PrimFloat.opp float_DBL_MAX
|}.

(** ** The random source of the C++ standard library

    [std::mt19937] is fixed by the C++ standard ([rand.eng.mers] with the
    parameters of [rand.predef]): a state of 624 words of 32 bits, filled
    from the seed by a linear recurrence, regenerated as a whole every 624
    outputs, each output tempered.  A draw of
    [std::uniform_real_distribution<double>(0.0, 1.0)] is taken to be
    [generate_canonical<double, 53>], which [rand.util.canonical] defines
    from two outputs [g0], [g1] as [(g0 + g1 * 2^32) / 2^64]; it is
    computed here in the order the GNU implementation uses. *)

Module MT19937.

Record state : Type := { words : list Z; index : nat }.

(** Words 1 to 623 of the initial state; [prev] is word [i - 1]. *)
Fixpoint seedWords (remaining : nat) (i prev : Z) : list Z :=
  match remaining with
  | O => []
  | S remaining' =>
      let x :=
        (1812433253 * Z.lxor prev (Z.shiftr prev 30) + i) mod 2 ^ 32 in
      x :: seedWords remaining' (i + 1) x
  end.

Definition seed (s : Z) : state :=
  let w0 := s mod 2 ^ 32 in
  {| words := w0 :: seedWords 623 1 w0; index := 624 |}.

Fixpoint update (k : nat) (v : Z) (mt : list Z) : list Z :=
  match mt, k with
  | [], _ => []
  | _ :: t, O => v :: t
  | x :: t, S k' => x :: update k' v t
  end.

(** Regeneration of word [k], in place. *)
Definition twistWord (mt : list Z) (k : nat) : list Z :=
  let y :=
    Z.lor (Z.land (nth k mt 0) 0x80000000)
      (Z.land (nth ((k + 1) mod 624) mt 0) 0x7fffffff) in
  update k
    (Z.lxor (Z.lxor (nth ((k + 397) mod 624) mt 0) (Z.shiftr y 1))
       (if Z.odd y then 0x9908b0df else 0))
    mt.

Definition twist (mt : list Z) : list Z :=
  fold_left twistWord (seq 0 624) mt.

Definition temper (y : Z) : Z :=
  let y := Z.lxor y (Z.shiftr y 11) in
  let y := Z.lxor y (Z.land (Z.shiftl y 7) 0x9d2c5680) in
  let y := Z.lxor y (Z.land (Z.shiftl y 15) 0xefc60000) in
  Z.lxor y (Z.shiftr y 18).

(** One 32-bit output. *)
Definition next (st : state) : Z * state :=
  let st' :=
    if (624 <=? index st)%nat
    then {| words := twist (words st); index := 0 |}
    else st in
  (temper (nth (index st') (words st') 0),
   {| words := words st'; index := S (index st') |}).

(** The output number [n], counted from 1. *)
Fixpoint output (n : nat) (st : state) : Z :=
  match n with
  | O => 0
  | S O => fst (next st)
  | S n' => output n' (snd (next st))
  end.

Section Canonical.
Context {D : Type} {ops : DoubleOps D}.

Definition canonical (st : state) : D * state :=
  let (g0, st1) := next st in
  let (g1, st2) := next st1 in
  let r := of_int (2 ^ 32) in
  let sum := dadd (dmul (of_int g0) (of_int 1)) (dmul (of_int g1) r) in
  let tmp := dmul (dmul (of_int 1) r) r in
  let ret := ddiv sum tmp in
  (if dltb ret (of_int 1) then ret
   else dsub (of_int 1) (ddiv (of_int 1) (of_int (2 ^ 53))),
   st2).

Definition source : RandomSource D :=
  {| Generator := state;
     mt19937 := seed;
     distribution := canonical |}.

End Canonical.

End MT19937.

(** ** A random source that replays recorded draws

    [streams seed] is the sequence of draws the generator seeded with [seed]
    produces; once it is used up the source keeps returning [dflt]. *)
Definition replay {D : Type} (streams : Z -> list D) (dflt : D)
    : RandomSource D :=
  {| Generator := list D;
     mt19937 := streams;
     distribution := fun g =>
       match g with
       | [] => (dflt, [])
       | u :: g' => (u, g')
       end |}.

(** ** The trial, as the specification words it

    The definitions of this section follow the text of the specification,
    not the code: the draws of a trial form a stream; the bankroll after
    [n] bets is the starting bankroll moved by [+b] or [-b] once per draw;
    the trial stops at the first bet after which the bankroll is below the
    bet amount, or after [N] bets. *)

Section TrialSpec.
Context {D : Type} {ops : DoubleOps D} {rng : RandomSource D}.

(** The generator after [n] draws. *)
Fixpoint advance (n : nat) (g : Generator) : Generator :=
  match n with
  | O => g
  | S n' => snd (distribution (advance n' g))
  end.

(** The draw number [n], counted from 0, of the stream that starts in
    state [g]. *)
Definition draw (g : Generator) (n : nat) : D :=
  fst (distribution (advance n g)).

Fixpoint bankrollAfter (B0 b p : D) (g : Generator) (n : nat) : D :=
  match n with
  | O => B0
  | S n' =>
      if dltb (draw g n') p
      then dadd (bankrollAfter B0 b p g n') b
      else dsub (bankrollAfter B0 b p g n') b
  end.

(** [k] is the number of bets of the trial: no bet before the [k]-th
    left the bankroll below [b], and either the [k]-th did or [k = N]. *)
Definition stopsAfter (B0 b p : D) (g : Generator) (N k : nat) : Prop :=
  (k <= N)%nat /\
  (forall j, (0 < j < k)%nat -> dltb (bankrollAfter B0 b p g j) b = false) /\
  ((k < N)%nat ->
   (0 < k)%nat /\ dltb (bankrollAfter B0 b p g k) b = true).

(** A bankroll covers a bet when it is not strictly below its amount. *)
Definition covered (betAmount x : D) : Prop := dltb x betAmount = false.

End TrialSpec.

(** ** The campaign, as the specification words it

    The final bankrolls of the trials [i], [i + 1], ... of one starting
    bankroll, when [calls] calls of the trial engine have been made
    before. *)

Section CampaignSpec.
Context {D : Type} {ops : DoubleOps D} {rng : RandomSource D}.

Definition trialResults (clock : nat -> Z) (cfg : Source.Config D)
    (startBankroll : D) (calls : nat) (i : Z) (n : nat) : list D :=
  map (fun t =>
         Source.simulateSingleRun (clock (calls + t)%nat) startBankroll
           (Source.BET_AMOUNT cfg) (Source.BETS_PER_RUN cfg)
           (Source.HOUSE_WIN_PROB cfg) (i + Z.of_nat t))
      (seq 0 n).

(** Number of final bankrolls strictly below the bet amount. *)
Definition countRuined (betAmount : D) (finalBankrolls : list D) : Z :=
  Z.of_nat (length (filter (fun f => dltb f betAmount) finalBankrolls)).

(** A final bankroll survives when it is not strictly below the bet
    amount. *)
Definition survives (betAmount f : D) : bool := negb (dltb f betAmount).

(** Number of surviving final bankrolls. *)
Definition countSurviving (betAmount : D) (finalBankrolls : list D) : Z :=
  Z.of_nat (length (filter (survives betAmount) finalBankrolls)).

(** The number of survivors a report is based on: the one its chart
    states, and none when no chart is printed. *)
Definition survivingCountOf (r : Source.Report D) : Z :=
  match Source.rHistogram r with
  | Some h => Source.hNumSurvivors h
  | None => 0
  end.

(** What the report of one starting bankroll has to satisfy: the trials
    were all run, ruined and surviving trials add up to their number,
    and the probability is the quotient of the two counts. *)
Definition reportSound (cfg : Source.Config D) (r : Source.Report D)
    : Prop :=
  length (Source.rFinalBankrolls r) = Z.to_nat (Source.TOTAL_RUNS cfg) /\
  Source.rRuinCount r =
    countRuined (Source.BET_AMOUNT cfg) (Source.rFinalBankrolls r) /\
  survivingCountOf r =
    countSurviving (Source.BET_AMOUNT cfg) (Source.rFinalBankrolls r) /\
  Source.rRuinCount r + survivingCountOf r = Source.TOTAL_RUNS cfg /\
  Source.rRuinProbability r =
    ddiv (of_int (Source.rRuinCount r)) (of_int (Source.TOTAL_RUNS cfg)) /\
  Source.rPrintedPercent r = dmul (Source.rRuinProbability r) (of_int 100).

End CampaignSpec.

(** The configurations the specification calls valid, in exact
    arithmetic. *)
Definition validConfig (cfg : Source.Config Q) : bool :=
  Qle_bool 0 (Source.HOUSE_WIN_PROB cfg) &&
  Qle_bool (Source.HOUSE_WIN_PROB cfg) 1 &&
  Qltb 0 (Source.BET_AMOUNT cfg) &&
  (0 <? Source.BETS_PER_RUN cfg) &&
  (0 <? Source.TOTAL_RUNS cfg) &&
  (0 <? Source.HISTOGRAM_BINS cfg) &&
  match Source.bankrollsToTest cfg with
  | [] => false
  | _ :: _ => true
  end.

(** ** The histogram, as the specification words it *)

Section HistogramSpec.
Context {D : Type} {ops : DoubleOps D}.

(** A survivor is counted when it equals the maximum or when its key is
    one of the keys of the map. *)
Definition counted (minB maxB w : D) (bins : DoubleMap D) (x : D) : bool :=
  deqb x maxB ||
  match map_find (Source.binKeyOf minB w x) bins with
  | Some _ => true
  | None => false
  end.

(** The bins the initialisation is meant to create: [n] entries with
    the keys [minB + t * w] for [t] from [a] on, all counts zero. *)
Definition gridFrom (minB w : D) (a n : nat) : DoubleMap D :=
  map (fun t => (dadd minB (dmul (of_int (Z.of_nat t)) w), 0)) (seq a n).

End HistogramSpec.

(** ** Concrete inputs

    Scenario 3 of the specification: p = 0.5, b = 1, N = 2, four trials from
    a starting bankroll of 2, with a seed that yields the draws 0.1, 0.9,
    0.2, 0.8.  Scenario 3 fixes no bin count; 2 is used. *)

Definition scenario3_source : RandomSource Q :=
  replay (fun _ => [1 # 10; 9 # 10; 2 # 10; 8 # 10]%Q) 0%Q.

Definition scenario3 : Source.Config Q :=
  {| Source.HOUSE_WIN_PROB := (1 # 2)%Q;
     Source.BET_AMOUNT := 1%Q;
     Source.BETS_PER_RUN := 2;
     Source.TOTAL_RUNS := 4;
     Source.HISTOGRAM_BINS := 2;
     Source.bankrollsToTest := [2%Q] |}.

(** A clock that ticks once per call. *)
Definition tickingClock (n : nat) : Z := 1000 + Z.of_nat n.

(** The same clock, read [2^32] ticks later. *)
Definition laterClock (n : nat) : Z := tickingClock n + 2 ^ 32.

(** A clock that ticks once per call and starts at 1. *)
Definition earlyClock (n : nat) : Z := 1 + Z.of_nat n.

(** One trial of one even-money bet, started with exactly one bet
    amount. *)
Definition oneBet : Source.Config Q :=
  {| Source.HOUSE_WIN_PROB := (1 # 2)%Q;
     Source.BET_AMOUNT := 25%Q;
     Source.BETS_PER_RUN := 1;
     Source.TOTAL_RUNS := 1;
     Source.HISTOGRAM_BINS := 1;
     Source.bankrollsToTest := [25%Q] |}.

(** Scenario 3 with a house win probability of 2. *)
Definition scenario3_bad_probability : Source.Config Q :=
  {| Source.HOUSE_WIN_PROB := 2%Q;
     Source.BET_AMOUNT := Source.BET_AMOUNT scenario3;
     Source.BETS_PER_RUN := Source.BETS_PER_RUN scenario3;
     Source.TOTAL_RUNS := Source.TOTAL_RUNS scenario3;
     Source.HISTOGRAM_BINS := Source.HISTOGRAM_BINS scenario3;
     Source.bankrollsToTest := Source.bankrollsToTest scenario3 |}.

(** Scenario 3 without any starting bankroll. *)
Definition scenario3_no_bankroll : Source.Config Q :=
  {| Source.HOUSE_WIN_PROB := Source.HOUSE_WIN_PROB scenario3;
     Source.BET_AMOUNT := Source.BET_AMOUNT scenario3;
     Source.BETS_PER_RUN := Source.BETS_PER_RUN scenario3;
     Source.TOTAL_RUNS := Source.TOTAL_RUNS scenario3;
     Source.HISTOGRAM_BINS := Source.HISTOGRAM_BINS scenario3;
     Source.bankrollsToTest := [] |}.

(** Three final bankrolls, as doubles: 1, the double just below 14,
    and 14. *)
Definition nearMaximum : list spec_float :=
  [spec_of_Z 1; SFpred prec emax (spec_of_Z 14); spec_of_Z 14].

(** The same, as primitive floats. *)
Definition nearMaximum_prim : list float :=
  [1%float; PrimFloat.next_down 14%float; 14%float].

(** A campaign in doubles whose bet amount, 0.2, is not a binary fraction:
    three trials of six even-money bets from a bankroll of 1.5. *)
Definition fifths : Source.Config float :=
  {| Source.HOUSE_WIN_PROB := 0.5%float;
     Source.BET_AMOUNT := (1 / 5)%float;
     Source.BETS_PER_RUN := 6;
     Source.TOTAL_RUNS := 3;
     Source.HISTOGRAM_BINS := 5;
     Source.bankrollsToTest := [1.5%float] |}.

(** Draws for the three trials of [fifths] on [tickingClock], whose seeds
    are 1000, 1002 and 1004: six losses; two losses, then four wins; one
    loss, four wins, one loss. *)
Definition fifthsSource : RandomSource float :=
  replay
    (fun seed =>
       if seed =? 1000 then
         [0.75; 0.75; 0.75; 0.75; 0.75; 0.75]%float
       else if seed =? 1002 then
         [0.75; 0.75; 0.25; 0.25; 0.25; 0.25]%float
       else
         [0.75; 0.25; 0.25; 0.25; 0.25; 0.75]%float)
    0%float.

(** The configuration of main.cpp that corresponds to scenario 3. *)
Definition scenario3_main : Main.Config Q :=
  {| Main.HOUSE_WIN_PROB := (1 # 2)%Q;
     Main.BET_AMOUNT := 1%Q;
     Main.BETS_PER_RUN := 2;
     Main.TOTAL_RUNS := 4;
     Main.bankrollsToTest := [2%Q] |}.

(** ** Further definitions for the histogram

    The greatest of a list of counts (0 for no count), which is what
    [maxBinCount] is meant to hold. *)
Definition listMax (counts : list Z) : Z := fold_right Z.max 0 counts.

(** The position, in exact arithmetic, of the bin that lines 113-123
    select for a survivor: the last one ([rbegin]) for a survivor equal to
    the maximum, and otherwise the whole part of its distance to the
    minimum, in bin widths. *)
Definition binIndexOf (minB maxB w : Q) (numBins : Z) (x : Q) : nat :=
  if Qeq_bool x maxB then (Z.to_nat numBins - 1)%nat
  else Z.to_nat (Qfloor ((x - minB) / w)).

(** The number of survivors at each of the [numBins] bin positions. *)
Definition countsByIndex (minB maxB w : Q) (numBins : Z) (survivors : list Q)
    : list Z :=
  map (fun i =>
         Z.of_nat
           (length
              (filter (fun x => binIndexOf minB maxB w numBins x =? i)%nat
                 survivors)))
      (seq 0 (Z.to_nat numBins)).

(** [static_cast<int>] of a double, which drops the fractional part. *)
Class DoubleToInt (D : Type) := { dtrunc : D -> Z }.

#[export] Instance ExactToInt : DoubleToInt Q :=
  {| dtrunc := fun q => if Qltb q 0 then Qceiling q else Qfloor q |}.

#[export] Instance SpecToInt : DoubleToInt spec_float :=
  {| dtrunc := fun x =>
       match x with
       | S754_finite s m e =>
           let v := if 0 <=? e then Z.pos m * 2 ^ e
                    else Z.pos m / 2 ^ (- e) in
           if s then - v else v
       | _ => 0
       end |}.

Section Bars.
Context {D : Type} {ops : DoubleOps D} {toInt : DoubleToInt D}.

(** Lines 148-152 of Source.cpp: the number of characters of the bar of a
    bin, [MAX_BAR_WIDTH] being 40. *)
Definition barWidthOf (count maxBinCount : Z) : Z :=
  if 0 <? maxBinCount
  then dtrunc (dmul (ddiv (of_int count) (of_int maxBinCount)) (of_int 40))
  else 0.

(** The bar widths of the printed lines, in the order of the bins. *)
Definition printedBars (h : Source.Histogram D) : list Z :=
  map (fun binPair : D * Z =>
         barWidthOf (snd binPair) (Source.hMaxBinCount h))
      (Source.hBins h).

(** The value of [percentage] that line 160 computes for each line of the
    chart, in the order of the bins: the share of the survivors that the
    bin holds.  Line 162 then prints it rounded to one decimal. *)
Definition linePercentages (h : Source.Histogram D) : list D :=
  map snd (Source.printedRows h).

End Bars.

(** Six final bankrolls, one of them ruined for a bet amount of 25. *)
Definition sixFinals : list Q := [50; 60; 10; 75; 100; 99]%Q.

(** The sum of a list of rationals. *)
Definition Qsum (l : list Q) : Q := fold_right Qplus 0%Q l.

Section Wins.
Context {D : Type} {ops : DoubleOps D} {rng : RandomSource D}.

(** The number of bets the house wins among the first [n] of the stream
    that starts in [g]: those whose draw is strictly below [p]. *)
Fixpoint countWins (p : D) (g : Generator) (n : nat) : Z :=
  match n with
  | O => 0
  | S n' => countWins p g n' + (if dltb (draw g n') p then 1 else 0)
  end.

(** The constants of a configuration of Source.cpp that main.cpp has too. *)
Definition toMainConfig (cfg : Source.Config D) : Main.Config D :=
  {| Main.HOUSE_WIN_PROB := Source.HOUSE_WIN_PROB cfg;
     Main.BET_AMOUNT := Source.BET_AMOUNT cfg;
     Main.BETS_PER_RUN := Source.BETS_PER_RUN cfg;
     Main.TOTAL_RUNS := Source.TOTAL_RUNS cfg;
     Main.bankrollsToTest := Source.bankrollsToTest cfg |}.

(** The numbers of the line of the table that main.cpp prints. *)
Definition tableLine (r : Source.Report D) : Main.Report D :=
  {| Main.rStartBankroll := Source.rStartBankroll r;
     Main.rRuinCount := Source.rRuinCount r;
     Main.rRuinProbability := Source.rRuinProbability r;
     Main.rPrintedPercent := Source.rPrintedPercent r |}.

End Wins.

(** Scenario 3 without any bet, from a bankroll below the bet amount. *)
Definition scenario3_no_bet : Source.Config Q :=
  {| Source.HOUSE_WIN_PROB := Source.HOUSE_WIN_PROB scenario3;
     Source.BET_AMOUNT := Source.BET_AMOUNT scenario3;
     Source.BETS_PER_RUN := 0;
     Source.TOTAL_RUNS := Source.TOTAL_RUNS scenario3;
     Source.HISTOGRAM_BINS := Source.HISTOGRAM_BINS scenario3;
     Source.bankrollsToTest := [(1 # 2)%Q] |}.

(** * Theorems *)

(** ** The trial engine, for every arithmetic and every random source *)

Section EngineFacts.
Context {D : Type} {ops : DoubleOps D} {rng : RandomSource D}.
Variables betAmount houseWinProb : D.

Lemma distribution_advance (g0 : Generator) (j : nat) :
  distribution (advance j g0) = (draw g0 j, advance (S j) g0).
Proof.
  unfold draw; simpl. now destruct (distribution (advance j g0)).
Qed.

(** The two translation units contain the same loop. *)
Lemma Main_betLoop_eq (n : nat) :
  forall i cur g,
    Main.betLoop betAmount houseWinProb n i cur g =
    Source.betLoop betAmount houseWinProb n i cur g.
Proof.
  induction n as [|n IH]; intros i cur g; simpl; [reflexivity|].
  destruct (distribution g) as [u g'].
  destruct (dltb _ betAmount); [reflexivity|apply IH].
Qed.

(** Loop invariant: entering iteration [j] with the bankroll and the
    generator the specification has after [j] bets, the loop either
    returns from the first iteration that leaves the bankroll below the
    bet amount, or runs all its iterations. *)
Lemma betLoop_run (B0 : D) (g0 : Generator) (n : nat) :
  forall j,
    let B := bankrollAfter B0 betAmount houseWinProb g0 in
    let e := Source.betLoop betAmount houseWinProb n (Z.of_nat j)
               (B j) (advance j g0) in
    (exists k, (j < k <= j + n)%nat /\
       e = Returned (Z.of_nat k - 1) (B k) (advance k g0) /\
       dltb (B k) betAmount = true /\
       forall i, (j < i < k)%nat -> dltb (B i) betAmount = false)
    \/
    (e = Finished (Z.of_nat (j + n)%nat) (B (j + n)%nat)
           (advance (j + n)%nat g0) /\
     forall i, (j < i <= j + n)%nat -> dltb (B i) betAmount = false).
Proof.
  induction n as [|n IH]; intros j B e.
  - right. subst e; simpl. rewrite Nat.add_0_r. split; [reflexivity|].
    intros i Hi; lia.
  - subst e. cbn [Source.betLoop]. rewrite distribution_advance.
    change (if dltb (draw g0 j) houseWinProb
            then dadd (B j) betAmount else dsub (B j) betAmount)
      with (B (S j)).
    destruct (dltb (B (S j)) betAmount) eqn:Hruin.
    + left. exists (S j).
      split; [lia|]. split; [f_equal; lia|]. split; [exact Hruin|].
      intros i Hi; lia.
    + replace (Z.of_nat j + 1) with (Z.of_nat (S j)) by lia.
      destruct (IH (S j)) as [[k (Hk & He & Hr & Hbefore)] | [He Hall]].
      * left. exists k.
        split; [lia|]. split; [exact He|]. split; [exact Hr|].
        intros i Hi. destruct (Nat.eq_dec i (S j)) as [->|Hne];
          [exact Hruin | apply Hbefore; lia].
      * right. replace (j + S n)%nat with (S j + n)%nat by lia.
        split; [exact He|].
        intros i Hi. destruct (Nat.eq_dec i (S j)) as [->|Hne];
          [exact Hruin | apply Hall; lia].
Qed.

Lemma stopsAfter_unique (B0 : D) (g : Generator) (N k k' : nat) :
  stopsAfter B0 betAmount houseWinProb g N k ->
  stopsAfter B0 betAmount houseWinProb g N k' ->
  k = k'.
Proof.
  intros (Hk & Hbefore & Hstop) (Hk' & Hbefore' & Hstop').
  destruct (Nat.lt_trichotomy k k') as [Hlt | [Heq | Hgt]];
    [exfalso | exact Heq | exfalso].
  - destruct Hstop as [Hpos Hruin]; [lia|].
    rewrite Hbefore' in Hruin by lia. discriminate.
  - destruct Hstop' as [Hpos Hruin]; [lia|].
    rewrite Hbefore in Hruin by lia. discriminate.
Qed.

(** The value a trial returns is the bankroll after some number of bets,
    at most [numBets]. *)
Lemma simulateSingleRun_bankrollAfter
    (now : Z) (initialHouseBankroll : D) (numBets runIndex : Z) :
  exists k : nat,
    (k <= Z.to_nat numBets)%nat /\
    Source.simulateSingleRun now initialHouseBankroll betAmount numBets
      houseWinProb runIndex =
    bankrollAfter initialHouseBankroll betAmount houseWinProb
      (mt19937 (seedOf now runIndex)) k.
Proof.
  unfold Source.simulateSingleRun, Source.runLoop.
  pose proof (betLoop_run initialHouseBankroll (mt19937 (seedOf now runIndex))
                (Z.to_nat numBets) O) as Hrun.
  cbn zeta in Hrun. cbn [advance bankrollAfter Z.of_nat Nat.add] in Hrun.
  destruct Hrun as [[k (Hk & He & _)] | [He _]]; rewrite He;
    cbn [exitBankroll].
  - exists k. split; [lia | reflexivity].
  - exists (Z.to_nat numBets). split; [lia | reflexivity].
Qed.

(** C2.  The trial engine of Source.cpp computes what the specification
    describes: started from bankroll B0 with the generator seeded for the
    run, it performs k bets, where k is the first bet that leaves the
    bankroll strictly below the bet amount, or N when there is none; each
    bet adds b when the draw is strictly below p and subtracts b
    otherwise; the value returned is the bankroll after these k bets; and
    the generator has been advanced exactly k times, once per bet and
    never after the return. *)
Theorem simulateSingleRun_spec
    (now : Z) (initialHouseBankroll : D) (numBets runIndex : Z) :
  let g0 := mt19937 (seedOf now runIndex) in
  let e := Source.runLoop now initialHouseBankroll betAmount numBets
             houseWinProb runIndex in
  exists k : nat,
    stopsAfter initialHouseBankroll betAmount houseWinProb g0
      (Z.to_nat numBets) k /\
    Source.simulateSingleRun now initialHouseBankroll betAmount numBets
      houseWinProb runIndex =
    bankrollAfter initialHouseBankroll betAmount houseWinProb g0 k /\
    betsPerformed e = Z.of_nat k /\
    exitGenerator e = advance k g0.
Proof.
  intros g0 e. subst e.
  unfold Source.simulateSingleRun, Source.runLoop. fold g0.
  pose proof (betLoop_run initialHouseBankroll g0 (Z.to_nat numBets) O)
    as Hrun.
  cbn zeta in Hrun. cbn [advance bankrollAfter Z.of_nat Nat.add] in Hrun.
  destruct Hrun as [[k (Hk & He & Hr & Hbefore)] | [He Hall]]; rewrite He.
  - exists k. cbn [exitBankroll betsPerformed exitGenerator].
    split; [|split; [reflexivity | split; [lia | reflexivity]]].
    split; [lia|]. split; [exact Hbefore|]. intros _. split; [lia|exact Hr].
  - exists (Z.to_nat numBets).
    cbn [exitBankroll betsPerformed exitGenerator].
    split; [|split; [reflexivity | split; reflexivity]].
    split; [lia|]. split; [intros j Hj; apply Hall; lia | intros Hlt; lia].
Qed.

(** What the two exits of the loop tell about the bankroll they carry. *)
Lemma betLoop_exit (n : nat) :
  forall i cur g,
    match Source.betLoop betAmount houseWinProb n i cur g with
    | Returned i' cur' _ =>
        dltb cur' betAmount = true /\ i <= i' < i + Z.of_nat n
    | Finished i' cur' _ =>
        i' = i + Z.of_nat n /\
        ((0 < n)%nat -> dltb cur' betAmount = false)
    end.
Proof.
  induction n as [|n IH]; intros i cur g.
  - simpl. split; [lia | intros H; inversion H].
  - cbn [Source.betLoop]. destruct (distribution g) as [u g'].
    set (cur' := if dltb u houseWinProb then dadd cur betAmount
                 else dsub cur betAmount).
    destruct (dltb cur' betAmount) eqn:Hruin.
    + split; [exact Hruin | lia].
    + specialize (IH (i + 1) cur' g').
      destruct n as [|n].
      * simpl. split; [lia | intros _; exact Hruin].
      * destruct (Source.betLoop betAmount houseWinProb (S n) (i + 1)
                    cur' g') as [i' c' g'' | i' c' g''].
        -- destruct IH as [Hr Hi]. split; [exact Hr | lia].
        -- destruct IH as [Hi Hr]. split; [lia|]. intros _.
           apply Hr; lia.
Qed.

End EngineFacts.

(** ** The campaign driver, for every arithmetic and every random source *)

Section DriverFacts.
Context {D : Type} {ops : DoubleOps D} {rng : RandomSource D}.
Variable clock : nat -> Z.
Variable cfg : Source.Config D.

Lemma trialResults_S (startBankroll : D) (calls : nat) (i : Z) (n : nat) :
  trialResults clock cfg startBankroll calls i (S n) =
  Source.simulateSingleRun (clock calls) startBankroll
    (Source.BET_AMOUNT cfg) (Source.BETS_PER_RUN cfg)
    (Source.HOUSE_WIN_PROB cfg) i
  :: trialResults clock cfg startBankroll (S calls) (i + 1) n.
Proof.
  unfold trialResults. cbn [seq map].
  rewrite Nat.add_0_r, Z.add_0_r. f_equal.
  rewrite <- seq_shift, map_map. apply map_ext. intros t.
  f_equal; [f_equal; lia | lia].
Qed.

Lemma trialResults_length (startBankroll : D) (calls : nat) (i : Z)
    (n : nat) :
  length (trialResults clock cfg startBankroll calls i n) = n.
Proof. unfold trialResults. now rewrite length_map, length_seq. Qed.

(** The loop over the trials pushes the result of every trial and counts
    those below the bet amount. *)
Lemma runsLoop_spec (startBankroll : D) (n : nat) :
  forall i calls ruinCount finalBankrolls,
    Source.runsLoop clock cfg startBankroll n i calls ruinCount
      finalBankrolls =
    (ruinCount +
     countRuined (Source.BET_AMOUNT cfg)
       (trialResults clock cfg startBankroll calls i n),
     finalBankrolls ++ trialResults clock cfg startBankroll calls i n,
     (calls + n)%nat).
Proof.
  induction n as [|n IH]; intros i calls ruinCount finalBankrolls.
  - unfold countRuined; simpl.
    now rewrite Z.add_0_r, app_nil_r, Nat.add_0_r.
  - cbn [Source.runsLoop]. rewrite IH, trialResults_S.
    set (f := Source.simulateSingleRun _ _ _ _ _ _).
    set (rest := trialResults _ _ _ _ _ _).
    unfold countRuined. cbn [filter].
    rewrite <- app_assoc. cbn [app].
    replace (calls + S n)%nat with (S calls + n)%nat by lia.
    destruct (dltb f (Source.BET_AMOUNT cfg)); cbn [length].
    all: try reflexivity; do 2 f_equal; lia.
Qed.

End DriverFacts.

Section RuinClassification.
Context {D : Type} {ops : DoubleOps D} {rng : RandomSource D}.

(** C3.  With at least one bet per trial, for every trial, with [g0] the
    generator seeded for the trial and [B j] the bankroll after [j] bets
    (each bet one draw of [g0] and one update by the bet amount):
    the bankroll the trial returns is strictly below the bet amount
    exactly when the trial left its loop through the return of the ruin
    check; a trial whose final bankroll is not below the bet amount has
    performed all N bets, that is, it went N times round the loop, drew N
    numbers from the generator and returns [B N], none of [B 1 .. B N]
    being below the bet amount; a trial that left through the ruin check
    did so after some k bets, 1 <= k <= N, having drawn k numbers, and
    returns [B k], the first of [B 1 .. B k] below the bet amount.  And
    the ruin count of the campaign driver is the number of trials whose
    final bankroll is strictly below the bet amount. *)
Theorem ruin_classification
    (clock : nat -> Z) (cfg : Source.Config D) (startBankroll : D)
    (calls : nat) :
  1 <= Source.BETS_PER_RUN cfg ->
  (forall now runIndex,
     let g0 := mt19937 (seedOf now runIndex) in
     let B := bankrollAfter startBankroll (Source.BET_AMOUNT cfg)
                (Source.HOUSE_WIN_PROB cfg) g0 in
     let N := Z.to_nat (Source.BETS_PER_RUN cfg) in
     let e := Source.runLoop now startBankroll (Source.BET_AMOUNT cfg)
                (Source.BETS_PER_RUN cfg) (Source.HOUSE_WIN_PROB cfg)
                runIndex in
     let finalBankroll :=
       Source.simulateSingleRun now startBankroll (Source.BET_AMOUNT cfg)
         (Source.BETS_PER_RUN cfg) (Source.HOUSE_WIN_PROB cfg) runIndex in
     (dltb finalBankroll (Source.BET_AMOUNT cfg) = true <->
      isReturned e = true) /\
     (dltb finalBankroll (Source.BET_AMOUNT cfg) = false ->
      betsPerformed e = Source.BETS_PER_RUN cfg /\
      exitGenerator e = advance N g0 /\
      finalBankroll = B N /\
      forall j, (0 < j <= N)%nat ->
        dltb (B j) (Source.BET_AMOUNT cfg) = false) /\
     (isReturned e = true ->
      exists k : nat,
        (0 < k <= N)%nat /\
        betsPerformed e = Z.of_nat k /\
        exitGenerator e = advance k g0 /\
        finalBankroll = B k /\
        forall j, (0 < j < k)%nat ->
          dltb (B j) (Source.BET_AMOUNT cfg) = false)) /\
  (let '(ruinCount, finalBankrolls, _) :=
     Source.runsLoop clock cfg startBankroll
       (Z.to_nat (Source.TOTAL_RUNS cfg)) 0 calls 0 [] in
   finalBankrolls =
     trialResults clock cfg startBankroll calls 0
       (Z.to_nat (Source.TOTAL_RUNS cfg)) /\
   ruinCount = countRuined (Source.BET_AMOUNT cfg) finalBankrolls).
Proof.
  intros HN. split.
  - intros now runIndex g0 B N e finalBankroll.
    subst finalBankroll e B N.
    unfold Source.simulateSingleRun, Source.runLoop. fold g0.
    pose proof (betLoop_run (Source.BET_AMOUNT cfg)
                  (Source.HOUSE_WIN_PROB cfg) startBankroll g0
                  (Z.to_nat (Source.BETS_PER_RUN cfg)) O) as Hrun.
    cbn zeta in Hrun. cbn [advance bankrollAfter Z.of_nat Nat.add] in Hrun.
    destruct Hrun as [[k (Hk & He & Hr & Hbefore)] | [He Hall]]; rewrite He;
      cbn [exitBankroll isReturned betsPerformed exitGenerator].
    + rewrite Hr. split; [tauto|]. split; [discriminate|].
      intros _. exists k.
      split; [lia|]. split; [lia|]. split; [reflexivity|].
      split; [reflexivity | exact Hbefore].
    + rewrite (Hall (Z.to_nat (Source.BETS_PER_RUN cfg))) by lia.
      split; [split; discriminate|]. split; [|discriminate].
      intros _. split; [lia|]. split; [reflexivity|].
      split; [reflexivity | exact Hall].
  - rewrite runsLoop_spec. cbn [app]. split; [reflexivity | lia].
Qed.

End RuinClassification.

(** The hypothesis of [ruin_classification] holds on scenario 3 of the
    specification. *)
Lemma ruin_classification_witness :
  1 <= Source.BETS_PER_RUN scenario3 /\
  let '(ruinCount, finalBankrolls, _) :=
    Source.runsLoop (rng := scenario3_source) tickingClock scenario3 2%Q
      (Z.to_nat (Source.TOTAL_RUNS scenario3)) 0 0 0 [] in
  ruinCount =
    countRuined (Source.BET_AMOUNT scenario3) finalBankrolls.
Proof.
  split; [vm_compute; discriminate|].
  exact (proj2 (proj2 (ruin_classification (rng := scenario3_source)
                  tickingClock scenario3 2%Q 0
                  ltac:(vm_compute; discriminate)))).
Defined.

(** ** The two trial engines *)

Section TwoEngines.
Context {D : Type} {ops : DoubleOps D} {rng : RandomSource D}.

(** Both engines seed the same generator and run the same loop. *)
Lemma runLoop_eq (now : Z) (initialHouseBankroll betAmount : D)
    (numBets : Z) (houseWinProb : D) (runIndex : Z) :
  Main.runLoop now initialHouseBankroll betAmount numBets houseWinProb
    runIndex =
  Source.runLoop now initialHouseBankroll betAmount numBets houseWinProb
    runIndex.
Proof. unfold Main.runLoop, Source.runLoop. apply Main_betLoop_eq. Qed.

(** C10.  For every trial of at least one bet, the engine of main.cpp
    returns true exactly when the bankroll returned by the engine of
    Source.cpp is strictly below the bet amount, and the two leave the
    generator in the same state after the same number of bets. *)
Theorem engines_agree (now : Z) (initialHouseBankroll betAmount : D)
    (numBets : Z) (houseWinProb : D) (runIndex : Z) :
  1 <= numBets ->
  Main.simulateSingleRun now initialHouseBankroll betAmount numBets
    houseWinProb runIndex =
  dltb (Source.simulateSingleRun now initialHouseBankroll betAmount numBets
          houseWinProb runIndex) betAmount /\
  betsPerformed (Main.runLoop now initialHouseBankroll betAmount numBets
                   houseWinProb runIndex) =
  betsPerformed (Source.runLoop now initialHouseBankroll betAmount numBets
                   houseWinProb runIndex) /\
  exitGenerator (Main.runLoop now initialHouseBankroll betAmount numBets
                   houseWinProb runIndex) =
  exitGenerator (Source.runLoop now initialHouseBankroll betAmount numBets
                   houseWinProb runIndex).
Proof.
  intros HN.
  unfold Main.simulateSingleRun, Source.simulateSingleRun.
  rewrite runLoop_eq. split; [|split; reflexivity].
  unfold Source.runLoop.
  pose proof (betLoop_exit betAmount houseWinProb (Z.to_nat numBets) 0
                initialHouseBankroll (mt19937 (seedOf now runIndex)))
    as Hexit.
  destruct (Source.betLoop _ _ _ _ _ _) as [i c g | i c g];
    cbn [exitBankroll].
  - destruct Hexit as [Hr _]. now rewrite Hr.
  - destruct Hexit as [_ Hr]. rewrite Hr by lia. reflexivity.
Qed.

End TwoEngines.

(** The hypothesis of [engines_agree] holds on the first trial of
    scenario 3. *)
Lemma engines_agree_witness :
  1 <= 2 /\
  Main.simulateSingleRun (rng := scenario3_source) 1000 2%Q 1%Q 2 (1 # 2)%Q 0
  = dltb (Source.simulateSingleRun (rng := scenario3_source) 1000 2%Q 1%Q 2
            (1 # 2)%Q 0) 1%Q.
Proof.
  split; [vm_compute; discriminate|].
  exact (proj1 (engines_agree (rng := scenario3_source) 1000 2%Q 1%Q 2
                  (1 # 2)%Q 0 ltac:(vm_compute; discriminate))).
Defined.

(** ** Where bets are placed *)

Section BetsPlaced.
Context {D : Type} {ops : DoubleOps D} {rng : RandomSource D}.
Variables betAmount houseWinProb : D.

(** The recorded bankrolls are those of the iterations the loop runs. *)
Lemma betsPlacedAt_length (n : nat) :
  forall i cur g,
    Z.of_nat (length (Source.betsPlacedAt betAmount houseWinProb n cur g)) =
    betsPerformed (Source.betLoop betAmount houseWinProb n i cur g) - i.
Proof.
  induction n as [|n IH]; intros i cur g.
  - simpl. lia.
  - cbn [Source.betsPlacedAt Source.betLoop].
    destruct (distribution g) as [u g'].
    destruct (dltb _ betAmount) eqn:Hruin.
    + cbn [length betsPerformed]. lia.
    + cbn [length]. rewrite Nat2Z.inj_succ, (IH (i + 1)). lia.
Qed.

(** They are the bankrolls of the specification, in order. *)
Lemma betsPlacedAt_nth (B0 : D) (g0 : Generator) (n : nat) :
  forall j t x,
    nth_error
      (Source.betsPlacedAt betAmount houseWinProb n
         (bankrollAfter B0 betAmount houseWinProb g0 j) (advance j g0)) t
    = Some x ->
    x = bankrollAfter B0 betAmount houseWinProb g0 (j + t).
Proof.
  induction n as [|n IH]; intros j t x.
  - destruct t; discriminate.
  - cbn [Source.betsPlacedAt]. rewrite distribution_advance.
    change (if dltb (draw g0 j) houseWinProb
            then dadd (bankrollAfter B0 betAmount houseWinProb g0 j)
                   betAmount
            else dsub (bankrollAfter B0 betAmount houseWinProb g0 j)
                   betAmount)
      with (bankrollAfter B0 betAmount houseWinProb g0 (S j)).
    destruct t as [|t]; cbn [nth_error].
    + intros [= <-]. now rewrite Nat.add_0_r.
    + destruct (dltb _ betAmount).
      * destruct t; discriminate.
      * intros H. apply IH in H. rewrite H. f_equal. lia.
Qed.

(** Once the bankroll covers a bet on entry to the loop, it does so on
    entry to every iteration: the ruin check guards each further one. *)
Lemma betsPlacedAt_covered (n : nat) :
  forall cur g,
    covered betAmount cur ->
    Forall (covered betAmount) (Source.betsPlacedAt betAmount houseWinProb n cur g).
Proof.
  induction n as [|n IH]; intros cur g Hcur; [constructor|].
  cbn [Source.betsPlacedAt]. destruct (distribution g) as [u g'].
  constructor; [exact Hcur|].
  destruct (dltb _ betAmount) eqn:Hruin; [constructor|].
  apply IH. exact Hruin.
Qed.

(** C4, as the code has it.  Every bet but the first is placed from a
    bankroll that is not below the bet amount; so is the first when the
    starting bankroll is not below the bet amount. *)
Theorem bets_after_first_covered (n : nat) (initialHouseBankroll : D)
    (g : Generator) :
  Forall (covered betAmount)
    (tl (Source.betsPlacedAt betAmount houseWinProb n
           initialHouseBankroll g)) /\
  (covered betAmount initialHouseBankroll ->
   Forall (covered betAmount)
     (Source.betsPlacedAt betAmount houseWinProb n initialHouseBankroll g)).
Proof.
  split; [|apply betsPlacedAt_covered].
  destruct n as [|n]; [constructor|].
  cbn [Source.betsPlacedAt]. destruct (distribution g) as [u g'].
  cbn [tl]. destruct (dltb _ betAmount) eqn:Hruin; [constructor|].
  apply betsPlacedAt_covered. exact Hruin.
Qed.

End BetsPlaced.

(** The hypothesis of [bets_after_first_covered] holds on the first trial of
    scenario 3. *)
Lemma bets_after_first_covered_witness :
  covered 1%Q 2%Q /\
  Forall (covered 1%Q)
    (Source.betsPlacedAt (rng := scenario3_source) 1%Q (1 # 2)%Q 2 2%Q
       (mt19937 (RandomSource := scenario3_source) 0)).
Proof.
  split; [reflexivity|].
  exact (proj2 (bets_after_first_covered (rng := scenario3_source) 1%Q
                  (1 # 2)%Q 2 2%Q
                  (mt19937 (RandomSource := scenario3_source) 0))
           eq_refl).
Defined.

(** C4 as stated fails when the starting bankroll is below the bet amount:
    with B0 = 10 and b = 25 the first, and here only, bet of the trial is
    placed from a bankroll of 10. *)
Lemma bet_placed_below_bet_amount :
  Source.betsPlacedAt (rng := scenario3_source) 25%Q (1 # 2)%Q 1 10%Q
    (mt19937 (RandomSource := scenario3_source) 0) = [10%Q] /\
  dltb 10%Q 25%Q = true /\
  ~ Forall (covered 25%Q)
      (Source.betsPlacedAt (rng := scenario3_source) 25%Q (1 # 2)%Q 1 10%Q
         (mt19937 (RandomSource := scenario3_source) 0)).
Proof.
  split; [reflexivity|]. split; [reflexivity|].
  intros H. inversion H as [|x l Hx _]. discriminate Hx.
Qed.

(** ** Bet granularity, in exact arithmetic *)

Section Granularity.
Context {rng : RandomSource Q}.

(** After [n] bets the bankroll is the starting bankroll moved by a
    whole number of bet amounts, at most [n] in magnitude. *)
Lemma bankrollAfter_lattice (B0 b p : Q) (g : Generator) (n : nat) :
  exists k : Z,
    Z.abs k <= Z.of_nat n /\
    (bankrollAfter B0 b p g n == B0 + inject_Z k * b)%Q.
Proof.
  induction n as [|n (k & Hk & IH)].
  - exists 0. split; [lia|]. simpl. ring.
  - cbn [bankrollAfter]. destruct (dltb (draw g n) p).
    + exists (k + 1). split; [lia|].
      cbn [dadd ExactDouble]. rewrite IH, inject_Z_plus. ring.
    + exists (k - 1). split; [lia|].
      cbn [dsub ExactDouble]. rewrite IH.
      unfold Z.sub. rewrite inject_Z_plus, inject_Z_opp. ring.
Qed.

(** C9.  In exact arithmetic the bankroll a trial returns is
    B0 + k * b for an integer k of magnitude at most N. *)
Theorem bet_granularity (now : Z) (initialHouseBankroll betAmount : Q)
    (numBets : Z) (houseWinProb : Q) (runIndex : Z) :
  exists k : Z,
    Z.abs k <= Z.max 0 numBets /\
    (Source.simulateSingleRun now initialHouseBankroll betAmount numBets
       houseWinProb runIndex
     == initialHouseBankroll + inject_Z k * betAmount)%Q.
Proof.
  destruct (simulateSingleRun_bankrollAfter betAmount houseWinProb now
              initialHouseBankroll numBets runIndex)
    as (n & Hn & Hres).
  destruct (bankrollAfter_lattice initialHouseBankroll betAmount
              houseWinProb (mt19937 (seedOf now runIndex)) n)
    as (k & Hk & Hlat).
  exists k. split; [lia|]. rewrite Hres. exact Hlat.
Qed.

End Granularity.

(** ** The histogram, for every arithmetic *)

Section HistogramFacts.
Context {D : Type} {ops : DoubleOps D}.

Lemma map_incr_length (m : DoubleMap D) :
  forall it, length (map_incr m it) = length m.
Proof.
  induction m as [|[k v] m IH]; intros it; [reflexivity|].
  destruct it; cbn [map_incr length]; [reflexivity | now rewrite IH].
Qed.

Lemma map_incr_keys (m : DoubleMap D) :
  forall it, map_keys (map_incr m it) = map_keys m.
Proof.
  unfold map_keys.
  induction m as [|[k v] m IH]; intros it; [reflexivity|].
  destruct it; cbn [map_incr map fst]; [reflexivity | now rewrite IH].
Qed.

(** An increment through a valid iterator adds one to the total. *)
Lemma map_incr_sum (m : DoubleMap D) :
  forall it, (it < length m)%nat ->
    sumCounts (map_incr m it) = sumCounts m + 1.
Proof.
  unfold sumCounts, map_counts.
  induction m as [|[k v] m IH]; intros it Hit; [inversion Hit|].
  destruct it; cbn [map_incr map snd fold_right].
  - lia.
  - cbn [length] in Hit. rewrite IH by lia. lia.
Qed.

(** [find] only looks at the keys. *)
Lemma map_find_keys (k : D) (m m' : DoubleMap D) :
  map_keys m = map_keys m' -> map_find k m = map_find k m'.
Proof.
  unfold map_keys. revert m'.
  induction m as [|[k1 v1] m IH]; intros [|[k2 v2] m'] H;
    try discriminate; [reflexivity|].
  cbn [map fst] in H. injection H as -> H.
  cbn [map_find]. now rewrite (IH m' H).
Qed.

Lemma map_find_valid (k : D) (m : DoubleMap D) :
  forall it, map_find k m = Some it -> (it < length m)%nat.
Proof.
  induction m as [|[k' v'] m IH]; intros it; [discriminate|].
  cbn [map_find length].
  destruct (dltb k' k).
  - destruct (map_find k m) as [it'|]; [|discriminate].
    intros [= <-]. specialize (IH it' eq_refl). lia.
  - destruct (dltb k k'); [discriminate|]. intros [= <-]. lia.
Qed.

Lemma map_rbegin_valid (m : DoubleMap D) (it : nat) :
  map_rbegin m = Some it -> S it = length m.
Proof. destruct m; [discriminate|]. now intros [= <-]. Qed.

Lemma map_assign_length (k : D) (v : Z) (m : DoubleMap D) :
  (0 < length (map_assign k v m))%nat.
Proof.
  destruct m as [|[k' v'] m]; cbn [map_assign]; [cbn; lia|].
  destruct (dltb k' k); [cbn; lia|]. destruct (dltb k k'); cbn; lia.
Qed.

Lemma initBins_nonempty (minB w : D) (n : nat) :
  forall i bins,
    (0 < n)%nat \/ (0 < length bins)%nat ->
    (0 < length (Source.initBins minB w n i bins))%nat.
Proof.
  induction n as [|n IH]; intros i bins H.
  - destruct H as [H|H]; [inversion H | exact H].
  - cbn [Source.initBins]. apply IH. right. apply map_assign_length.
Qed.

(** On a map that is not empty the loop that fills the bins ends
    normally, keeps the keys, and adds to the total of the counts the
    number of survivors that are counted. *)
Lemma populate_sum (minB maxB w : D) (xs : list D) :
  forall bins c,
    (0 < length bins)%nat ->
    exists bins' c',
      Source.populate minB maxB w xs (bins, c) = Normal (bins', c') /\
      map_keys bins' = map_keys bins /\
      sumCounts bins' =
        sumCounts bins +
        Z.of_nat (length (filter (counted minB maxB w bins) xs)).
Proof.
  induction xs as [|x xs IH]; intros bins c Hne.
  - exists bins, c. simpl. split; [reflexivity|]. split; [reflexivity|lia].
  - cbn [Source.populate filter]. unfold Source.populateStep. cbn [fst].
    assert (Hstep : forall it, (it < length bins)%nat ->
              exists bins' c',
                bindO (Normal (Source.bump (bins, c) it))
                  (Source.populate minB maxB w xs) = Normal (bins', c') /\
                map_keys bins' = map_keys bins /\
                sumCounts bins' =
                  sumCounts bins + 1 +
                  Z.of_nat (length (filter (counted minB maxB w bins) xs))).
    { intros it Hit. cbn [bindO Source.bump].
      destruct (IH (map_incr bins it)
                  (if c <? map_second (map_incr bins it) it
                   then map_second (map_incr bins it) it else c))
        as (bins' & c' & Hp & Hk & Hs).
      { now rewrite map_incr_length. }
      exists bins', c'. split; [exact Hp|].
      rewrite Hk, Hs, map_incr_keys, map_incr_sum by exact Hit.
      split; [reflexivity|]. do 2 f_equal. f_equal.
      apply filter_ext. intros y. unfold counted.
      now rewrite (map_find_keys _ _ bins (map_incr_keys bins it)). }
    destruct (deqb x maxB) eqn:Hmax.
    + replace (counted minB maxB w bins x) with true
        by (unfold counted; now rewrite Hmax).
      destruct (map_rbegin bins) as [it|] eqn:Hrb.
      * apply map_rbegin_valid in Hrb.
        destruct (Hstep it ltac:(lia)) as (bins' & c' & Hp & Hk & Hs).
        exists bins', c'. split; [exact Hp|]. split; [exact Hk|].
        rewrite Hs. cbn [length]. lia.
      * destruct bins; [inversion Hne | discriminate].
    + destruct (map_find (Source.binKeyOf minB w x) bins) as [it|] eqn:Hf.
      * replace (counted minB maxB w bins x) with true
          by (unfold counted; now rewrite Hmax, Hf).
        apply map_find_valid in Hf.
        destruct (Hstep it Hf) as (bins' & c' & Hp & Hk & Hs).
        exists bins', c'. split; [exact Hp|]. split; [exact Hk|].
        rewrite Hs. cbn [length]. lia.
      * replace (counted minB maxB w bins x) with false
          by (unfold counted; now rewrite Hmax, Hf).
        cbn [bindO]. apply IH. exact Hne.
Qed.

End HistogramFacts.

Section SummariserFacts.
Context {D : Type} {ops : DoubleOps D}.

Lemma scan_fold (betAmount : D) (finalBankrolls : list D) :
  forall s,
    let s' := fold_left (Source.scanStep betAmount) finalBankrolls s in
    Source.survivingBankrolls s' =
      Source.survivingBankrolls s ++
      filter (survives betAmount) finalBankrolls /\
    Source.ruinCount s' =
      Source.ruinCount s + countRuined betAmount finalBankrolls.
Proof.
  unfold countRuined, survives.
  induction finalBankrolls as [|f fbs IH]; intros s; cbn zeta.
  - simpl. now rewrite app_nil_r, Z.add_0_r.
  - cbn [fold_left filter]. destruct (IH (Source.scanStep betAmount s f))
      as [Hs Hr]. cbn zeta in Hs, Hr. rewrite Hs, Hr.
    unfold Source.scanStep.
    destruct (dltb f betAmount);
      cbn [Source.survivingBankrolls Source.ruinCount negb length].
    + split; [reflexivity | lia].
    + rewrite <- app_assoc. split; [reflexivity | lia].
Qed.

Lemma scan_survivors (finalBankrolls : list D) (betAmount : D) :
  Source.survivingBankrolls
    (Source.scanBankrolls finalBankrolls betAmount) =
  filter (survives betAmount) finalBankrolls.
Proof.
  unfold Source.scanBankrolls.
  now rewrite (proj1 (scan_fold betAmount finalBankrolls _)).
Qed.

Lemma scan_ruinCount (finalBankrolls : list D) (betAmount : D) :
  Source.ruinCount (Source.scanBankrolls finalBankrolls betAmount) =
  countRuined betAmount finalBankrolls.
Proof.
  unfold Source.scanBankrolls.
  now rewrite (proj2 (scan_fold betAmount finalBankrolls _)).
Qed.

(** Every final bankroll is either ruined or surviving. *)
Lemma ruined_plus_surviving (betAmount : D) (finalBankrolls : list D) :
  countRuined betAmount finalBankrolls +
  countSurviving betAmount finalBankrolls =
  Z.of_nat (length finalBankrolls).
Proof.
  unfold countRuined, countSurviving, survives.
  induction finalBankrolls as [|f fbs IH]; [reflexivity|].
  cbn [filter]. destruct (dltb f betAmount); cbn [negb length]; lia.
Qed.

Lemma map_assign_zero (k : D) (m : DoubleMap D) :
  sumCounts m = 0 ->
  Forall (fun e => snd e = 0) m ->
  Forall (fun e => snd e = 0) (map_assign k 0 m).
Proof.
  intros _. induction 1 as [|[k' v'] m Hv Hm IH]; cbn [map_assign].
  - repeat constructor.
  - destruct (dltb k' k); [constructor; assumption|].
    destruct (dltb k k'); repeat constructor; assumption.
Qed.

Lemma all_zero_sum (m : DoubleMap D) :
  Forall (fun e => snd e = 0) m -> sumCounts m = 0.
Proof.
  unfold sumCounts, map_counts.
  induction 1 as [|[k v] m Hv Hm IH]; [reflexivity|].
  cbn [map snd fold_right] in *. lia.
Qed.

Lemma initBins_zero (minB w : D) (n : nat) :
  forall i bins,
    Forall (fun e => snd e = 0) bins ->
    Forall (fun e => snd e = 0) (Source.initBins minB w n i bins).
Proof.
  induction n as [|n IH]; intros i bins H; [exact H|].
  cbn [Source.initBins]. apply IH, map_assign_zero; [|exact H].
  now apply all_zero_sum.
Qed.

(** With at least one bin the summariser ends normally.  Without a
    survivor it prints the empty-histogram line; otherwise the chart
    reports the number of survivors, has the keys the initialisation
    created, and its counts add up to the number of survivors that are
    counted. *)
Lemma printBankrollHistogram_normal (finalBankrolls : list D)
    (betAmount : D) (numBins totalRuns : Z) :
  1 <= numBins ->
  let s := Source.scanBankrolls finalBankrolls betAmount in
  let w := Source.chooseBinWidth (Source.minBankroll s)
             (Source.maxBankroll s) numBins in
  let bins0 := Source.initBins (Source.minBankroll s) w
                 (Z.to_nat numBins) 0 [] in
  (countSurviving betAmount finalBankrolls = 0 /\
   Source.printBankrollHistogram finalBankrolls betAmount numBins totalRuns
   = Normal None)
  \/
  (exists h,
     Source.printBankrollHistogram finalBankrolls betAmount numBins
       totalRuns = Normal (Some h) /\
     0 < countSurviving betAmount finalBankrolls /\
     Source.hNumSurvivors h = countSurviving betAmount finalBankrolls /\
     Source.hMinBankroll h = Source.minBankroll s /\
     Source.hMaxBankroll h = Source.maxBankroll s /\
     Source.hBinWidth h = w /\
     map_keys (Source.hBins h) = map_keys bins0 /\
     sumCounts (Source.hBins h) =
       Z.of_nat
         (length
            (filter
               (counted (Source.minBankroll s) (Source.maxBankroll s) w
                  bins0)
               (Source.survivingBankrolls s)))).
Proof.
  intros HK s w bins0. unfold Source.printBankrollHistogram.
  cbn zeta. fold s. fold w. fold bins0.
  assert (Hsurv : Z.of_nat (length (Source.survivingBankrolls s)) =
                  countSurviving betAmount finalBankrolls).
  { subst s. now rewrite scan_survivors. }
  rewrite Hsurv.
  destruct (countSurviving betAmount finalBankrolls =? 0) eqn:Hz.
  - left. split; [lia | reflexivity].
  - right.
    destruct (populate_sum (Source.minBankroll s) (Source.maxBankroll s) w
                (Source.survivingBankrolls s) bins0 0)
      as (bins' & c' & Hp & Hk & Hs).
    { subst bins0. apply initBins_nonempty. left. lia. }
    match goal with
    | |- context [bindO ?t _] =>
        replace t with (Normal (A := DoubleMap D * Z) (bins', c'))
          by (symmetry; exact Hp)
    end. cbn [bindO fst snd].
    eexists. split; [reflexivity|].
    cbn [Source.hNumSurvivors Source.hMinBankroll Source.hMaxBankroll
         Source.hBinWidth Source.hBins].
    repeat (split; [first [reflexivity | assumption | idtac]|]).
    + unfold countSurviving in *. lia.
    + rewrite Hs, (all_zero_sum bins0); [lia|].
      subst bins0. apply initBins_zero. constructor.
Qed.

End SummariserFacts.

(** ** The histogram, in exact arithmetic *)

Section ExactHistogram.

Lemma Qltb_true (x y : Q) : Qltb x y = true <-> (x < y)%Q.
Proof.
  unfold Qltb. rewrite negb_true_iff. split.
  - intros H. apply Qnot_le_lt. intros Hle.
    apply Qle_bool_iff in Hle. congruence.
  - intros H. destruct (Qle_bool y x) eqn:E; [|reflexivity].
    apply Qle_bool_iff in E. exfalso. exact (Qlt_not_le _ _ H E).
Qed.

Lemma Qltb_false (x y : Q) : Qltb x y = false <-> (y <= x)%Q.
Proof.
  unfold Qltb. rewrite negb_false_iff. apply Qle_bool_iff.
Qed.

(** The first loop keeps the least and the greatest survivor. *)
Lemma scan_bounds (betAmount : Q) (finalBankrolls : list Q) :
  forall s,
    let s' := fold_left (Source.scanStep betAmount) finalBankrolls s in
    (Source.minBankroll s' <= Source.minBankroll s)%Q /\
    (Source.maxBankroll s <= Source.maxBankroll s')%Q /\
    (forall x, In x (filter (survives betAmount) finalBankrolls) ->
       (Source.minBankroll s' <= x <= Source.maxBankroll s')%Q) /\
    (Source.minBankroll s' = Source.minBankroll s \/
     In (Source.minBankroll s')
        (filter (survives betAmount) finalBankrolls)) /\
    (Source.maxBankroll s' = Source.maxBankroll s \/
     In (Source.maxBankroll s')
        (filter (survives betAmount) finalBankrolls)).
Proof.
  induction finalBankrolls as [|f fbs IH]; intros s; cbn zeta.
  - cbn [fold_left filter].
    split; [apply Qle_refl|]. split; [apply Qle_refl|].
    split; [intros x []|]. split; now left.
  - cbn [fold_left filter].
    destruct (IH (Source.scanStep betAmount s f))
      as (Hmin & Hmax & Hall & Hminin & Hmaxin). cbn zeta in *.
    set (s1 := Source.scanStep betAmount s f) in *.
    set (s' := fold_left (Source.scanStep betAmount) fbs s1) in *.
    assert (Hs1min : Source.minBankroll s1 =
              if dltb f betAmount then Source.minBankroll s
              else if Qltb f (Source.minBankroll s) then f
                   else Source.minBankroll s).
    { subst s1. unfold Source.scanStep.
      now destruct (dltb f betAmount). }
    assert (Hs1max : Source.maxBankroll s1 =
              if dltb f betAmount then Source.maxBankroll s
              else if Qltb (Source.maxBankroll s) f then f
                   else Source.maxBankroll s).
    { subst s1. unfold Source.scanStep.
      now destruct (dltb f betAmount). }
    replace (survives betAmount f) with (negb (dltb f betAmount))
      by reflexivity.
    rewrite Hs1min in Hmin, Hminin. rewrite Hs1max in Hmax, Hmaxin.
    clearbody s'. clear Hs1min Hs1max.
    destruct (dltb f betAmount) eqn:Hruin; cbn [negb].
    + split; [exact Hmin|]. split; [exact Hmax|]. split; [exact Hall|].
      split; assumption.
    + assert (Hf1 : (Source.minBankroll s' <= f)%Q).
      { eapply Qle_trans; [exact Hmin|].
        destruct (Qltb f (Source.minBankroll s)) eqn:E;
          [apply Qle_refl | now apply Qltb_false in E]. }
      assert (Hf2 : (f <= Source.maxBankroll s')%Q).
      { eapply Qle_trans; [|exact Hmax].
        destruct (Qltb (Source.maxBankroll s) f) eqn:E;
          [apply Qle_refl | now apply Qltb_false in E]. }
      split.
      { eapply Qle_trans; [exact Hmin|].
        destruct (Qltb f (Source.minBankroll s)) eqn:E;
          [apply Qlt_le_weak; now apply Qltb_true in E | apply Qle_refl]. }
      split.
      { eapply Qle_trans; [|exact Hmax].
        destruct (Qltb (Source.maxBankroll s) f) eqn:E;
          [apply Qlt_le_weak; now apply Qltb_true in E | apply Qle_refl]. }
      split.
      { intros x [<- | Hx]; [split; assumption | now apply Hall]. }
      split.
      * destruct Hminin as [Heq | Hin]; [|right; now right].
        rewrite Heq.
        destruct (Qltb f (Source.minBankroll s));
          [right; now left | now left].
      * destruct Hmaxin as [Heq | Hin]; [|right; now right].
        rewrite Heq.
        destruct (Qltb (Source.maxBankroll s) f);
          [right; now left | now left].
Qed.

(** Assigning a key above all keys of the map appends an entry. *)
Lemma map_assign_append (k : Q) (v : Z) (m : DoubleMap Q) :
  Forall (fun e => (fst e < k)%Q) m ->
  map_assign k v m = m ++ [(k, v)].
Proof.
  induction 1 as [|[k' v'] m Hk Hm IH]; [reflexivity|].
  cbn [map_assign app]. cbn [dltb ExactDouble].
  cbn [fst] in Hk. apply Qltb_true in Hk. rewrite Hk. now rewrite IH.
Qed.

Lemma gridFrom_S (minB w : Q) (a n : nat) :
  gridFrom minB w a (S n) =
  gridFrom minB w a n ++
  [((minB + inject_Z (Z.of_nat (a + n)) * w)%Q, 0)].
Proof. unfold gridFrom. now rewrite seq_S, map_app. Qed.

Lemma gridFrom_below (minB w : Q) (a n : nat) :
  (0 < w)%Q ->
  Forall (fun e => (fst e < minB + inject_Z (Z.of_nat (a + n)) * w)%Q)
    (gridFrom minB w a n).
Proof.
  intros Hw. unfold gridFrom. apply Forall_forall.
  intros e He. apply in_map_iff in He. destruct He as (t & <- & Ht).
  apply in_seq in Ht. cbn [fst dadd dmul of_int ExactDouble].
  apply Qplus_lt_r, Qmult_lt_compat_r; [exact Hw|].
  rewrite <- Zlt_Qlt. lia.
Qed.

(** With a positive width the initialisation creates the grid. *)
Lemma initBins_grid (minB w : Q) (n : nat) :
  (0 < w)%Q ->
  forall i,
    Source.initBins minB w n (Z.of_nat i) (gridFrom minB w 0 i) =
    gridFrom minB w 0 (i + n).
Proof.
  intros Hw. induction n as [|n IH]; intros i.
  - now rewrite Nat.add_0_r.
  - cbn [Source.initBins]. cbn [dadd dmul of_int ExactDouble].
    rewrite map_assign_append by (apply (gridFrom_below minB w 0 i Hw)).
    pose proof (gridFrom_S minB w 0 i) as HS. cbn [Nat.add] in HS.
    rewrite <- HS. clear HS.
    replace (Z.of_nat i + 1) with (Z.of_nat (S i)) by lia.
    rewrite IH. f_equal. lia.
Qed.

(** A key of the grid is found in it. *)
Lemma find_in_grid (minB w key : Q) (n : nat) :
  (0 < w)%Q ->
  forall a t,
    (a <= t < a + n)%nat ->
    (key == minB + inject_Z (Z.of_nat t) * w)%Q ->
    exists it, map_find key (gridFrom minB w a n) = Some it.
Proof.
  intros Hw. induction n as [|n IH]; intros a t Ht Hkey; [lia|].
  unfold gridFrom. cbn [seq map map_find].
  cbn [dltb dadd dmul of_int ExactDouble].
  destruct (Qltb (minB + inject_Z (Z.of_nat a) * w) key) eqn:E1.
  - apply Qltb_true in E1. rewrite Hkey in E1.
    apply Qplus_lt_r in E1.
    apply Qmult_lt_r in E1; [|exact Hw]. rewrite <- Zlt_Qlt in E1.
    destruct (IH (S a) t ltac:(lia) Hkey) as (it & Hit).
    unfold gridFrom in Hit. cbn [dadd dmul of_int ExactDouble] in Hit.
    rewrite Hit. now exists (S it).
  - apply Qltb_false in E1.
    destruct (Qltb key (minB + inject_Z (Z.of_nat a) * w)) eqn:E2.
    + apply Qltb_true in E2. rewrite Hkey in E2.
      apply Qplus_lt_r in E2.
      apply Qmult_lt_r in E2; [|exact Hw]. rewrite <- Zlt_Qlt in E2. lia.
    + now exists O.
Qed.

Lemma filter_all (A : Type) (f : A -> bool) (l : list A) :
  (forall x, In x l -> f x = true) -> filter f l = l.
Proof.
  induction l as [|a l IH]; intros H; [reflexivity|].
  cbn [filter]. rewrite (H a (or_introl eq_refl)).
  f_equal. apply IH. intros x Hx. apply H. now right.
Qed.

Lemma width_positive (minB maxB : Q) (numBins : Z) :
  1 <= numBins -> (minB < maxB)%Q ->
  (0 < (maxB - minB) / inject_Z numBins)%Q.
Proof.
  intros HK Hlt.
  apply Qlt_shift_div_l; [rewrite <- (Zlt_Qlt 0); lia|].
  rewrite Qmult_0_l. unfold Qminus. now rewrite <- Qlt_minus_iff.
Qed.

(** [chooseBinWidth] keeps a positive quotient. *)
Lemma chooseBinWidth_regular (minB maxB : Q) (numBins : Z) :
  1 <= numBins -> (minB < maxB)%Q ->
  Source.chooseBinWidth minB maxB numBins =
  ((maxB - minB) / inject_Z numBins)%Q.
Proof.
  intros HK Hlt. unfold Source.chooseBinWidth.
  cbn [deqb ddiv dsub of_int ExactDouble].
  destruct (Qeq_bool _ _) eqn:E; [|reflexivity].
  apply Qeq_bool_eq in E.
  pose proof (width_positive minB maxB numBins HK Hlt) as Hpos.
  rewrite E in Hpos. discriminate Hpos.
Qed.

(** [chooseBinWidth] replaces a zero quotient by 100. *)
Lemma chooseBinWidth_degenerate (minB maxB : Q) (numBins : Z) :
  (minB == maxB)%Q ->
  Source.chooseBinWidth minB maxB numBins = inject_Z 100.
Proof.
  intros Heq. unfold Source.chooseBinWidth.
  cbn [deqb ddiv dsub of_int ExactDouble].
  destruct (Qeq_bool _ _) eqn:E; [reflexivity|].
  apply Qeq_bool_neq in E. exfalso. apply E.
  rewrite Heq. unfold Qminus, Qdiv. rewrite Qplus_opp_r. apply Qmult_0_l.
Qed.

Lemma chooseBinWidth_positive (minB maxB : Q) (numBins : Z) :
  1 <= numBins -> (minB <= maxB)%Q ->
  (0 < Source.chooseBinWidth minB maxB numBins)%Q.
Proof.
  intros HK Hle. destruct (Qle_lt_or_eq _ _ Hle) as [Hlt | Heq].
  - rewrite chooseBinWidth_regular by assumption.
    now apply width_positive.
  - now rewrite chooseBinWidth_degenerate.
Qed.

(** In exact arithmetic the key computed for a survivor below the
    maximum is a key of the grid. *)
Lemma binKey_in_grid (minB maxB x : Q) (numBins : Z) :
  1 <= numBins -> (minB <= x)%Q -> (x < maxB)%Q ->
  let w := Source.chooseBinWidth minB maxB numBins in
  exists it,
    map_find (Source.binKeyOf minB w x)
      (gridFrom minB w 0 (Z.to_nat numBins)) = Some it.
Proof.
  intros HK Hlo Hhi w.
  assert (Hlt : (minB < maxB)%Q) by (eapply Qle_lt_trans; eassumption).
  assert (Hw : w = ((maxB - minB) / inject_Z numBins)%Q)
    by (subst w; now apply chooseBinWidth_regular).
  assert (Hpos : (0 < w)%Q)
    by (rewrite Hw; now apply width_positive).
  assert (HKq : (0 < inject_Z numBins)%Q)
    by (rewrite <- (Zlt_Qlt 0); lia).
  unfold Source.binKeyOf. cbn [deqb dadd dmul ddiv dsub dfloor of_int
                               ExactDouble].
  destruct (Qeq_bool w (inject_Z 0)) eqn:E.
  { apply Qeq_bool_eq in E. rewrite E in Hpos. discriminate Hpos. }
  set (q := ((x - minB) / w)%Q).
  assert (Hq0 : (0 <= q)%Q).
  { subst q. apply Qle_shift_div_l; [exact Hpos|].
    rewrite Qmult_0_l. unfold Qminus. now rewrite <- Qle_minus_iff. }
  assert (HqK : (q < inject_Z numBins)%Q).
  { subst q. apply Qlt_shift_div_r; [exact Hpos|].
    assert (Hprod : (inject_Z numBins * w == maxB - minB)%Q).
    { rewrite Hw. field. intros H0. rewrite H0 in HKq.
      discriminate HKq. }
    rewrite Hprod. unfold Qminus. now apply Qplus_lt_l. }
  assert (Hj0 : 0 <= Qfloor q).
  { rewrite <- (Qfloor_Z 0). now apply Qfloor_resp_le. }
  assert (HjK : Qfloor q < numBins).
  { rewrite Zlt_Qlt. eapply Qle_lt_trans; [apply Qfloor_le | exact HqK]. }
  apply (find_in_grid minB w _ (Z.to_nat numBins) Hpos 0
           (Z.to_nat (Qfloor q))); [lia|].
  rewrite Z2Nat.id by exact Hj0. reflexivity.
Qed.

(** In exact arithmetic, with at least one bin, every survivor is
    counted. *)
Lemma exact_all_counted (finalBankrolls : list Q) (betAmount : Q)
    (numBins : Z) :
  1 <= numBins ->
  let s := Source.scanBankrolls finalBankrolls betAmount in
  let w := Source.chooseBinWidth (Source.minBankroll s)
             (Source.maxBankroll s) numBins in
  let bins0 := Source.initBins (Source.minBankroll s) w
                 (Z.to_nat numBins) 0 [] in
  forall x, In x (Source.survivingBankrolls s) ->
    counted (Source.minBankroll s) (Source.maxBankroll s) w bins0 x = true.
Proof.
  intros HK s w bins0 x Hx.
  subst s. rewrite scan_survivors in Hx.
  destruct (scan_bounds betAmount finalBankrolls
              {| Source.survivingBankrolls := [];
                 Source.ruinCount := 0;
                 Source.minBankroll := DBL_MAX;
                 Source.maxBankroll := DBL_LOWEST |})
    as (_ & _ & Hall & _). cbn zeta in Hall.
  fold (Source.scanBankrolls finalBankrolls betAmount) in Hall.
  set (s := Source.scanBankrolls finalBankrolls betAmount) in *.
  destruct (Hall x Hx) as [Hlo Hhi].
  unfold counted. cbn [deqb ExactDouble].
  destruct (Qeq_bool x (Source.maxBankroll s)) eqn:E; [reflexivity|].
  apply Qeq_bool_neq in E. cbn [orb].
  assert (Hlt : (x < Source.maxBankroll s)%Q).
  { destruct (Qle_lt_or_eq _ _ Hhi) as [H|H]; [exact H | contradiction]. }
  assert (Hgrid : bins0 =
            gridFrom (Source.minBankroll s) w 0 (Z.to_nat numBins)).
  { subst bins0.
    apply (initBins_grid (Source.minBankroll s) w (Z.to_nat numBins)
             (chooseBinWidth_positive _ _ _ HK (Qle_trans _ _ _ Hlo Hhi))
             O). }
  rewrite Hgrid.
  destruct (binKey_in_grid (Source.minBankroll s) (Source.maxBankroll s)
              x numBins HK Hlo Hlt) as (it & Hit).
  fold w in Hit. now rewrite Hit.
Qed.

(** Histogram completeness in exact arithmetic: with at least one bin,
    the counts of the bins add up to the number of survivors. *)
Lemma histogram_complete_exact (finalBankrolls : list Q) (betAmount : Q)
    (numBins totalRuns : Z) :
  1 <= numBins ->
  (countSurviving betAmount finalBankrolls = 0 /\
   Source.printBankrollHistogram finalBankrolls betAmount numBins totalRuns
   = Normal None)
  \/
  (exists h,
     Source.printBankrollHistogram finalBankrolls betAmount numBins
       totalRuns = Normal (Some h) /\
     Source.hNumSurvivors h = countSurviving betAmount finalBankrolls /\
     sumCounts (Source.hBins h) = countSurviving betAmount finalBankrolls).
Proof.
  intros HK.
  destruct (printBankrollHistogram_normal finalBankrolls betAmount numBins
              totalRuns HK)
    as [Hnone | (h & Hh & _ & Hn & _ & _ & _ & _ & Hsum)];
    [left; exact Hnone | right].
  exists h. split; [exact Hh|]. split; [exact Hn|].
  rewrite Hsum, filter_all by (apply exact_all_counted; exact HK).
  rewrite scan_survivors. reflexivity.
Qed.

End ExactHistogram.

(** ** The degenerate histogram: all survivors equal *)

Section Degenerate.
Context {D : Type} {ops : DoubleOps D}.

Lemma map_rbegin_last (front : DoubleMap D) (e : D * Z) :
  map_rbegin (front ++ [e]) = Some (length front).
Proof.
  destruct front as [|e' front]; [reflexivity|].
  cbn [app map_rbegin]. now rewrite length_app, Nat.add_1_r.
Qed.

Lemma map_incr_last (front : DoubleMap D) (k : D) (v : Z) :
  map_incr (front ++ [(k, v)]) (length front) = front ++ [(k, v + 1)].
Proof.
  induction front as [|[k' v'] front IH]; [reflexivity|].
  cbn [app length map_incr]. now rewrite IH.
Qed.

(** Survivors that compare equal to the maximum all go to the entry with
    the greatest key. *)
Lemma populate_all_max (minB maxB w : D) (xs : list D) :
  Forall (fun x => deqb x maxB = true) xs ->
  forall front k v c,
    exists c',
      Source.populate minB maxB w xs (front ++ [(k, v)], c) =
      Normal (front ++ [(k, v + Z.of_nat (length xs))], c').
Proof.
  induction 1 as [|x xs Hx Hxs IH]; intros front k v c.
  - exists c. cbn [Source.populate length Z.of_nat].
    now rewrite Z.add_0_r.
  - cbn [Source.populate]. unfold Source.populateStep. rewrite Hx.
    cbn [fst]. rewrite map_rbegin_last. cbn [bindO Source.bump].
    rewrite map_incr_last.
    replace (v + Z.of_nat (length (x :: xs)))
      with (v + 1 + Z.of_nat (length xs)) by (cbn [length]; lia).
    apply IH.
Qed.

End Degenerate.

Section ExactDegenerate.

Lemma gridFrom_counts (minB w : Q) (a n : nat) :
  map_counts (gridFrom minB w a n) = repeat 0 n.
Proof.
  unfold map_counts, gridFrom. rewrite map_map. cbn [snd].
  revert a. induction n as [|n IH]; intros a; [reflexivity|].
  cbn [seq map repeat]. now rewrite IH.
Qed.

(** The degenerate histogram in general, in exact arithmetic.  When all
    survivors are equal (to a value [v] in the range of the finite
    doubles), the bin width is set to 100 and as many bins as asked for are
    created, with the keys [m + i * 100]; the survivors are all counted in
    the bin with the greatest key, the last one, and every other bin, the
    first included when there are two bins or more, stays at zero. *)
Theorem degenerate_survivors_in_last_bin
    (finalBankrolls : list Q) (betAmount : Q) (numBins totalRuns : Z)
    (v : Q) :
  1 <= numBins ->
  0 < countSurviving betAmount finalBankrolls ->
  (forall x, In x finalBankrolls -> survives betAmount x = true ->
     (x == v)%Q) ->
  (DBL_LOWEST <= v <= DBL_MAX)%Q ->
  exists h,
    Source.printBankrollHistogram finalBankrolls betAmount numBins
      totalRuns = Normal (Some h) /\
    (Source.hMinBankroll h == v)%Q /\
    (Source.hMaxBankroll h == v)%Q /\
    Source.hBinWidth h = inject_Z 100 /\
    map_keys (Source.hBins h) =
      map_keys (gridFrom (Source.hMinBankroll h) (inject_Z 100) 0
                  (Z.to_nat numBins)) /\
    map_counts (Source.hBins h) =
      repeat 0 (Z.to_nat numBins - 1) ++
      [countSurviving betAmount finalBankrolls].
Proof.
  intros HK Hsome Hequal [Hvlo Hvhi].
  set (s := Source.scanBankrolls finalBankrolls betAmount).
  assert (Hsurv : Source.survivingBankrolls s =
                  filter (survives betAmount) finalBankrolls)
    by apply scan_survivors.
  assert (Hv : forall x, In x (Source.survivingBankrolls s) -> (x == v)%Q).
  { intros x Hx. rewrite Hsurv in Hx. apply filter_In in Hx.
    destruct Hx as [Hin Hs]. now apply Hequal. }
  destruct (scan_bounds betAmount finalBankrolls
              {| Source.survivingBankrolls := [];
                 Source.ruinCount := 0;
                 Source.minBankroll := DBL_MAX;
                 Source.maxBankroll := DBL_LOWEST |})
    as (_ & _ & Hall & Hminin & Hmaxin). cbn zeta in Hall, Hminin, Hmaxin.
  fold (Source.scanBankrolls finalBankrolls betAmount) in Hall, Hminin,
    Hmaxin. fold s in Hall, Hminin, Hmaxin. rewrite <- Hsurv in *.
  cbn [Source.minBankroll Source.maxBankroll] in Hminin, Hmaxin.
  destruct (Source.survivingBankrolls s) as [|x0 rest] eqn:Hxs.
  { unfold countSurviving in Hsome. rewrite <- Hsurv in Hsome.
    cbn in Hsome. lia. }
  rewrite <- Hxs in *.
  assert (Hx0 : In x0 (Source.survivingBankrolls s))
    by (rewrite Hxs; now left).
  destruct (Hall x0 Hx0) as [Hlo Hhi]. rewrite (Hv x0 Hx0) in Hlo, Hhi.
  assert (Hmin : (Source.minBankroll s == v)%Q).
  { destruct Hminin as [Heq | Hin]; [|now apply Hv].
    apply Qle_antisym; [exact Hlo | now rewrite Heq]. }
  assert (Hmax : (Source.maxBankroll s == v)%Q).
  { destruct Hmaxin as [Heq | Hin]; [|now apply Hv].
    apply Qle_antisym; [now rewrite Heq | exact Hhi]. }
  assert (Hw : Source.chooseBinWidth (Source.minBankroll s)
                 (Source.maxBankroll s) numBins = inject_Z 100).
  { apply chooseBinWidth_degenerate. now rewrite Hmin, Hmax. }
  assert (Hbins : Source.initBins (Source.minBankroll s) (inject_Z 100)
                    (Z.to_nat numBins) 0 [] =
                  gridFrom (Source.minBankroll s) (inject_Z 100) 0
                    (Z.to_nat numBins))
    by (apply (initBins_grid (Source.minBankroll s) (inject_Z 100)
                 (Z.to_nat numBins) eq_refl O)).
  destruct (Z.to_nat numBins) as [|n] eqn:HKn; [lia|].
  rewrite gridFrom_S in Hbins.
  destruct (populate_all_max (Source.minBankroll s) (Source.maxBankroll s)
              (inject_Z 100) (Source.survivingBankrolls s)
              ltac:(apply Forall_forall; intros x Hx;
                    apply Qeq_bool_iff; rewrite Hmax; now apply Hv)
              (gridFrom (Source.minBankroll s) (inject_Z 100) 0 n)
              (Source.minBankroll s + inject_Z (Z.of_nat (0 + n)) *
                                      inject_Z 100)%Q 0 0)
    as (c' & Hpop).
  unfold Source.printBankrollHistogram. cbn zeta. fold s.
  assert (Hcount : Z.of_nat (length (Source.survivingBankrolls s)) =
                   countSurviving betAmount finalBankrolls)
    by (unfold countSurviving; now rewrite Hsurv).
  unfold DoubleMap in *. rewrite Hcount, Hw, HKn, Hbins.
  destruct (countSurviving betAmount finalBankrolls =? 0) eqn:Hz; [lia|].
  match goal with
  | |- context [bindO ?t _] =>
      replace t with
        (Normal (A := DoubleMap Q * Z)
           (gridFrom (Source.minBankroll s) (inject_Z 100) 0 n ++
            [((Source.minBankroll s + inject_Z (Z.of_nat (0 + n)) *
                                      inject_Z 100)%Q,
              0 + Z.of_nat (length (Source.survivingBankrolls s)))], c'))
        by (symmetry; exact Hpop)
  end.
  cbn [bindO fst snd]. eexists. split; [reflexivity|].
  cbn [Source.hMinBankroll Source.hMaxBankroll Source.hBinWidth
       Source.hBins].
  split; [exact Hmin|]. split; [exact Hmax|]. split; [reflexivity|].
  split.
  - unfold map_keys. rewrite gridFrom_S, !map_app. reflexivity.
  - unfold map_counts. rewrite map_app.
    fold (map_counts (gridFrom (Source.minBankroll s) (inject_Z 100) 0 n)).
    rewrite gridFrom_counts. cbn [map snd].
    rewrite Hcount. replace (S n - 1)%nat with n by lia. reflexivity.
Qed.

End ExactDegenerate.

(** ** The campaign: termination, counts and exit code *)

Section CampaignFacts.
Context {D : Type} {ops : DoubleOps D} {rng : RandomSource D}.
Variable clock : nat -> Z.
Variable cfg : Source.Config D.
Hypothesis runs_nonneg : 0 <= Source.TOTAL_RUNS cfg.
Hypothesis bins_positive : 1 <= Source.HISTOGRAM_BINS cfg.

Lemma testBankroll_normal (calls : nat) (startBankroll : D) :
  exists r,
    Source.testBankroll clock cfg calls startBankroll =
      Normal (r, (calls + Z.to_nat (Source.TOTAL_RUNS cfg))%nat) /\
    Source.rStartBankroll r = startBankroll /\
    Source.rFinalBankrolls r =
      trialResults clock cfg startBankroll calls 0
        (Z.to_nat (Source.TOTAL_RUNS cfg)) /\
    reportSound cfg r.
Proof.
  unfold Source.testBankroll.
  destruct (Source.TOTAL_RUNS cfg <? 0) eqn:Hneg; [lia|].
  rewrite runsLoop_spec. cbn [app].
  set (finals := trialResults clock cfg startBankroll calls 0
                   (Z.to_nat (Source.TOTAL_RUNS cfg))).
  assert (Hlen : length finals = Z.to_nat (Source.TOTAL_RUNS cfg))
    by apply trialResults_length.
  pose proof (ruined_plus_surviving (Source.BET_AMOUNT cfg) finals)
    as Hsum.
  destruct (printBankrollHistogram_normal finals (Source.BET_AMOUNT cfg)
              (Source.HISTOGRAM_BINS cfg) (Source.TOTAL_RUNS cfg)
              bins_positive)
    as [[Hzero Hp] | (h & Hp & _ & Hn & _)]; rewrite Hp; cbn [bindO];
    eexists; (split; [reflexivity|]);
    unfold reportSound, survivingCountOf;
    cbn [Source.rStartBankroll Source.rFinalBankrolls Source.rRuinCount
         Source.rRuinProbability Source.rPrintedPercent Source.rHistogram];
    repeat (split; [first [reflexivity | assumption | lia]|]);
    first [reflexivity | lia].
Qed.

Lemma bankrollLoop_normal (bankrolls : list D) :
  forall calls,
    exists reports,
      Source.bankrollLoop clock cfg calls bankrolls = Normal reports /\
      map Source.rStartBankroll reports = bankrolls /\
      Forall (reportSound cfg) reports.
Proof.
  induction bankrolls as [|b bankrolls IH]; intros calls.
  - exists []. repeat split; constructor.
  - cbn [Source.bankrollLoop].
    destruct (testBankroll_normal calls b) as (r & Hr & Hstart & _ & Hok).
    rewrite Hr. cbn [bindO fst snd].
    destruct (IH (calls + Z.to_nat (Source.TOTAL_RUNS cfg))%nat)
      as (reports & Hreps & Hstarts & Hall).
    rewrite Hreps. cbn [bindO].
    exists (r :: reports). split; [reflexivity|].
    split; [cbn [map]; now rewrite Hstart, Hstarts | now constructor].
Qed.

(** With a trial count that is not negative and at least one bin, [main]
    ends normally, returns 0, and reports soundly on every starting
    bankroll, whatever the other constants are. *)
Lemma mainWith_normal :
  exists reports,
    Source.mainWith clock cfg = Normal (reports, 0) /\
    map Source.rStartBankroll reports = Source.bankrollsToTest cfg /\
    Forall (reportSound cfg) reports.
Proof.
  unfold Source.mainWith.
  destruct (bankrollLoop_normal (Source.bankrollsToTest cfg) O)
    as (reports & Hreps & Hstarts & Hall).
  rewrite Hreps. cbn [bindO]. now exists reports.
Qed.

End CampaignFacts.

(** ** Conservation of the counts *)

(** C7.  When the trial count is not negative and there is at least one
    bin, the program reports on every starting bankroll of the list, and in
    every report the ruin count and the number of survivors the summariser
    works from add up to the trial count, the two being the numbers of
    final bankrolls below and not below the bet amount, and the ruin
    probability is the ruin count divided by the trial count (it is
    printed as a percentage). *)
Theorem count_conservation {D : Type} {ops : DoubleOps D}
    {rng : RandomSource D} (clock : nat -> Z) (cfg : Source.Config D) :
  0 <= Source.TOTAL_RUNS cfg ->
  1 <= Source.HISTOGRAM_BINS cfg ->
  exists reports,
    Source.mainWith clock cfg = Normal (reports, 0) /\
    map Source.rStartBankroll reports = Source.bankrollsToTest cfg /\
    Forall
      (fun r =>
         Source.rRuinCount r + survivingCountOf r = Source.TOTAL_RUNS cfg /\
         Source.rRuinCount r =
           countRuined (Source.BET_AMOUNT cfg) (Source.rFinalBankrolls r) /\
         survivingCountOf r =
           countSurviving (Source.BET_AMOUNT cfg) (Source.rFinalBankrolls r) /\
         Source.rRuinProbability r =
           ddiv (of_int (Source.rRuinCount r))
             (of_int (Source.TOTAL_RUNS cfg)) /\
       Source.rPrintedPercent r =
         dmul (Source.rRuinProbability r) (of_int 100))
      reports.
Proof.
  intros HR HK.
  destruct (mainWith_normal clock cfg HR HK) as (reports & Hm & Hs & Hall).
  exists reports. split; [exact Hm|]. split; [exact Hs|].
  eapply Forall_impl; [|exact Hall].
  intros r (_ & Hruin & Hsurv & Hsum & Hprob & Hpct).
  repeat split; assumption.
Qed.

(** The hypotheses of [count_conservation] hold on scenario 3. *)
Lemma count_conservation_witness :
  exists reports,
    Source.mainWith (rng := scenario3_source) tickingClock scenario3 =
      Normal (reports, 0) /\
    Forall
      (fun r =>
         Source.rRuinCount r + survivingCountOf r =
         Source.TOTAL_RUNS scenario3)
      reports.
Proof.
  destruct (count_conservation (rng := scenario3_source) tickingClock
              scenario3 ltac:(vm_compute; discriminate)
              ltac:(vm_compute; discriminate))
    as (reports & Hm & _ & Hall).
  exists reports. split; [exact Hm|].
  eapply Forall_impl; [|exact Hall]. intros r H. exact (proj1 H).
Defined.

(** ** Configuration is not validated *)

Section NoValidation.
Context {D : Type} {ops : DoubleOps D} {rng : RandomSource D}.
Variable clock : nat -> Z.

Lemma Main_bankrollLoop_starts (cfg : Main.Config D) (bankrolls : list D) :
  forall calls,
    map Main.rStartBankroll (Main.bankrollLoop clock cfg calls bankrolls) =
    bankrolls.
Proof.
  induction bankrolls as [|b bankrolls IH]; intros calls; [reflexivity|].
  cbn [Main.bankrollLoop]. unfold Main.testBankroll.
  destruct (Main.runsLoop clock cfg b _ _ _ _) as [ruinCount calls'].
  cbn [map Main.rStartBankroll]. now rewrite IH.
Qed.

(** The only value [main] of Source.cpp returns is 0. *)
Lemma Source_main_returns_zero (cfg : Source.Config D)
    (reports : list (Source.Report D)) (code : Z) :
  Source.mainWith clock cfg = Normal (reports, code) -> code = 0.
Proof.
  unfold Source.mainWith.
  destruct (Source.bankrollLoop clock cfg 0 (Source.bankrollsToTest cfg));
    cbn [bindO]; [|discriminate|discriminate].
  now intros [= _ <-].
Qed.

(** C8, as the code has it.  Neither program checks its configuration.
    The program of Source.cpp, whenever its trial count is not negative
    and its bin count is positive, runs all the trials of every starting
    bankroll and returns 0, whatever the probability, the bet amount, the
    number of bets and the list of bankrolls; it never returns another
    value.  The program of main.cpp reports on every starting bankroll
    and returns 0 for every configuration. *)
Theorem configuration_not_validated (cfg : Source.Config D)
    (cfgMain : Main.Config D) :
  (0 <= Source.TOTAL_RUNS cfg ->
   1 <= Source.HISTOGRAM_BINS cfg ->
   exists reports,
     Source.mainWith clock cfg = Normal (reports, 0) /\
     map Source.rStartBankroll reports = Source.bankrollsToTest cfg /\
     Forall
       (fun r =>
          length (Source.rFinalBankrolls r) =
          Z.to_nat (Source.TOTAL_RUNS cfg))
       reports) /\
  (forall reports code,
     Source.mainWith clock cfg = Normal (reports, code) -> code = 0) /\
  snd (Main.mainWith clock cfgMain) = 0 /\
  map Main.rStartBankroll (fst (Main.mainWith clock cfgMain)) =
    Main.bankrollsToTest cfgMain.
Proof.
  split; [|split; [|split]].
  - intros HR HK.
    destruct (mainWith_normal clock cfg HR HK)
      as (reports & Hm & Hs & Hall).
    exists reports. split; [exact Hm|]. split; [exact Hs|].
    eapply Forall_impl; [|exact Hall]. intros r H. exact (proj1 H).
  - apply Source_main_returns_zero.
  - reflexivity.
  - apply Main_bankrollLoop_starts.
Qed.

(** A negative trial count makes [reserve] throw before any trial of the
    first starting bankroll is run; nothing catches the exception. *)
Lemma negative_trial_count_throws (cfg : Source.Config D) (b : D)
    (rest : list D) :
  Source.TOTAL_RUNS cfg < 0 ->
  Source.bankrollsToTest cfg = b :: rest ->
  Source.mainWith clock cfg = Throws.
Proof.
  intros HR Hb. unfold Source.mainWith. rewrite Hb.
  cbn [Source.bankrollLoop]. unfold Source.testBankroll.
  destruct (Source.TOTAL_RUNS cfg <? 0) eqn:E; [reflexivity | lia].
Qed.

End NoValidation.

(** Without a bin the map is empty, and the first survivor that equals the
    maximum makes the summariser dereference [rbegin()] of an empty map. *)
Lemma no_bin_is_undefined :
  Source.printBankrollHistogram [50; 10]%Q 25%Q 0 2 = Undefined /\
  Source.printBankrollHistogram [50; 10]%float 25%float 0 2 = Undefined.
Proof. split; vm_compute; reflexivity. Qed.

(** The hypotheses of [configuration_not_validated] hold on scenario 3 with
    a house win probability of 2. *)
Lemma configuration_not_validated_witness :
  exists reports,
    Source.mainWith (rng := scenario3_source) tickingClock
      scenario3_bad_probability = Normal (reports, 0) /\
    map Source.rStartBankroll reports =
      Source.bankrollsToTest scenario3_bad_probability.
Proof.
  destruct (proj1 (configuration_not_validated (rng := scenario3_source)
                     tickingClock scenario3_bad_probability scenario3_main)
              ltac:(vm_compute; discriminate)
              ltac:(vm_compute; discriminate))
    as (reports & Hm & Hs & _).
  exists reports. split; [exact Hm | exact Hs].
Defined.

(** C8 as stated fails.  With a house win probability of 2 the program
    runs its four trials, each of which wins both bets, and returns 0;
    with an empty list of bankrolls it returns 0 as well; and so does the
    program of main.cpp. *)
Lemma invalid_configuration_exits_zero :
  validConfig scenario3_bad_probability = false /\
  (exists r,
     Source.mainWith (rng := scenario3_source) tickingClock
       scenario3_bad_probability = Normal ([r], 0) /\
     Source.rFinalBankrolls r = [4; 4; 4; 4]%Q /\
     Source.rRuinCount r = 0) /\
  validConfig scenario3_no_bankroll = false /\
  Source.mainWith (rng := scenario3_source) tickingClock
    scenario3_no_bankroll = Normal ([], 0) /\
  snd (Main.mainWith (rng := scenario3_source) tickingClock
         {| Main.HOUSE_WIN_PROB := 2%Q;
            Main.BET_AMOUNT := 1%Q;
            Main.BETS_PER_RUN := 2;
            Main.TOTAL_RUNS := 4;
            Main.bankrollsToTest := [2%Q] |}) = 0.
Proof.
  split; [reflexivity|]. split.
  - eexists. split; [vm_compute; reflexivity|]. split; reflexivity.
  - split; [reflexivity|]. split; reflexivity.
Qed.

(** ** What a campaign is determined by *)

Section Determinism.
Context {D : Type} {ops : DoubleOps D} {rng : RandomSource D}.

(** The seed only depends on the clock reading modulo [2^32]. *)
Lemma seedOf_mod (now1 now2 runIndex : Z) :
  now1 mod 2 ^ 32 = now2 mod 2 ^ 32 ->
  seedOf now1 runIndex = seedOf now2 runIndex.
Proof.
  intros H. unfold seedOf.
  rewrite <- (Zplus_mod_idemp_l now1), <- (Zplus_mod_idemp_l now2).
  now rewrite H.
Qed.

(** A trial is a function of its parameters and of its seed. *)
Lemma simulateSingleRun_seed (now1 now2 : Z)
    (initialHouseBankroll betAmount : D) (numBets : Z) (houseWinProb : D)
    (runIndex1 runIndex2 : Z) :
  seedOf now1 runIndex1 = seedOf now2 runIndex2 ->
  Source.simulateSingleRun now1 initialHouseBankroll betAmount numBets
    houseWinProb runIndex1 =
  Source.simulateSingleRun now2 initialHouseBankroll betAmount numBets
    houseWinProb runIndex2.
Proof.
  intros H. unfold Source.simulateSingleRun, Source.runLoop.
  now rewrite H.
Qed.

Variables clock1 clock2 : nat -> Z.
Hypothesis same_readings :
  forall n, clock1 n mod 2 ^ 32 = clock2 n mod 2 ^ 32.

Lemma trialResults_clock (cfg : Source.Config D) (startBankroll : D)
    (calls : nat) (i : Z) (n : nat) :
  trialResults clock1 cfg startBankroll calls i n =
  trialResults clock2 cfg startBankroll calls i n.
Proof.
  unfold trialResults. apply map_ext. intros t.
  apply simulateSingleRun_seed, seedOf_mod, same_readings.
Qed.

Lemma testBankroll_clock (cfg : Source.Config D) (calls : nat)
    (startBankroll : D) :
  Source.testBankroll clock1 cfg calls startBankroll =
  Source.testBankroll clock2 cfg calls startBankroll.
Proof.
  unfold Source.testBankroll.
  now rewrite !runsLoop_spec, trialResults_clock.
Qed.

Lemma bankrollLoop_clock (cfg : Source.Config D) (bankrolls : list D) :
  forall calls,
    Source.bankrollLoop clock1 cfg calls bankrolls =
    Source.bankrollLoop clock2 cfg calls bankrolls.
Proof.
  induction bankrolls as [|b bankrolls IH]; intros calls; [reflexivity|].
  cbn [Source.bankrollLoop]. rewrite testBankroll_clock.
  destruct (Source.testBankroll clock2 cfg calls b) as [[r calls']| |];
    cbn [bindO snd]; [|reflexivity|reflexivity].
  now rewrite IH.
Qed.

(** C5, as the code has it.  There is no campaign seed: every trial seeds
    its generator with the sum of the clock reading and of its index,
    modulo [2^32].  Two executions with the same configuration in which
    the clock reads the same values modulo [2^32], call after call,
    produce the same reports: the same ruin counts, the same vectors of
    final bankrolls and the same histograms, for every starting
    bankroll. *)
Theorem campaign_determined_by_clock (cfg : Source.Config D) :
  Source.mainWith clock1 cfg = Source.mainWith clock2 cfg.
Proof.
  unfold Source.mainWith. now rewrite bankrollLoop_clock.
Qed.

End Determinism.

(** The hypothesis of [campaign_determined_by_clock] holds for a clock and
    the same clock [2^32] ticks later, on scenario 3. *)
Lemma campaign_determined_by_clock_witness :
  Source.mainWith (rng := scenario3_source) tickingClock scenario3 =
  Source.mainWith (rng := scenario3_source) laterClock scenario3.
Proof.
  apply (campaign_determined_by_clock (rng := scenario3_source)
           tickingClock laterClock).
  intros n. unfold laterClock.
  rewrite <- (Z.mul_1_l (2 ^ 32)) at 2. now rewrite Z_mod_plus_full.
Defined.

(** The generator of [MT19937] is the one the C++ standard requires: the
    10000th output of the generator seeded with 5489 is 4123659995. *)
Lemma mt19937_conformance :
  MT19937.output (Z.to_nat 10000) (MT19937.seed 5489) = 4123659995.
Proof. vm_compute. reflexivity. Qed.

(** C5 as stated fails: the result of a trial depends on the clock.  With
    the generator of the standard library and the constants of [main], in
    exact arithmetic, the trial of index 0 returns 500 when the clock reads
    1000 and 950 when it reads 1001.  A campaign of one trial of one bet
    counts no ruin on a clock that starts at 1000 and one ruin on a clock
    that starts at 1. *)
Lemma campaign_depends_on_clock :
  (let cfg := Source.config (D := Q) in
   (Source.simulateSingleRun (rng := MT19937.source) 1000 500%Q
      (Source.BET_AMOUNT cfg) (Source.BETS_PER_RUN cfg)
      (Source.HOUSE_WIN_PROB cfg) 0 == 500)%Q /\
   (Source.simulateSingleRun (rng := MT19937.source) 1001 500%Q
      (Source.BET_AMOUNT cfg) (Source.BETS_PER_RUN cfg)
      (Source.HOUSE_WIN_PROB cfg) 0 == 950)%Q) /\
  (exists r1 r2,
     Source.mainWith (rng := MT19937.source) tickingClock oneBet =
       Normal ([r1], 0) /\
     Source.mainWith (rng := MT19937.source) earlyClock oneBet =
       Normal ([r2], 0) /\
     Source.rRuinCount r1 = 0 /\ Source.rRuinCount r2 = 1 /\
     Source.rFinalBankrolls r1 = [50%Q] /\
     Source.rFinalBankrolls r2 = [0%Q]).
Proof.
  split; [split; vm_compute; reflexivity|].
  do 2 eexists. split; [vm_compute; reflexivity|].
  split; [vm_compute; reflexivity|]. repeat split.
Qed.

(** The same two trials in doubles. *)
Lemma trial_depends_on_clock_in_doubles :
  let cfg := Source.config (D := float) in
  Source.simulateSingleRun (rng := MT19937.source) 1000 500%float
    (Source.BET_AMOUNT cfg) (Source.BETS_PER_RUN cfg)
    (Source.HOUSE_WIN_PROB cfg) 0 = 500%float /\
  Source.simulateSingleRun (rng := MT19937.source) 1001 500%float
    (Source.BET_AMOUNT cfg) (Source.BETS_PER_RUN cfg)
    (Source.HOUSE_WIN_PROB cfg) 0 = 950%float.
Proof. split; vm_compute; reflexivity. Qed.

(** ** The histogram at concrete inputs *)

(** C1.  Two survivors of 50 and one ruined trial, a bet amount of 25 and
    two bins: the width is set to 100 and the two bins [50, 150) and
    [150, 250) are created and printed, but both survivors are counted in
    the second one, and the first bin, the one that contains 50, stays
    empty. *)
Theorem equal_survivors_counted_in_last_bin :
  exists h,
    Source.printBankrollHistogram [50; 50; 10]%Q 25%Q 2 3 =
      Normal (Some h) /\
    h = {| Source.hNumSurvivors := 2;
           Source.hMinBankroll := 50%Q;
           Source.hMaxBankroll := 50%Q;
           Source.hBinWidth := 100%Q;
           Source.hBins := [(50%Q, 0); (150%Q, 2)];
           Source.hMaxBinCount := 2 |} /\
    map (fun row => (fst (fst (fst row)), snd (fst row)))
      (Source.printedRows h) = [(50%Q, 0); (150%Q, 2)].
Proof.
  eexists. split; [vm_compute; reflexivity|].
  split; vm_compute; reflexivity.
Qed.

(** The same histogram in doubles. *)
Lemma equal_survivors_in_doubles :
  Source.printBankrollHistogram [50; 50; 10]%float 25%float 2 3 =
    Normal (Some {| Source.hNumSurvivors := 2;
                    Source.hMinBankroll := 50%float;
                    Source.hMaxBankroll := 50%float;
                    Source.hBinWidth := 100%float;
                    Source.hBins := [(50%float, 0); (150%float, 2)];
                    Source.hMaxBinCount := 2 |}).
Proof. vm_compute. reflexivity. Qed.

(** The hypotheses of [degenerate_survivors_in_last_bin] hold at the same
    input. *)
Lemma degenerate_survivors_in_last_bin_witness :
  exists h,
    Source.printBankrollHistogram [50; 50; 10]%Q 25%Q 2 3 = Normal (Some h) /\
    map_counts (Source.hBins h) = [0; 2].
Proof.
  destruct (degenerate_survivors_in_last_bin [50; 50; 10]%Q 25%Q 2 3 50%Q)
    as (h & Hh & _ & _ & _ & _ & Hcounts).
  - vm_compute; discriminate.
  - reflexivity.
  - intros x [<- | [<- | [<- | []]]] Hs;
      [reflexivity | reflexivity | discriminate Hs].
  - split; vm_compute; discriminate.
  - exists h. split; [exact Hh | exact Hcounts].
Defined.

(** C6.  In doubles the counts of the bins need not add up to the number
    of survivors.  Of the final bankrolls 1, 13.999999999999998 and 14,
    with a bet amount of 1 and three bins, all three survive; the bin
    width is the double nearest to 13/3; for the second bankroll the
    quotient (x - m) / w rounds to 3, so its key is m + 3 * w = 14, which
    is no key of the map, and the bankroll is not the maximum: it is
    counted nowhere.  The counts are 1, 0 and 1. *)
Theorem histogram_loses_survivor_in_doubles :
  let one := spec_of_Z 1 in
  let below14 := SFpred prec emax (spec_of_Z 14) in
  let w := ddiv (spec_of_Z 13) (spec_of_Z 3) in
  let s := Source.scanBankrolls nearMaximum one in
  (Source.survivingBankrolls s = nearMaximum /\
   Source.minBankroll s = one /\
   Source.maxBankroll s = spec_of_Z 14) /\
  (ddiv (dsub below14 one) w = spec_of_Z 3 /\
   Source.binKeyOf one w below14 = spec_of_Z 14 /\
   deqb below14 (spec_of_Z 14) = false /\
   map_keys (Source.initBins one w 3 0 []) =
     [one; dadd one (dmul (spec_of_Z 1) w); dadd one (dmul (spec_of_Z 2) w)] /\
   map_find (spec_of_Z 14) (Source.initBins one w 3 0 []) = None) /\
  exists h,
    Source.printBankrollHistogram nearMaximum one 3 3 = Normal (Some h) /\
    Source.hNumSurvivors h = 3 /\
    Source.hBinWidth h = w /\
    map_counts (Source.hBins h) = [1; 0; 1] /\
    sumCounts (Source.hBins h) = 2.
Proof.
  split; [repeat split; vm_compute; reflexivity|].
  split; [repeat split; vm_compute; reflexivity|].
  eexists. split; [vm_compute; reflexivity|].
  repeat split; vm_compute; reflexivity.
Qed.

(** The same histogram on the primitive floats, where the values print as
    decimals. *)
Lemma histogram_loses_survivor_prim :
  map Prim2SF nearMaximum_prim = nearMaximum /\
  Source.printBankrollHistogram nearMaximum_prim 1%float 3 3 =
    Normal
      (Some {| Source.hNumSurvivors := 3;
               Source.hMinBankroll := 1%float;
               Source.hMaxBankroll := 14%float;
               Source.hBinWidth := (13 / 3)%float;
               Source.hBins :=
                 [(1%float, 1); ((1 + 1 * (13 / 3))%float, 0);
                  ((1 + 2 * (13 / 3))%float, 1)];
               Source.hMaxBinCount := 1 |}).
Proof. split; vm_compute; reflexivity. Qed.

(** The same loss in a whole campaign: with a bet amount of 0.2 and a
    starting bankroll of 1.5, the trials "two losses, four wins" and
    "loss, four wins, loss" end on two doubles next to each other; the
    greater is the maximum, and the smaller is counted in no bin. *)
Lemma campaign_loses_survivor_in_doubles :
  exists r h,
    Source.mainWith (rng := fifthsSource) tickingClock fifths =
      Normal ([r], 0) /\
    Source.rRuinCount r = 0 /\
    length (Source.rFinalBankrolls r) = 3%nat /\
    Source.rHistogram r = Some h /\
    Source.hNumSurvivors h = 3 /\
    map_counts (Source.hBins h) = [1; 0; 0; 0; 1] /\
    sumCounts (Source.hBins h) = 2.
Proof.
  do 2 eexists. split; [vm_compute; reflexivity|]. repeat split.
Qed.

(** * Further properties of the code *)

(** ** The summariser, for every arithmetic *)

Section SummariserMore.
Context {D : Type} {ops : DoubleOps D}.

Lemma map_assign_length_le (k : D) (v : Z) (m : DoubleMap D) :
  (length (map_assign k v m) <= S (length m))%nat.
Proof.
  induction m as [|[k' v'] m IH]; cbn [map_assign length]; [lia|].
  destruct (dltb k' k); [cbn [length]; lia|].
  destruct (dltb k k'); cbn [length]; lia.
Qed.

Lemma initBins_length_le (minB w : D) (n : nat) :
  forall i bins,
    (length (Source.initBins minB w n i bins) <= n + length bins)%nat.
Proof.
  induction n as [|n IH]; intros i bins; cbn [Source.initBins]; [lia|].
  eapply Nat.le_trans; [apply IH|].
  pose proof (map_assign_length_le
                (dadd minB (dmul (of_int i) w)) 0 bins). lia.
Qed.

Lemma map_keys_length (m : DoubleMap D) : length (map_keys m) = length m.
Proof. unfold map_keys. apply length_map. Qed.

(** The summariser never counts more than there are survivors, and never
    prints more bins than it was asked for. *)
Theorem histogram_never_overcounts (finalBankrolls : list D) (betAmount : D)
    (numBins totalRuns : Z) :
  1 <= numBins ->
  match Source.printBankrollHistogram finalBankrolls betAmount numBins
          totalRuns with
  | Normal None => countSurviving betAmount finalBankrolls = 0
  | Normal (Some h) =>
      Source.hNumSurvivors h = countSurviving betAmount finalBankrolls /\
      0 <= sumCounts (Source.hBins h) <= Source.hNumSurvivors h /\
      (1 <= length (Source.hBins h) <= Z.to_nat numBins)%nat
  | Throws => False
  | Undefined => False
  end.
Proof.
  intros HK.
  destruct (printBankrollHistogram_normal finalBankrolls betAmount numBins
              totalRuns HK)
    as [[Hzero Hp] | (h & Hp & _ & Hn & _ & _ & _ & Hkeys & Hsum)];
    rewrite Hp; [exact Hzero|].
  split; [exact Hn|]. split.
  - rewrite Hsum, Hn. unfold countSurviving. rewrite <- scan_survivors.
    split; [lia|]. apply inj_le, filter_length_le.
  - apply (f_equal (@length D)) in Hkeys. rewrite !map_keys_length in Hkeys.
    rewrite Hkeys. split.
    + apply initBins_nonempty. left. lia.
    + pose proof (initBins_length_le
                    (Source.minBankroll
                       (Source.scanBankrolls finalBankrolls betAmount))
                    (Source.chooseBinWidth
                       (Source.minBankroll
                          (Source.scanBankrolls finalBankrolls betAmount))
                       (Source.maxBankroll
                          (Source.scanBankrolls finalBankrolls betAmount))
                       numBins)
                    (Z.to_nat numBins) 0 []) as Hle.
      cbn [length] in Hle. lia.
Qed.

End SummariserMore.

(** The hypothesis of [histogram_never_overcounts] holds for four bins. *)
Lemma histogram_never_overcounts_witness :
  match Source.printBankrollHistogram sixFinals 25%Q 4 6 with
  | Normal (Some h) =>
      0 <= sumCounts (Source.hBins h) <= Source.hNumSurvivors h
  | _ => False
  end.
Proof.
  pose proof (histogram_never_overcounts sixFinals 25%Q 4 6
                ltac:(vm_compute; discriminate)) as H.
  destruct (Source.printBankrollHistogram sixFinals 25%Q 4 6)
    as [[h|]| |]; [exact (proj1 (proj2 H)) | discriminate H | exact H
                   | exact H].
Defined.

Section MaxBinCount.
Context {D : Type} {ops : DoubleOps D}.

Lemma map_second_incr (m : DoubleMap D) :
  forall it, (it < length m)%nat ->
    map_second (map_incr m it) it = map_second m it + 1.
Proof.
  unfold map_second.
  induction m as [|[k v] m IH]; intros it Hit; [inversion Hit|].
  destruct it as [|it]; cbn [map_incr nth_error]; [reflexivity|].
  apply IH. cbn [length] in Hit. lia.
Qed.

Lemma listMax_incr (m : DoubleMap D) :
  forall it, (it < length m)%nat ->
    listMax (map_counts (map_incr m it)) =
    Z.max (listMax (map_counts m)) (map_second m it + 1).
Proof.
  unfold listMax, map_counts, map_second.
  induction m as [|[k v] m IH]; intros it Hit; [inversion Hit|].
  destruct it as [|it]; cbn [map_incr map snd fold_right nth_error].
  - lia.
  - cbn [length] in Hit. rewrite IH by lia. lia.
Qed.

Lemma bump_max (bins : DoubleMap D) (c : Z) (it : nat) :
  (it < length bins)%nat ->
  c = listMax (map_counts bins) ->
  snd (Source.bump (bins, c) it) =
  listMax (map_counts (fst (Source.bump (bins, c) it))).
Proof.
  intros Hit Hc. cbn [Source.bump fst snd].
  rewrite listMax_incr, map_second_incr by exact Hit. rewrite <- Hc.
  destruct (c <? map_second bins it + 1) eqn:E; lia.
Qed.

Lemma all_zero_max (m : DoubleMap D) :
  Forall (fun e => snd e = 0) m -> listMax (map_counts m) = 0.
Proof.
  unfold listMax, map_counts.
  induction 1 as [|[k v] m Hv Hm IH]; [reflexivity|].
  cbn [map snd fold_right] in *. lia.
Qed.

(** The loop that fills the bins keeps [maxBinCount] equal to the greatest
    count. *)
Lemma populate_max (minB maxB w : D) (xs : list D) :
  forall st st',
    Source.populate minB maxB w xs st = Normal st' ->
    snd st = listMax (map_counts (fst st)) ->
    snd st' = listMax (map_counts (fst st')).
Proof.
  induction xs as [|x xs IH]; intros [bins c] st' Hp Hc.
  - cbn [Source.populate] in Hp. now injection Hp as <-.
  - cbn [Source.populate] in Hp. unfold Source.populateStep in Hp.
    cbn [fst snd] in Hp, Hc.
    destruct (deqb x maxB).
    + destruct (map_rbegin bins) as [it|] eqn:Hrb; [|discriminate Hp].
      apply map_rbegin_valid in Hrb. cbn [bindO] in Hp.
      apply (IH _ _ Hp). apply bump_max; [lia | exact Hc].
    + destruct (map_find (Source.binKeyOf minB w x) bins) as [it|] eqn:Hf;
        cbn [bindO] in Hp.
      * apply map_find_valid in Hf.
        apply (IH _ _ Hp). apply bump_max; [exact Hf | exact Hc].
      * apply (IH _ _ Hp). exact Hc.
Qed.

(** Whenever a chart is produced, the count used to scale the bars is the
    greatest count of a bin. *)
Theorem maxBinCount_is_greatest_count (finalBankrolls : list D)
    (betAmount : D) (numBins totalRuns : Z) (h : Source.Histogram D) :
  Source.printBankrollHistogram finalBankrolls betAmount numBins totalRuns =
    Normal (Some h) ->
  Source.hMaxBinCount h = listMax (map_counts (Source.hBins h)) /\
  Forall (fun count => count <= Source.hMaxBinCount h)
    (map_counts (Source.hBins h)).
Proof.
  unfold Source.printBankrollHistogram. cbn zeta.
  destruct (_ =? 0); [discriminate|].
  destruct (Source.populate _ _ _ _ _) as [st'| |] eqn:Hp;
    cbn [bindO]; [|discriminate|discriminate].
  intros [= <-]. cbn [Source.hMaxBinCount Source.hBins].
  assert (Hmax : snd st' = listMax (map_counts (fst st'))).
  { apply (populate_max _ _ _ _ _ _ Hp). cbn [fst snd].
    symmetry. apply all_zero_max, initBins_zero. constructor. }
  split; [exact Hmax|]. rewrite Hmax. unfold listMax.
  generalize (map_counts (fst st')). intros l.
  induction l as [|a l IHl]; constructor; cbn [fold_right]; [lia|].
  eapply Forall_impl; [|exact IHl]. cbn beta. intros; lia.
Qed.

(** No chart is printed exactly when no final bankroll survives, whatever
    the number of bins. *)
Theorem no_chart_iff_no_survivor (finalBankrolls : list D) (betAmount : D)
    (numBins totalRuns : Z) :
  Source.printBankrollHistogram finalBankrolls betAmount numBins totalRuns =
    Normal None <->
  Forall (fun f => dltb f betAmount = true) finalBankrolls.
Proof.
  unfold Source.printBankrollHistogram. cbn zeta.
  rewrite scan_survivors.
  assert (Hiff : length (filter (survives betAmount) finalBankrolls) = O <->
                 Forall (fun f => dltb f betAmount = true) finalBankrolls).
  { unfold survives. induction finalBankrolls as [|f fbs IH].
    - split; [constructor | reflexivity].
    - cbn [filter]. destruct (dltb f betAmount) eqn:E; cbn [negb length].
      + rewrite IH. split; [now constructor | now inversion 1].
      + split; [discriminate | inversion 1; congruence]. }
  destruct (Z.of_nat (length (filter (survives betAmount) finalBankrolls))
            =? 0) eqn:Hz.
  - split; [intros _; apply Hiff; lia | reflexivity].
  - split.
    + destruct (Source.populate _ _ _ _ _); cbn [bindO]; discriminate.
    + intros H. apply Hiff in H. lia.
Qed.

End MaxBinCount.

(** The hypothesis of [maxBinCount_is_greatest_count] holds on six final
    bankrolls and four bins. *)
Lemma maxBinCount_is_greatest_count_witness :
  exists h,
    Source.printBankrollHistogram sixFinals 25%Q 4 6 = Normal (Some h) /\
    Source.hMaxBinCount h = listMax (map_counts (Source.hBins h)).
Proof.
  eexists. split; [vm_compute; reflexivity|].
  refine (proj1 (maxBinCount_is_greatest_count sixFinals 25%Q 4 6 _ _)).
  vm_compute. reflexivity.
Defined.

(** ** The histogram in exact arithmetic: which bin counts what *)

Section ExactBinning.

Lemma find_in_grid_index (minB w key : Q) (n : nat) :
  (0 < w)%Q ->
  forall a t,
    (a <= t < a + n)%nat ->
    (key == minB + inject_Z (Z.of_nat t) * w)%Q ->
    map_find key (gridFrom minB w a n) = Some (t - a)%nat.
Proof.
  intros Hw. induction n as [|n IH]; intros a t Ht Hkey; [lia|].
  unfold gridFrom. cbn [seq map map_find].
  cbn [dltb dadd dmul of_int ExactDouble].
  destruct (Qltb (minB + inject_Z (Z.of_nat a) * w) key) eqn:E1.
  - apply Qltb_true in E1. rewrite Hkey in E1.
    apply Qplus_lt_r in E1.
    apply Qmult_lt_r in E1; [|exact Hw]. rewrite <- Zlt_Qlt in E1.
    pose proof (IH (S a) t ltac:(lia) Hkey) as Hit.
    unfold gridFrom in Hit. cbn [dadd dmul of_int ExactDouble] in Hit.
    rewrite Hit. cbn [option_map]. f_equal. lia.
  - apply Qltb_false in E1.
    destruct (Qltb key (minB + inject_Z (Z.of_nat a) * w)) eqn:E2.
    + apply Qltb_true in E2. rewrite Hkey in E2.
      apply Qplus_lt_r in E2.
      apply Qmult_lt_r in E2; [|exact Hw]. rewrite <- Zlt_Qlt in E2. lia.
    + rewrite Hkey in E1. apply Qplus_le_r in E1.
      apply Qmult_le_r in E1; [|exact Hw]. rewrite <- Zle_Qle in E1.
      f_equal. lia.
Qed.

(** The whole part of the distance of a survivor below the maximum to the
    minimum, in bin widths, is the number of one of the bins, and the
    survivor lies in the interval of that bin. *)
Lemma floor_index (minB maxB x : Q) (numBins : Z) :
  1 <= numBins -> (minB <= x)%Q -> (x < maxB)%Q ->
  let w := Source.chooseBinWidth minB maxB numBins in
  let j := Qfloor ((x - minB) / w) in
  0 <= j < numBins /\
  (minB + inject_Z j * w <= x)%Q /\
  (x < minB + inject_Z (j + 1) * w)%Q.
Proof.
  intros HK Hlo Hhi w j.
  assert (Hlt : (minB < maxB)%Q) by (eapply Qle_lt_trans; eassumption).
  assert (Hw : w = ((maxB - minB) / inject_Z numBins)%Q)
    by (subst w; now apply chooseBinWidth_regular).
  assert (Hpos : (0 < w)%Q) by (rewrite Hw; now apply width_positive).
  assert (HKq : (0 < inject_Z numBins)%Q) by (rewrite <- (Zlt_Qlt 0); lia).
  set (q := ((x - minB) / w)%Q) in *.
  assert (Hq0 : (0 <= q)%Q).
  { subst q. apply Qle_shift_div_l; [exact Hpos|].
    rewrite Qmult_0_l. unfold Qminus. now rewrite <- Qle_minus_iff. }
  assert (HqK : (q < inject_Z numBins)%Q).
  { subst q. apply Qlt_shift_div_r; [exact Hpos|].
    assert (Hprod : (inject_Z numBins * w == maxB - minB)%Q).
    { rewrite Hw. field. intros H0. rewrite H0 in HKq. discriminate HKq. }
    rewrite Hprod. unfold Qminus. now apply Qplus_lt_l. }
  assert (Hqw : (q * w == x - minB)%Q).
  { subst q. field. intros H0. rewrite H0 in Hpos. discriminate Hpos. }
  split; [split|split].
  - subst j. rewrite <- (Qfloor_Z 0). now apply Qfloor_resp_le.
  - subst j. rewrite Zlt_Qlt.
    eapply Qle_lt_trans; [apply Qfloor_le | exact HqK].
  - apply (Qplus_le_l _ _ (- minB)).
    setoid_replace (minB + inject_Z j * w + - minB)%Q
      with (inject_Z j * w)%Q by ring.
    fold (Qminus x minB). rewrite <- Hqw.
    apply Qmult_le_compat_r; [apply Qfloor_le | now apply Qlt_le_weak].
  - apply (Qplus_lt_l _ _ (- minB)).
    setoid_replace (minB + inject_Z (j + 1) * w + - minB)%Q
      with (inject_Z (j + 1) * w)%Q by ring.
    fold (Qminus x minB). rewrite <- Hqw.
    apply Qmult_lt_compat_r; [exact Hpos | apply Qlt_floor].
Qed.

Lemma binKey_index (minB maxB x : Q) (numBins : Z) :
  1 <= numBins -> (minB <= x)%Q -> (x < maxB)%Q ->
  let w := Source.chooseBinWidth minB maxB numBins in
  map_find (Source.binKeyOf minB w x)
    (gridFrom minB w 0 (Z.to_nat numBins)) =
  Some (Z.to_nat (Qfloor ((x - minB) / w))).
Proof.
  intros HK Hlo Hhi w.
  destruct (floor_index minB maxB x numBins HK Hlo Hhi) as ([Hj0 HjK] & _).
  fold w in Hj0, HjK.
  assert (Hpos : (0 < w)%Q).
  { subst w. apply chooseBinWidth_positive; [exact HK|].
    apply Qlt_le_weak. eapply Qle_lt_trans; eassumption. }
  unfold Source.binKeyOf.
  cbn [deqb dadd dmul ddiv dsub dfloor of_int ExactDouble].
  destruct (Qeq_bool w (inject_Z 0)) eqn:E.
  { apply Qeq_bool_eq in E. rewrite E in Hpos. discriminate Hpos. }
  rewrite (find_in_grid_index minB w _ (Z.to_nat numBins) Hpos 0
             (Z.to_nat (Qfloor ((x - minB) / w)))).
  - f_equal. lia.
  - lia.
  - rewrite Z2Nat.id by exact Hj0. reflexivity.
Qed.

Lemma map_counts_length (m : DoubleMap Q) :
  length (map_counts m) = length m.
Proof. unfold map_counts. apply length_map. Qed.

Lemma map_incr_nth (m : DoubleMap Q) :
  forall it i,
    nth i (map_counts (map_incr m it)) 0 =
    nth i (map_counts m) 0 +
    (if ((i =? it) && (i <? length m))%nat then 1 else 0).
Proof.
  unfold map_counts.
  induction m as [|[k v] m IH]; intros it i.
  - cbn [map_incr map]. destruct i; cbn [nth];
      rewrite andb_false_r; lia.
  - destruct it as [|it], i as [|i]; cbn [map_incr map snd nth length];
      try (cbn; lia).
    rewrite IH. reflexivity.
Qed.

(** Counts after incrementing the bins of positions [idx x], one survivor
    after the other. *)
Lemma fold_incr_nth (idx : Q -> nat) (xs : list Q) :
  forall (bins : DoubleMap Q) i,
    (forall x, In x xs -> (idx x < length bins)%nat) ->
    nth i (map_counts
             (fold_left (fun b x => map_incr b (idx x)) xs bins)) 0 =
    nth i (map_counts bins) 0 +
    Z.of_nat (length (filter (fun x => idx x =? i)%nat xs)).
Proof.
  induction xs as [|x xs IH]; intros bins i Hidx; cbn [fold_left filter].
  - cbn [length]. lia.
  - rewrite IH by (intros y Hy; rewrite map_incr_length;
                   apply Hidx; now right).
    rewrite map_incr_nth.
    pose proof (Hidx x (or_introl eq_refl)) as Hx.
    rewrite (Nat.eqb_sym (idx x) i).
    destruct (i =? idx x)%nat eqn:E; cbn [andb length].
    + apply Nat.eqb_eq in E. subst i.
      apply Nat.ltb_lt in Hx. rewrite Hx. lia.
    + lia.
Qed.

Lemma fold_incr_keys (idx : Q -> nat) (xs : list Q) :
  forall bins : DoubleMap Q,
    map_keys (fold_left (fun b x => map_incr b (idx x)) xs bins) =
    map_keys bins.
Proof.
  induction xs as [|x xs IH]; intros bins; cbn [fold_left]; [reflexivity|].
  now rewrite IH, map_incr_keys.
Qed.

(** On bins whose keys are those of the grid, the loop that fills the bins
    increments, for each survivor between the minimum and the maximum, the
    bin of position [binIndexOf]. *)
Lemma populate_by_index (minB maxB : Q) (numBins : Z) (xs : list Q) :
  1 <= numBins ->
  let w := Source.chooseBinWidth minB maxB numBins in
  (forall x, In x xs -> (minB <= x <= maxB)%Q) ->
  forall bins c,
    map_keys bins = map_keys (gridFrom minB w 0 (Z.to_nat numBins)) ->
    exists c',
      Source.populate minB maxB w xs (bins, c) =
      Normal
        (fold_left
           (fun b x => map_incr b (binIndexOf minB maxB w numBins x))
           xs bins, c').
Proof.
  intros HK w. induction xs as [|x xs IH]; intros Hb bins c Hkeys.
  - exists c. reflexivity.
  - cbn [Source.populate fold_left]. unfold Source.populateStep.
    cbn [fst deqb ExactDouble]. unfold binIndexOf at 2.
    assert (Hlen : length bins = Z.to_nat numBins).
    { apply (f_equal (@length Q)) in Hkeys. unfold map_keys in Hkeys.
      rewrite !length_map in Hkeys. unfold gridFrom in Hkeys.
      now rewrite length_map, length_seq in Hkeys. }
    destruct (Hb x (or_introl eq_refl)) as [Hlo Hhi].
    assert (Hnext : forall it,
              map_keys (map_incr bins it) =
              map_keys (gridFrom minB w 0 (Z.to_nat numBins)))
      by (intros it; now rewrite map_incr_keys).
    destruct (Qeq_bool x maxB) eqn:E.
    + destruct bins as [|e bins']; [cbn in Hlen; lia|].
      cbn [map_rbegin bindO Source.bump].
      replace (length bins') with (Z.to_nat numBins - 1)%nat
        by (cbn [length] in Hlen; lia).
      apply IH; [intros y Hy; apply Hb; now right | apply Hnext].
    + apply Qeq_bool_neq in E.
      assert (Hlt : (x < maxB)%Q).
      { destruct (Qle_lt_or_eq _ _ Hhi) as [H|H];
          [exact H | contradiction]. }
      rewrite (map_find_keys _ _ _ Hkeys).
      pose proof (binKey_index minB maxB x numBins HK Hlo Hlt) as Hbk.
      cbn zeta in Hbk. fold w in Hbk. rewrite Hbk.
      cbn [bindO Source.bump].
      apply IH; [intros y Hy; apply Hb; now right | apply Hnext].
Qed.

End ExactBinning.

Section ExactCounts.

Lemma nth_map_seq (f : nat -> Z) (n i : nat) :
  (i < n)%nat -> nth i (map f (seq 0 n)) 0 = f i.
Proof.
  intros Hi. rewrite (nth_indep _ 0 (f O)) by now rewrite length_map, length_seq.
  rewrite map_nth, seq_nth by exact Hi. reflexivity.
Qed.

Lemma binIndexOf_bound (minB maxB x : Q) (numBins : Z) :
  1 <= numBins -> (minB <= x <= maxB)%Q ->
  (binIndexOf minB maxB (Source.chooseBinWidth minB maxB numBins) numBins x
   < Z.to_nat numBins)%nat.
Proof.
  intros HK [Hlo Hhi]. unfold binIndexOf.
  destruct (Qeq_bool x maxB) eqn:E; [lia|].
  apply Qeq_bool_neq in E.
  assert (Hlt : (x < maxB)%Q).
  { destruct (Qle_lt_or_eq _ _ Hhi) as [H|H]; [exact H | contradiction]. }
  destruct (floor_index minB maxB x numBins HK Hlo Hlt) as ([Hj0 HjK] & _).
  lia.
Qed.

(** In exact arithmetic, with at least one bin and one survivor, the chart
    is this: the bins have the keys [m + i * w] for a positive width [w];
    the count of each bin is the number of survivors whose position
    [binIndexOf] is that of the bin, the last position for a survivor
    equal to the maximum and the whole part of [(x - m) / w] for the
    others; every survivor lies between the minimum and the maximum; a
    survivor below the maximum lies in the interval [[key, key + w)] of
    the bin that counts it; and, when the minimum is below the maximum, a
    survivor equal to the maximum lies at the upper end [key + w] of the
    last bin, which counts it.  (When all survivors are equal the counts
    are still those of the positions: all of them in the last bin, the
    case of [equal_survivors_counted_in_last_bin].) *)
Theorem histogram_counts_exact (finalBankrolls : list Q) (betAmount : Q)
    (numBins totalRuns : Z) :
  1 <= numBins ->
  0 < countSurviving betAmount finalBankrolls ->
  exists h,
    Source.printBankrollHistogram finalBankrolls betAmount numBins totalRuns
      = Normal (Some h) /\
    (0 < Source.hBinWidth h)%Q /\
    map_keys (Source.hBins h) =
      map_keys (gridFrom (Source.hMinBankroll h) (Source.hBinWidth h) 0
                  (Z.to_nat numBins)) /\
    map_counts (Source.hBins h) =
      countsByIndex (Source.hMinBankroll h) (Source.hMaxBankroll h)
        (Source.hBinWidth h) numBins
        (filter (survives betAmount) finalBankrolls) /\
    forall x, In x (filter (survives betAmount) finalBankrolls) ->
      (Source.hMinBankroll h <= x <= Source.hMaxBankroll h)%Q /\
      ((x < Source.hMaxBankroll h)%Q ->
       let j := Qfloor ((x - Source.hMinBankroll h) / Source.hBinWidth h) in
       0 <= j < numBins /\
       (Source.hMinBankroll h + inject_Z j * Source.hBinWidth h <= x)%Q /\
       (x < Source.hMinBankroll h + inject_Z (j + 1) * Source.hBinWidth h)%Q) /\
      ((Source.hMinBankroll h < Source.hMaxBankroll h)%Q ->
       (x == Source.hMaxBankroll h)%Q ->
       binIndexOf (Source.hMinBankroll h) (Source.hMaxBankroll h)
         (Source.hBinWidth h) numBins x = (Z.to_nat numBins - 1)%nat /\
       (Source.hMinBankroll h + inject_Z (numBins - 1) * Source.hBinWidth h
        < x)%Q /\
       (x == Source.hMinBankroll h + inject_Z numBins * Source.hBinWidth h)%Q).
Proof.
  intros HK Hsome.
  set (s := Source.scanBankrolls finalBankrolls betAmount).
  assert (Hsurv : Source.survivingBankrolls s =
                  filter (survives betAmount) finalBankrolls)
    by apply scan_survivors.
  destruct (scan_bounds betAmount finalBankrolls
              {| Source.survivingBankrolls := [];
                 Source.ruinCount := 0;
                 Source.minBankroll := DBL_MAX;
                 Source.maxBankroll := DBL_LOWEST |})
    as (_ & _ & Hall & _). cbn zeta in Hall.
  fold (Source.scanBankrolls finalBankrolls betAmount) in Hall.
  fold s in Hall. rewrite <- Hsurv in *.
  set (w := Source.chooseBinWidth (Source.minBankroll s)
              (Source.maxBankroll s) numBins).
  assert (Hle : (Source.minBankroll s <= Source.maxBankroll s)%Q).
  { destruct (Source.survivingBankrolls s) as [|x0 rest] eqn:Hxs.
    - unfold countSurviving in Hsome. rewrite <- Hsurv in Hsome.
      cbn in Hsome. lia.
    - destruct (Hall x0 (or_introl eq_refl)) as [H1 H2].
      eapply Qle_trans; eassumption. }
  assert (Hpos : (0 < w)%Q) by now apply chooseBinWidth_positive.
  assert (Hbins : Source.initBins (Source.minBankroll s) w
                    (Z.to_nat numBins) 0 [] =
                  gridFrom (Source.minBankroll s) w 0 (Z.to_nat numBins))
    by apply (initBins_grid (Source.minBankroll s) w (Z.to_nat numBins)
                Hpos O).
  destruct (populate_by_index (Source.minBankroll s) (Source.maxBankroll s)
              numBins (Source.survivingBankrolls s) HK Hall
              (gridFrom (Source.minBankroll s) w 0 (Z.to_nat numBins)) 0
              eq_refl) as (c' & Hpop).
  fold w in Hpop.
  unfold Source.printBankrollHistogram. cbn zeta. fold s. fold w.
  assert (Hcount : Z.of_nat (length (Source.survivingBankrolls s)) =
                   countSurviving betAmount finalBankrolls)
    by (unfold countSurviving; now rewrite Hsurv).
  unfold DoubleMap in *. rewrite Hcount, Hbins.
  destruct (countSurviving betAmount finalBankrolls =? 0) eqn:Hz; [lia|].
  match goal with
  | |- context [bindO ?t _] =>
      replace t with
        (Normal (A := list (Q * Z) * Z)
           (fold_left
              (fun b x =>
                 map_incr b
                   (binIndexOf (Source.minBankroll s) (Source.maxBankroll s)
                      w numBins x))
              (Source.survivingBankrolls s)
              (gridFrom (Source.minBankroll s) w 0 (Z.to_nat numBins)), c'))
        by (symmetry; exact Hpop)
  end.
  cbn [bindO fst snd]. eexists. split; [reflexivity|].
  cbn [Source.hMinBankroll Source.hMaxBankroll Source.hBinWidth
       Source.hBins].
  split; [exact Hpos|]. split; [apply fold_incr_keys|]. split.
  - assert (Hidx : forall x, In x (Source.survivingBankrolls s) ->
              (binIndexOf (Source.minBankroll s) (Source.maxBankroll s) w
                 numBins x
               < length (gridFrom (Source.minBankroll s) w 0
                           (Z.to_nat numBins)))%nat).
    { intros x Hx. unfold gridFrom. rewrite length_map, length_seq.
      apply binIndexOf_bound; [exact HK | now apply Hall]. }
    apply (nth_ext _ _ 0 0).
    + unfold map_counts, countsByIndex.
      rewrite !length_map, length_seq.
      pose proof (fold_incr_keys
                    (binIndexOf (Source.minBankroll s)
                       (Source.maxBankroll s) w numBins)
                    (Source.survivingBankrolls s)
                    (gridFrom (Source.minBankroll s) w 0
                       (Z.to_nat numBins))) as Hk.
      apply (f_equal (@length Q)) in Hk. unfold map_keys in Hk.
      rewrite !length_map in Hk. rewrite Hk. unfold gridFrom.
      now rewrite length_map, length_seq.
    + intros i Hi. rewrite fold_incr_nth by exact Hidx.
      rewrite gridFrom_counts, nth_repeat.
      unfold countsByIndex. rewrite nth_map_seq; [reflexivity|].
      unfold map_counts in Hi. rewrite length_map in Hi.
      pose proof (fold_incr_keys
                    (binIndexOf (Source.minBankroll s)
                       (Source.maxBankroll s) w numBins)
                    (Source.survivingBankrolls s)
                    (gridFrom (Source.minBankroll s) w 0
                       (Z.to_nat numBins))) as Hk.
      apply (f_equal (@length Q)) in Hk. unfold map_keys in Hk.
      rewrite !length_map in Hk. rewrite Hk in Hi. unfold gridFrom in Hi.
      now rewrite length_map, length_seq in Hi.
  - intros x Hx. split; [now apply Hall|]. split.
    + intros Hlt. destruct (Hall x Hx) as [Hlo _].
      apply (floor_index (Source.minBankroll s) (Source.maxBankroll s) x
               numBins HK Hlo Hlt).
    + intros Hlt Hmax.
      assert (Hw : w = ((Source.maxBankroll s - Source.minBankroll s)
                        / inject_Z numBins)%Q)
        by (subst w; now apply chooseBinWidth_regular).
      assert (HKq : (0 < inject_Z numBins)%Q)
        by (rewrite <- (Zlt_Qlt 0); lia).
      assert (Hend : (Source.minBankroll s + inject_Z numBins * w ==
                      Source.maxBankroll s)%Q).
      { rewrite Hw. field. intros H0. rewrite H0 in HKq.
        discriminate HKq. }
      split; [|split].
      * unfold binIndexOf.
        now rewrite (proj2 (Qeq_bool_iff x (Source.maxBankroll s)) Hmax).
      * rewrite Hmax, <- Hend. apply Qplus_lt_r.
        apply Qmult_lt_compat_r; [exact Hpos|].
        rewrite <- Zlt_Qlt. lia.
      * rewrite Hmax. symmetry. exact Hend.
Qed.

End ExactCounts.

(** The hypotheses of [histogram_counts_exact] hold on six final bankrolls
    and four bins, where the counts are 2, 0, 1 and 2. *)
Lemma histogram_counts_exact_witness :
  exists h,
    Source.printBankrollHistogram sixFinals 25%Q 4 6 = Normal (Some h) /\
    map_counts (Source.hBins h) =
      countsByIndex (Source.hMinBankroll h) (Source.hMaxBankroll h)
        (Source.hBinWidth h) 4 (filter (survives 25%Q) sixFinals) /\
    map_counts (Source.hBins h) = [2; 0; 1; 2].
Proof.
  destruct (histogram_counts_exact sixFinals 25%Q 4 6
              ltac:(vm_compute; discriminate) ltac:(reflexivity))
    as (h & Hh & _ & _ & Hcounts & _).
  exists h. split; [exact Hh|]. split; [exact Hcounts|].
  assert (E : Normal (Some h) =
              Source.printBankrollHistogram sixFinals 25%Q 4 6)
    by (symmetry; exact Hh).
  vm_compute in E. injection E as ->. reflexivity.
Defined.

(** ** The trial engine: number of bets *)

Section BetCount.
Context {D : Type} {ops : DoubleOps D} {rng : RandomSource D}.

(** A trial of at least one bet places at least one bet and at most
    [numBets], in both engines, whatever the starting bankroll: there is a
    number k of bets, 1 <= k <= numBets, such that each engine went k times
    round its loop, drew k numbers from the generator seeded for the trial,
    and ends with the bankroll that k updates by the bet amount, one per
    draw, make of the starting bankroll. *)
Theorem bets_between_one_and_numBets (now : Z)
    (initialHouseBankroll betAmount : D) (numBets : Z) (houseWinProb : D)
    (runIndex : Z) :
  1 <= numBets ->
  let g0 := mt19937 (seedOf now runIndex) in
  let eS := Source.runLoop now initialHouseBankroll betAmount numBets
              houseWinProb runIndex in
  let eM := Main.runLoop now initialHouseBankroll betAmount numBets
              houseWinProb runIndex in
  exists k : nat,
    (1 <= k <= Z.to_nat numBets)%nat /\
    (betsPerformed eS = Z.of_nat k /\
     exitGenerator eS = advance k g0 /\
     exitBankroll eS =
       bankrollAfter initialHouseBankroll betAmount houseWinProb g0 k) /\
    (betsPerformed eM = Z.of_nat k /\
     exitGenerator eM = advance k g0 /\
     exitBankroll eM =
       bankrollAfter initialHouseBankroll betAmount houseWinProb g0 k).
Proof.
  intros HN g0 eS eM.
  assert (H : exists k : nat,
            (1 <= k <= Z.to_nat numBets)%nat /\
            betsPerformed eS = Z.of_nat k /\
            exitGenerator eS = advance k g0 /\
            exitBankroll eS =
              bankrollAfter initialHouseBankroll betAmount houseWinProb
                g0 k).
  { subst eS. unfold Source.runLoop. fold g0.
    pose proof (betLoop_run betAmount houseWinProb initialHouseBankroll g0
                  (Z.to_nat numBets) O) as Hrun.
    cbn zeta in Hrun. cbn [advance bankrollAfter Z.of_nat Nat.add] in Hrun.
    destruct Hrun as [[k (Hk & He & _)] | [He _]]; rewrite He;
      cbn [exitBankroll betsPerformed exitGenerator].
    - exists k. split; [lia|]. split; [lia|]. split; reflexivity.
    - exists (Z.to_nat numBets). split; [lia|]. split; [lia|].
      split; reflexivity. }
  destruct H as [k (Hk & HS)]. exists k.
  split; [exact Hk|]. split; [exact HS|].
  subst eM.
  now rewrite (runLoop_eq now initialHouseBankroll betAmount numBets
                 houseWinProb runIndex).
Qed.

Lemma Source_runsLoop_no_bet (clock : nat -> Z) (cfg : Source.Config D)
    (startBankroll : D) (n : nat) :
  Source.BETS_PER_RUN cfg <= 0 ->
  trialResults clock cfg startBankroll 0 0 n = repeat startBankroll n.
Proof.
  intros HN. unfold trialResults.
  assert (Hone : forall now i,
            Source.simulateSingleRun now startBankroll
              (Source.BET_AMOUNT cfg) (Source.BETS_PER_RUN cfg)
              (Source.HOUSE_WIN_PROB cfg) i = startBankroll).
  { intros now i. unfold Source.simulateSingleRun, Source.runLoop.
    replace (Z.to_nat (Source.BETS_PER_RUN cfg)) with O by lia.
    reflexivity. }
  generalize 0%nat at 2. induction n as [|n IH]; intros a; [reflexivity|].
  cbn [seq map repeat]. now rewrite Hone, IH.
Qed.

Lemma Main_runsLoop_no_bet (clock : nat -> Z) (cfg : Main.Config D)
    (startBankroll : D) (n : nat) :
  Main.BETS_PER_RUN cfg <= 0 ->
  forall i calls ruinCount,
    Main.runsLoop clock cfg startBankroll n i calls ruinCount =
    (ruinCount, (calls + n)%nat).
Proof.
  intros HN. induction n as [|n IH]; intros i calls ruinCount.
  - cbn [Main.runsLoop]. f_equal. lia.
  - cbn [Main.runsLoop]. unfold Main.simulateSingleRun, Main.runLoop.
    replace (Z.to_nat (Main.BETS_PER_RUN cfg)) with O by lia.
    cbn [Main.betLoop]. rewrite IH. f_equal. lia.
Qed.

(** Without any bet (a number of bets that is zero or negative) a trial
    returns its starting bankroll.  The driver of Source.cpp then counts
    every trial as ruined when the starting bankroll is below the bet
    amount and none otherwise, whereas the driver of main.cpp never counts
    a ruin. *)
Theorem no_bet_campaign (clock : nat -> Z) (cfg : Source.Config D)
    (startBankroll : D) :
  Source.BETS_PER_RUN cfg <= 0 ->
  0 <= Source.TOTAL_RUNS cfg ->
  Source.runsLoop clock cfg startBankroll
    (Z.to_nat (Source.TOTAL_RUNS cfg)) 0 0 0 [] =
  (if dltb startBankroll (Source.BET_AMOUNT cfg)
   then Source.TOTAL_RUNS cfg else 0,
   repeat startBankroll (Z.to_nat (Source.TOTAL_RUNS cfg)),
   Z.to_nat (Source.TOTAL_RUNS cfg)) /\
  Main.runsLoop clock (toMainConfig cfg) startBankroll
    (Z.to_nat (Source.TOTAL_RUNS cfg)) 0 0 0 =
  (0, Z.to_nat (Source.TOTAL_RUNS cfg)).
Proof.
  intros HN HR. split.
  - rewrite runsLoop_spec, Source_runsLoop_no_bet by exact HN.
    cbn [app Nat.add]. do 2 f_equal. unfold countRuined.
    assert (Hlen : forall m,
              length (filter (fun f => dltb f (Source.BET_AMOUNT cfg))
                        (repeat startBankroll m)) =
              if dltb startBankroll (Source.BET_AMOUNT cfg) then m else O).
    { induction m as [|m IH]; cbn [repeat filter].
      - now destruct (dltb _ _).
      - destruct (dltb startBankroll (Source.BET_AMOUNT cfg)) eqn:E;
          cbn [length]; now rewrite IH. }
    rewrite Hlen.
    destruct (dltb startBankroll (Source.BET_AMOUNT cfg)); lia.
  - now rewrite Main_runsLoop_no_bet.
Qed.

End BetCount.

(** The hypothesis of [bets_between_one_and_numBets] holds on the first
    trial of scenario 3, started below the bet amount: the one bet is
    placed all the same and one number is drawn. *)
Lemma bets_between_one_and_numBets_witness :
  exists k : nat,
    (1 <= k <= 2)%nat /\
    betsPerformed (Source.runLoop (rng := scenario3_source) 1000 (1 # 2)%Q
                     1%Q 2 (1 # 2)%Q 0) = Z.of_nat k /\
    exitGenerator (Source.runLoop (rng := scenario3_source) 1000 (1 # 2)%Q
                     1%Q 2 (1 # 2)%Q 0) =
    advance (rng := scenario3_source) k (mt19937 (seedOf 1000 0)).
Proof.
  destruct (bets_between_one_and_numBets (rng := scenario3_source) 1000
              (1 # 2)%Q 1%Q 2 (1 # 2)%Q 0 ltac:(vm_compute; discriminate))
    as [k (Hk & (Hb & Hg & _) & _)].
  exists k. split; [exact Hk|]. split; [exact Hb | exact Hg].
Defined.

(** The hypotheses of [no_bet_campaign] hold on scenario 3 without a bet:
    Source.cpp counts four ruins, main.cpp none. *)
Lemma no_bet_campaign_witness :
  fst (fst (Source.runsLoop (rng := scenario3_source) tickingClock
              scenario3_no_bet (1 # 2)%Q 4 0 0 0 [])) = 4 /\
  fst (Main.runsLoop (rng := scenario3_source) tickingClock
         (toMainConfig scenario3_no_bet) (1 # 2)%Q 4 0 0 0) = 0.
Proof.
  destruct (no_bet_campaign (rng := scenario3_source) tickingClock
              scenario3_no_bet (1 # 2)%Q ltac:(vm_compute; discriminate)
              ltac:(vm_compute; discriminate)) as [HS HM].
  split.
  - exact (f_equal (fun t => fst (fst t)) HS).
  - exact (f_equal fst HM).
Defined.

(** ** The trial engine in exact arithmetic *)

Section ExactTrial.
Context {rng : RandomSource Q}.

Lemma betLoop_nonnegative (betAmount houseWinProb : Q) (n : nat) :
  (0 <= betAmount)%Q ->
  forall i cur g,
    (betAmount <= cur)%Q ->
    (0 <= exitBankroll
            (Source.betLoop betAmount houseWinProb n i cur g))%Q.
Proof.
  intros Hb. induction n as [|n IH]; intros i cur g Hcur.
  - cbn [Source.betLoop exitBankroll]. eapply Qle_trans; eassumption.
  - cbn [Source.betLoop]. destruct (distribution g) as [u g'].
    set (cur' := if dltb u houseWinProb then dadd cur betAmount
                 else dsub cur betAmount).
    assert (Hcur' : (0 <= cur')%Q).
    { subst cur'. destruct (dltb u houseWinProb);
        cbn [dadd dsub ExactDouble].
      - apply (Qle_trans _ (betAmount + 0)); [now rewrite Qplus_0_r|].
        apply Qplus_le_compat; assumption.
      - unfold Qminus. now rewrite <- Qle_minus_iff. }
    destruct (dltb cur' betAmount) eqn:Hruin; cbn [exitBankroll].
    + exact Hcur'.
    + apply IH. cbn [dltb ExactDouble] in Hruin.
      now apply Qltb_false in Hruin.
Qed.

(** A house that starts with at least one bet amount never ends in debt:
    the final bankroll is not negative, and on ruin it lies in [[0, b)]. *)
Theorem ruined_bankroll_not_negative (now : Z)
    (initialHouseBankroll betAmount : Q) (numBets : Z) (houseWinProb : Q)
    (runIndex : Z) :
  (0 <= betAmount)%Q ->
  (betAmount <= initialHouseBankroll)%Q ->
  let e := Source.runLoop now initialHouseBankroll betAmount numBets
             houseWinProb runIndex in
  (0 <= exitBankroll e)%Q /\
  (isReturned e = true -> (exitBankroll e < betAmount)%Q).
Proof.
  intros Hb HB e. subst e. unfold Source.runLoop. split.
  - now apply betLoop_nonnegative.
  - pose proof (betLoop_exit betAmount houseWinProb (Z.to_nat numBets) 0
                  initialHouseBankroll (mt19937 (seedOf now runIndex)))
      as Hexit.
    destruct (Source.betLoop _ _ _ _ _ _) as [i c g | i c g];
      cbn [isReturned exitBankroll]; [|discriminate].
    intros _. destruct Hexit as [Hr _]. now apply Qltb_true in Hr.
Qed.

(** The bankroll after [n] bets, by the number of bets won. *)
Lemma bankrollAfter_wins (B0 b p : Q) (g : Generator) (n : nat) :
  (bankrollAfter B0 b p g n ==
   B0 + inject_Z (2 * countWins p g n - Z.of_nat n) * b)%Q /\
  0 <= countWins p g n <= Z.of_nat n.
Proof.
  induction n as [|n [IH Hw]].
  - split; [simpl; ring | simpl; lia].
  - cbn [bankrollAfter countWins]. destruct (dltb (draw g n) p).
    + split; [|lia]. cbn [dadd ExactDouble]. rewrite IH.
      replace (2 * (countWins p g n + 1) - Z.of_nat (S n))
        with (2 * countWins p g n - Z.of_nat n + 1) by lia.
      rewrite inject_Z_plus. ring.
    + split; [|lia]. cbn [dsub ExactDouble]. rewrite IH.
      replace (2 * (countWins p g n + 0) - Z.of_nat (S n))
        with (2 * countWins p g n - Z.of_nat n + - (1)) by lia.
      rewrite inject_Z_plus, inject_Z_opp. ring.
Qed.

(** The final bankroll is the starting bankroll plus the bet amount times
    the number of bets won minus the number of bets lost, among the bets
    the trial has placed. *)
Theorem final_bankroll_by_wins (now : Z)
    (initialHouseBankroll betAmount : Q) (numBets : Z) (houseWinProb : Q)
    (runIndex : Z) :
  let e := Source.runLoop now initialHouseBankroll betAmount numBets
             houseWinProb runIndex in
  let bets := betsPerformed e in
  let wins := countWins houseWinProb (mt19937 (seedOf now runIndex))
                (Z.to_nat bets) in
  0 <= wins <= bets /\
  (Source.simulateSingleRun now initialHouseBankroll betAmount numBets
     houseWinProb runIndex
   == initialHouseBankroll + inject_Z (wins - (bets - wins)) * betAmount)%Q.
Proof.
  intros e bets wins. subst wins bets e.
  unfold Source.simulateSingleRun, Source.runLoop.
  set (g0 := mt19937 (seedOf now runIndex)).
  pose proof (betLoop_run betAmount houseWinProb initialHouseBankroll g0
                (Z.to_nat numBets) O) as Hrun.
  cbn zeta in Hrun. cbn [advance bankrollAfter Z.of_nat Nat.add] in Hrun.
  destruct Hrun as [[k (Hk & He & _)] | [He _]]; rewrite He;
    cbn [exitBankroll betsPerformed].
  - replace (Z.to_nat (Z.of_nat k - 1 + 1)) with k by lia.
    destruct (bankrollAfter_wins initialHouseBankroll betAmount
                houseWinProb g0 k) as [Heq Hw].
    split; [lia|]. rewrite Heq.
    replace (countWins houseWinProb g0 k -
             (Z.of_nat k - 1 + 1 - countWins houseWinProb g0 k))
      with (2 * countWins houseWinProb g0 k - Z.of_nat k) by lia.
    reflexivity.
  - rewrite Nat2Z.id.
    destruct (bankrollAfter_wins initialHouseBankroll betAmount
                houseWinProb g0 (Z.to_nat numBets)) as [Heq Hw].
    split; [lia|]. rewrite Heq.
    replace (countWins houseWinProb g0 (Z.to_nat numBets) -
             (Z.of_nat (Z.to_nat numBets) -
              countWins houseWinProb g0 (Z.to_nat numBets)))
      with (2 * countWins houseWinProb g0 (Z.to_nat numBets) -
            Z.of_nat (Z.to_nat numBets)) by lia.
    reflexivity.
Qed.

Lemma countWins_all (p : Q) (g : Generator) (n : nat) :
  (forall j, (j < n)%nat -> dltb (draw g j) p = true) ->
  countWins p g n = Z.of_nat n.
Proof.
  induction n as [|n IH]; intros H; [reflexivity|].
  cbn [countWins]. rewrite H by lia. rewrite IH by (intros; apply H; lia).
  lia.
Qed.

(** When every draw of the trial is below the house win probability (as
    with a probability of 1 and draws below 1), a house that starts without
    debt wins all its bets: the trial is not ruined and returns
    B0 + N * b. *)
Theorem all_bets_won (now : Z) (initialHouseBankroll betAmount : Q)
    (numBets : Z) (houseWinProb : Q) (runIndex : Z) :
  (0 <= initialHouseBankroll)%Q ->
  (0 <= betAmount)%Q ->
  0 <= numBets ->
  (forall j, (j < Z.to_nat numBets)%nat ->
     dltb (draw (mt19937 (seedOf now runIndex)) j) houseWinProb = true) ->
  let e := Source.runLoop now initialHouseBankroll betAmount numBets
             houseWinProb runIndex in
  isReturned e = false /\
  betsPerformed e = numBets /\
  (exitBankroll e == initialHouseBankroll + inject_Z numBets * betAmount)%Q.
Proof.
  intros HB Hb HN Hwin e. subst e. unfold Source.runLoop.
  set (g0 := mt19937 (seedOf now runIndex)) in *.
  assert (Hval : forall k, (k <= Z.to_nat numBets)%nat ->
            (bankrollAfter initialHouseBankroll betAmount houseWinProb g0 k
             == initialHouseBankroll + inject_Z (Z.of_nat k) * betAmount)%Q).
  { intros k Hk.
    destruct (bankrollAfter_wins initialHouseBankroll betAmount
                houseWinProb g0 k) as [Heq _].
    rewrite Heq, countWins_all by (intros; apply Hwin; lia).
    replace (2 * Z.of_nat k - Z.of_nat k) with (Z.of_nat k) by lia.
    reflexivity. }
  pose proof (betLoop_run betAmount houseWinProb initialHouseBankroll g0
                (Z.to_nat numBets) O) as Hrun.
  cbn zeta in Hrun. cbn [advance bankrollAfter Z.of_nat Nat.add] in Hrun.
  destruct Hrun as [[k (Hk & He & Hr & _)] | [He _]].
  - exfalso. cbn [dltb ExactDouble] in Hr. apply Qltb_true in Hr.
    rewrite Hval in Hr by lia.
    apply (Qlt_not_le _ _ Hr).
    apply (Qle_trans _ (0 + inject_Z 1 * betAmount)).
    + rewrite Qplus_0_l, Qmult_1_l. apply Qle_refl.
    + apply Qplus_le_compat; [exact HB|].
      apply Qmult_le_compat_r; [|exact Hb]. rewrite <- Zle_Qle. lia.
  - rewrite He. cbn [isReturned betsPerformed exitBankroll].
    split; [reflexivity|]. split; [lia|].
    rewrite Hval by lia. now rewrite Z2Nat.id.
Qed.

Lemma bankrollAfter_shift (B0 B0' b p : Q) (g : Generator) (n : nat) :
  (bankrollAfter B0' b p g n == bankrollAfter B0 b p g n + (B0' - B0))%Q.
Proof.
  induction n as [|n IH]; [simpl; ring|].
  cbn [bankrollAfter]. destruct (dltb (draw g n) p);
    cbn [dadd dsub ExactDouble]; rewrite IH; ring.
Qed.

(** On the same draws a richer house fares no worse: when the trial from
    B0 is not ruined, neither is the trial from any B0' >= B0, and its
    final bankroll is greater by exactly B0' - B0. *)
Theorem ruin_monotone_in_bankroll (now : Z) (B0 B0' betAmount : Q)
    (numBets : Z) (houseWinProb : Q) (runIndex : Z) :
  (B0 <= B0')%Q ->
  isReturned (Source.runLoop now B0 betAmount numBets houseWinProb runIndex)
    = false ->
  isReturned (Source.runLoop now B0' betAmount numBets houseWinProb runIndex)
    = false /\
  (Source.simulateSingleRun now B0' betAmount numBets houseWinProb runIndex
   == Source.simulateSingleRun now B0 betAmount numBets houseWinProb
        runIndex + (B0' - B0))%Q.
Proof.
  intros HB. unfold Source.simulateSingleRun, Source.runLoop.
  set (g0 := mt19937 (seedOf now runIndex)).
  pose proof (betLoop_run betAmount houseWinProb B0 g0
                (Z.to_nat numBets) O) as Hrun.
  pose proof (betLoop_run betAmount houseWinProb B0' g0
                (Z.to_nat numBets) O) as Hrun'.
  cbn zeta in Hrun, Hrun'.
  cbn [advance bankrollAfter Z.of_nat Nat.add] in Hrun, Hrun'.
  destruct Hrun as [[k (Hk & He & _)] | [He Hall]]; rewrite He;
    cbn [isReturned]; [discriminate|]. intros _.
  destruct Hrun' as [[k (Hk & He' & Hr & _)] | [He' _]]; rewrite He';
    cbn [isReturned exitBankroll].
  - exfalso. specialize (Hall k ltac:(lia)).
    cbn [dltb ExactDouble] in Hr, Hall.
    apply Qltb_true in Hr. apply Qltb_false in Hall.
    rewrite (bankrollAfter_shift B0 B0') in Hr.
    apply (Qlt_not_le _ _ Hr).
    eapply Qle_trans; [exact Hall|].
    rewrite <- (Qplus_0_r (bankrollAfter B0 betAmount houseWinProb g0 k))
      at 1.
    apply Qplus_le_compat; [apply Qle_refl|].
    unfold Qminus. now rewrite <- Qle_minus_iff.
  - split; [reflexivity|]. apply bankrollAfter_shift.
Qed.

End ExactTrial.

(** The hypotheses of [ruined_bankroll_not_negative] hold on the first
    trial of scenario 3. *)
Lemma ruined_bankroll_not_negative_witness :
  (0 <= exitBankroll (Source.runLoop (rng := scenario3_source) 1000 2%Q 1%Q
                        2 (1 # 2)%Q 0))%Q.
Proof.
  exact (proj1 (ruined_bankroll_not_negative (rng := scenario3_source) 1000
                  2%Q 1%Q 2 (1 # 2)%Q 0 ltac:(vm_compute; discriminate)
                  ltac:(vm_compute; discriminate))).
Defined.

(** The hypotheses of [all_bets_won] hold on the first trial of scenario 3
    when the house win probability is 1. *)
Lemma all_bets_won_witness :
  (exitBankroll (Source.runLoop (rng := scenario3_source) 1000 2%Q 1%Q 2
                   1%Q 0) == 2 + inject_Z 2 * 1)%Q.
Proof.
  refine (proj2 (proj2 (all_bets_won (rng := scenario3_source) 1000 2%Q 1%Q
                          2 1%Q 0 _ _ _ _))).
  - vm_compute; discriminate.
  - vm_compute; discriminate.
  - vm_compute; discriminate.
  - intros [|[|j]] Hj; [reflexivity | reflexivity | cbn in Hj; lia].
Defined.

(** The hypotheses of [ruin_monotone_in_bankroll] hold on the first trial
    of scenario 3, started from 2 and from 5. *)
Lemma ruin_monotone_in_bankroll_witness :
  isReturned (Source.runLoop (rng := scenario3_source) 1000 5%Q 1%Q 2
                (1 # 2)%Q 0) = false.
Proof.
  exact (proj1 (ruin_monotone_in_bankroll (rng := scenario3_source) 1000
                  2%Q 5%Q 1%Q 2 (1 # 2)%Q 0 ltac:(vm_compute; discriminate)
                  eq_refl)).
Defined.

(** ** The two programs side by side *)

Section TwoPrograms.
Context {D : Type} {ops : DoubleOps D} {rng : RandomSource D}.
Variable clock : nat -> Z.
Variable cfg : Source.Config D.
Hypothesis bets_positive : 1 <= Source.BETS_PER_RUN cfg.

Lemma Main_result_is_ruin (now : Z) (startBankroll : D) (runIndex : Z) :
  Main.simulateSingleRun now startBankroll (Source.BET_AMOUNT cfg)
    (Source.BETS_PER_RUN cfg) (Source.HOUSE_WIN_PROB cfg) runIndex =
  dltb (Source.simulateSingleRun now startBankroll (Source.BET_AMOUNT cfg)
          (Source.BETS_PER_RUN cfg) (Source.HOUSE_WIN_PROB cfg) runIndex)
    (Source.BET_AMOUNT cfg).
Proof.
  unfold Main.simulateSingleRun, Source.simulateSingleRun.
  rewrite (runLoop_eq now startBankroll (Source.BET_AMOUNT cfg)
             (Source.BETS_PER_RUN cfg) (Source.HOUSE_WIN_PROB cfg) runIndex).
  unfold Source.runLoop.
  pose proof (betLoop_exit (Source.BET_AMOUNT cfg)
                (Source.HOUSE_WIN_PROB cfg)
                (Z.to_nat (Source.BETS_PER_RUN cfg)) 0 startBankroll
                (mt19937 (seedOf now runIndex))) as Hexit.
  destruct (Source.betLoop _ _ _ _ _ _) as [i c g | i c g];
    cbn [exitBankroll].
  - destruct Hexit as [Hr _]. now rewrite Hr.
  - destruct Hexit as [_ Hr]. rewrite Hr by lia. reflexivity.
Qed.

Lemma Main_runsLoop_spec (startBankroll : D) (n : nat) :
  forall i calls ruinCount,
    Main.runsLoop clock (toMainConfig cfg) startBankroll n i calls ruinCount
    = (ruinCount +
       countRuined (Source.BET_AMOUNT cfg)
         (trialResults clock cfg startBankroll calls i n),
       (calls + n)%nat).
Proof.
  induction n as [|n IH]; intros i calls ruinCount.
  - unfold countRuined. cbn. f_equal; lia.
  - cbn [Main.runsLoop]. rewrite IH, trialResults_S.
    cbn [toMainConfig Main.BET_AMOUNT Main.BETS_PER_RUN
         Main.HOUSE_WIN_PROB].
    rewrite Main_result_is_ruin.
    unfold countRuined. cbn [filter].
    destruct (dltb _ (Source.BET_AMOUNT cfg)); cbn [length];
      f_equal; lia.
Qed.

Hypothesis runs_nonneg : 0 <= Source.TOTAL_RUNS cfg.
Hypothesis bins_positive : 1 <= Source.HISTOGRAM_BINS cfg.

Lemma bankrollLoops_agree (bankrolls : list D) :
  forall calls,
    exists reports,
      Source.bankrollLoop clock cfg calls bankrolls = Normal reports /\
      Main.bankrollLoop clock (toMainConfig cfg) calls bankrolls =
        map tableLine reports.
Proof.
  induction bankrolls as [|b bankrolls IH]; intros calls.
  - exists []. split; reflexivity.
  - cbn [Source.bankrollLoop Main.bankrollLoop].
    destruct (testBankroll_normal clock cfg runs_nonneg bins_positive
                calls b)
      as (r & Hr & Hstart & Hfinals & _ & Hruin & _ & _ & Hprob & Hpct).
    rewrite Hr. cbn [bindO fst snd].
    destruct (IH (calls + Z.to_nat (Source.TOTAL_RUNS cfg))%nat)
      as (reports & Hreps & HM).
    rewrite Hreps. cbn [bindO].
    exists (r :: reports). split; [reflexivity|].
    unfold Main.testBankroll. rewrite Main_runsLoop_spec.
    cbn [toMainConfig Main.TOTAL_RUNS]. rewrite HM. cbn [map]. f_equal.
    unfold tableLine. rewrite Hstart, Hpct, Hprob, Hruin, Hfinals.
    rewrite Z.add_0_l. reflexivity.
Qed.

(** With at least one bet per trial, the program of main.cpp prints the
    table the program of Source.cpp prints: for every starting bankroll the
    same ruin count and the same ruin probability, given the same constants,
    the same clock readings and the same generator. *)
Theorem programs_print_same_table :
  exists reports,
    Source.mainWith clock cfg = Normal (reports, 0) /\
    Main.mainWith clock (toMainConfig cfg) = (map tableLine reports, 0).
Proof.
  unfold Source.mainWith, Main.mainWith.
  destruct (bankrollLoops_agree (Source.bankrollsToTest cfg) O)
    as (reports & HS & HM).
  exists reports. rewrite HS. cbn [bindO]. split; [reflexivity|].
  cbn [toMainConfig Main.bankrollsToTest] in *. now rewrite HM.
Qed.

End TwoPrograms.

(** The hypotheses of [programs_print_same_table] hold on scenario 3. *)
Lemma programs_print_same_table_witness :
  exists reports,
    Source.mainWith (rng := scenario3_source) tickingClock scenario3 =
      Normal (reports, 0) /\
    Main.mainWith (rng := scenario3_source) tickingClock
      (toMainConfig scenario3) = (map tableLine reports, 0).
Proof.
  apply (programs_print_same_table (rng := scenario3_source) tickingClock
           scenario3); vm_compute; discriminate.
Defined.

(** ** Ruin counts and probabilities are in range *)

Section ProbabilityRange.
Context {rng : RandomSource Q}.

Lemma countRuined_range (betAmount : Q) (finalBankrolls : list Q) :
  0 <= countRuined betAmount finalBankrolls
    <= Z.of_nat (length finalBankrolls).
Proof.
  unfold countRuined. split; [lia|]. apply inj_le, filter_length_le.
Qed.

(** In exact arithmetic, with at least one trial and one bin, every line of
    the table has a ruin count between 0 and the trial count, a ruin
    probability between 0 and 1 and a printed percentage between 0 and
    100. *)
Theorem ruin_probability_in_range (clock : nat -> Z)
    (cfg : Source.Config Q) :
  1 <= Source.TOTAL_RUNS cfg ->
  1 <= Source.HISTOGRAM_BINS cfg ->
  exists reports,
    Source.mainWith clock cfg = Normal (reports, 0) /\
    Forall
      (fun r =>
         0 <= Source.rRuinCount r <= Source.TOTAL_RUNS cfg /\
         (0 <= Source.rRuinProbability r <= 1)%Q /\
         (0 <= Source.rPrintedPercent r <= 100)%Q)
      reports.
Proof.
  intros HR HK.
  destruct (mainWith_normal clock cfg ltac:(lia) HK)
    as (reports & Hm & _ & Hall).
  exists reports. split; [exact Hm|].
  eapply Forall_impl; [|exact Hall].
  intros r (Hlen & Hruin & _ & _ & Hprob & Hpct).
  pose proof (countRuined_range (Source.BET_AMOUNT cfg)
                (Source.rFinalBankrolls r)) as Hrange.
  rewrite <- Hruin, Hlen in Hrange.
  assert (HRq : (0 < inject_Z (Source.TOTAL_RUNS cfg))%Q)
    by (rewrite <- (Zlt_Qlt 0); lia).
  assert (Hp : (0 <= Source.rRuinProbability r <= 1)%Q).
  { rewrite Hprob. cbn [ddiv of_int ExactDouble]. split.
    - apply Qle_shift_div_l; [exact HRq|]. rewrite Qmult_0_l.
      rewrite <- (Zle_Qle 0). lia.
    - apply Qle_shift_div_r; [exact HRq|]. rewrite Qmult_1_l.
      rewrite <- Zle_Qle. lia. }
  split; [lia|]. split; [exact Hp|].
  rewrite Hpct. cbn [dmul of_int ExactDouble]. destruct Hp as [Hp0 Hp1].
  split.
  - apply Qmult_le_0_compat; [exact Hp0 | discriminate].
  - setoid_replace 100%Q with (1 * inject_Z 100)%Q at 2 by ring.
    apply Qmult_le_compat_r; [exact Hp1 | discriminate].
Qed.

End ProbabilityRange.

(** The hypotheses of [ruin_probability_in_range] hold on scenario 3. *)
Lemma ruin_probability_in_range_witness :
  exists reports,
    Source.mainWith (rng := scenario3_source) tickingClock scenario3 =
      Normal (reports, 0) /\
    Forall (fun r => (0 <= Source.rRuinProbability r <= 1)%Q) reports.
Proof.
  destruct (ruin_probability_in_range (rng := scenario3_source)
              tickingClock scenario3 ltac:(vm_compute; discriminate)
              ltac:(vm_compute; discriminate)) as (reports & Hm & Hall).
  exists reports. split; [exact Hm|].
  eapply Forall_impl; [|exact Hall]. intros r H. exact (proj1 (proj2 H)).
Defined.

(** ** The summariser: extremes, missing bins, percentages and bars *)

Section Extremes.

(** In exact arithmetic, for final bankrolls in the range of the finite
    doubles of which at least one survives, the minimum and the maximum the
    first loop computes bound every survivor and are each the value of a
    survivor. *)
Theorem min_and_max_are_survivors (finalBankrolls : list Q)
    (betAmount : Q) :
  Forall (fun f => (DBL_LOWEST <= f <= DBL_MAX)%Q) finalBankrolls ->
  0 < countSurviving betAmount finalBankrolls ->
  let s := Source.scanBankrolls finalBankrolls betAmount in
  (forall x, In x (Source.survivingBankrolls s) ->
     (Source.minBankroll s <= x <= Source.maxBankroll s)%Q) /\
  (exists x, In x (Source.survivingBankrolls s) /\
     (x == Source.minBankroll s)%Q) /\
  (exists x, In x (Source.survivingBankrolls s) /\
     (x == Source.maxBankroll s)%Q).
Proof.
  intros Hrange Hsome s.
  assert (Hsurv : Source.survivingBankrolls s =
                  filter (survives betAmount) finalBankrolls)
    by apply scan_survivors.
  destruct (scan_bounds betAmount finalBankrolls
              {| Source.survivingBankrolls := [];
                 Source.ruinCount := 0;
                 Source.minBankroll := DBL_MAX;
                 Source.maxBankroll := DBL_LOWEST |})
    as (_ & _ & Hall & Hminin & Hmaxin). cbn zeta in Hall, Hminin, Hmaxin.
  fold (Source.scanBankrolls finalBankrolls betAmount) in Hall, Hminin,
    Hmaxin. fold s in Hall, Hminin, Hmaxin. rewrite <- Hsurv in *.
  cbn [Source.minBankroll Source.maxBankroll] in Hminin, Hmaxin.
  assert (Hin : forall x, In x (Source.survivingBankrolls s) ->
                  (DBL_LOWEST <= x <= DBL_MAX)%Q).
  { intros x Hx. rewrite Hsurv in Hx. apply filter_In in Hx.
    rewrite Forall_forall in Hrange. apply Hrange, Hx. }
  destruct (Source.survivingBankrolls s) as [|x0 rest] eqn:Hxs.
  { unfold countSurviving in Hsome. rewrite <- Hsurv in Hsome.
    cbn in Hsome. lia. }
  rewrite <- Hxs in *.
  assert (Hx0 : In x0 (Source.survivingBankrolls s))
    by (rewrite Hxs; now left).
  destruct (Hall x0 Hx0) as [Hlo Hhi]. destruct (Hin x0 Hx0) as [Hr1 Hr2].
  split; [exact Hall|]. split.
  - destruct Hminin as [Heq | Hi].
    + exists x0. split; [exact Hx0|].
      apply Qle_antisym; [now rewrite Heq | exact Hlo].
    + exists (Source.minBankroll s). split; [exact Hi | reflexivity].
  - destruct Hmaxin as [Heq | Hi].
    + exists x0. split; [exact Hx0|].
      apply Qle_antisym; [exact Hhi | now rewrite Heq].
    + exists (Source.maxBankroll s). split; [exact Hi | reflexivity].
Qed.

End Extremes.

(** The hypotheses of [min_and_max_are_survivors] hold on six final
    bankrolls, whose least survivor is 50 and greatest 100. *)
Lemma min_and_max_are_survivors_witness :
  exists x, In x (Source.survivingBankrolls
                    (Source.scanBankrolls sixFinals 25%Q)) /\
    (x == Source.minBankroll (Source.scanBankrolls sixFinals 25%Q))%Q.
Proof.
  refine (proj1 (proj2 (min_and_max_are_survivors sixFinals 25%Q _ _))).
  - repeat constructor; vm_compute; discriminate.
  - reflexivity.
Defined.

Section NoBin.
Context {D : Type} {ops : DoubleOps D}.

(** On an empty map the loop that fills the bins fails at the first
    survivor that equals the maximum. *)
Lemma populate_empty (minB maxB w : D) (xs : list D) :
  (exists x, In x xs /\ deqb x maxB = true) ->
  forall c, Source.populate minB maxB w xs ([], c) = Undefined.
Proof.
  induction xs as [|x xs IH]; intros (y & Hy & Hmax) c; [destruct Hy|].
  cbn [Source.populate]. unfold Source.populateStep. cbn [fst].
  destruct (deqb x maxB) eqn:E; [reflexivity|].
  cbn [map_find bindO]. apply IH. exists y. split; [|exact Hmax].
  destruct Hy as [<- | Hy]; [congruence | exact Hy].
Qed.

End NoBin.

Section ExactNoBin.

(** In exact arithmetic, for final bankrolls in the range of the finite
    doubles, a bin count that is zero or negative makes the summariser
    dereference the end of an empty map as soon as one final bankroll
    survives: its behaviour is undefined. *)
Theorem no_bin_undefined (finalBankrolls : list Q) (betAmount : Q)
    (numBins totalRuns : Z) :
  numBins <= 0 ->
  Forall (fun f => (DBL_LOWEST <= f <= DBL_MAX)%Q) finalBankrolls ->
  0 < countSurviving betAmount finalBankrolls ->
  Source.printBankrollHistogram finalBankrolls betAmount numBins totalRuns =
    Undefined.
Proof.
  intros HK Hrange Hsome.
  set (s := Source.scanBankrolls finalBankrolls betAmount).
  assert (Hsurv : Source.survivingBankrolls s =
                  filter (survives betAmount) finalBankrolls)
    by apply scan_survivors.
  destruct (scan_bounds betAmount finalBankrolls
              {| Source.survivingBankrolls := [];
                 Source.ruinCount := 0;
                 Source.minBankroll := DBL_MAX;
                 Source.maxBankroll := DBL_LOWEST |})
    as (_ & _ & Hall & _ & Hmaxin). cbn zeta in Hall, Hmaxin.
  fold (Source.scanBankrolls finalBankrolls betAmount) in Hall, Hmaxin.
  fold s in Hall, Hmaxin. rewrite <- Hsurv in *.
  cbn [Source.maxBankroll] in Hmaxin.
  assert (Hmax : exists x, In x (Source.survivingBankrolls s) /\
                   deqb x (Source.maxBankroll s) = true).
  { destruct Hmaxin as [Heq | Hi].
    - destruct (Source.survivingBankrolls s) as [|x0 rest] eqn:Hxs.
      { unfold countSurviving in Hsome. rewrite <- Hsurv in Hsome.
        cbn in Hsome. lia. }
      exists x0. split; [now left|]. apply Qeq_bool_iff.
      destruct (Hall x0 (or_introl eq_refl)) as [_ Hhi].
      apply Qle_antisym; [exact Hhi|]. rewrite Heq.
      assert (Hx0 : In x0 (filter (survives betAmount) finalBankrolls))
        by (rewrite <- Hsurv; now left).
      apply filter_In in Hx0. rewrite Forall_forall in Hrange.
      apply (Hrange x0), Hx0.
    - exists (Source.maxBankroll s). split; [exact Hi|].
      apply Qeq_bool_iff. reflexivity. }
  unfold Source.printBankrollHistogram. cbn zeta. fold s.
  assert (Hcount : Z.of_nat (length (Source.survivingBankrolls s)) =
                   countSurviving betAmount finalBankrolls)
    by (unfold countSurviving; now rewrite Hsurv).
  rewrite Hcount.
  destruct (countSurviving betAmount finalBankrolls =? 0) eqn:Hz; [lia|].
  replace (Z.to_nat numBins) with O by lia. cbn [Source.initBins].
  match goal with
  | |- context [bindO ?t _] =>
      replace t with (@Undefined (DoubleMap Q * Z))
        by (symmetry; apply populate_empty; exact Hmax)
  end.
  reflexivity.
Qed.

End ExactNoBin.

(** The hypotheses of [no_bin_undefined] hold on six final bankrolls and no
    bin. *)
Lemma no_bin_undefined_witness :
  Source.printBankrollHistogram sixFinals 25%Q 0 6 = Undefined.
Proof.
  apply no_bin_undefined.
  - vm_compute; discriminate.
  - repeat constructor; vm_compute; discriminate.
  - reflexivity.
Defined.

Section ChartCounts.
Context {D : Type} {ops : DoubleOps D}.

Lemma map_incr_nonneg (m : DoubleMap D) :
  forall it,
    Forall (fun e => 0 <= snd e) m ->
    Forall (fun e => 0 <= snd e) (map_incr m it).
Proof.
  induction m as [|[k v] m IH]; intros it H; [constructor|].
  inversion H as [|e l Hv Hm]; subst. cbn [snd] in Hv.
  destruct it; cbn [map_incr]; constructor; cbn [snd];
    try lia; try assumption. now apply IH.
Qed.

Lemma populate_nonneg (minB maxB w : D) (xs : list D) :
  forall st st',
    Source.populate minB maxB w xs st = Normal st' ->
    Forall (fun e => 0 <= snd e) (fst st) ->
    Forall (fun e => 0 <= snd e) (fst st').
Proof.
  induction xs as [|x xs IH]; intros [bins c] st' Hp Hc.
  - cbn [Source.populate] in Hp. now injection Hp as <-.
  - cbn [Source.populate] in Hp. unfold Source.populateStep in Hp.
    cbn [fst] in Hp, Hc.
    destruct (deqb x maxB).
    + destruct (map_rbegin bins) as [it|]; [|discriminate Hp].
      cbn [bindO] in Hp. apply (IH _ _ Hp). cbn [Source.bump fst].
      now apply map_incr_nonneg.
    + destruct (map_find (Source.binKeyOf minB w x) bins) as [it|];
        cbn [bindO] in Hp; apply (IH _ _ Hp); cbn [Source.bump fst];
        [now apply map_incr_nonneg | exact Hc].
Qed.

Lemma listMax_bound (l : list Z) : Forall (fun c => c <= listMax l) l.
Proof.
  unfold listMax. induction l as [|a l IH]; constructor;
    cbn [fold_right]; [lia|].
  eapply Forall_impl; [|exact IH]. cbn beta. intros; lia.
Qed.

(** Every count of a chart lies between 0 and [maxBinCount]. *)
Lemma chart_counts_range (finalBankrolls : list D) (betAmount : D)
    (numBins totalRuns : Z) (h : Source.Histogram D) :
  Source.printBankrollHistogram finalBankrolls betAmount numBins totalRuns =
    Normal (Some h) ->
  Forall (fun e => 0 <= snd e <= Source.hMaxBinCount h) (Source.hBins h).
Proof.
  unfold Source.printBankrollHistogram. cbn zeta.
  destruct (_ =? 0); [discriminate|].
  destruct (Source.populate _ _ _ _ _) as [st'| |] eqn:Hp;
    cbn [bindO]; [|discriminate|discriminate].
  intros [= <-]. cbn [Source.hMaxBinCount Source.hBins].
  assert (Hmax : snd st' = listMax (map_counts (fst st'))).
  { apply (populate_max _ _ _ _ _ _ Hp). cbn [fst snd].
    symmetry. apply all_zero_max, initBins_zero. constructor. }
  assert (Hnn : Forall (fun e : D * Z => 0 <= snd e) (fst st')).
  { apply (populate_nonneg _ _ _ _ _ _ Hp). cbn [fst].
    eapply Forall_impl; [|apply initBins_zero; constructor].
    cbn beta. intros e He. rewrite He. lia. }
  rewrite Hmax. pose proof (listMax_bound (map_counts (fst st'))) as Hb.
  unfold map_counts in *. rewrite Forall_map in Hb.
  rewrite Forall_forall in *. intros e He.
  split; [now apply Hnn | now apply Hb].
Qed.

End ChartCounts.

Section ExactRendering.

Lemma barWidthOf_range (count maxBinCount : Z) :
  0 <= count <= maxBinCount ->
  0 <= barWidthOf (D := Q) count maxBinCount <= 40 /\
  (0 < maxBinCount ->
   (barWidthOf (D := Q) count maxBinCount = 40 <-> count = maxBinCount)).
Proof.
  intros [H0 Hle]. unfold barWidthOf.
  destruct (0 <? maxBinCount) eqn:Hm.
  2:{ split; [lia|]. intros Hpos. lia. }
  apply Z.ltb_lt in Hm.
  cbn [dtrunc ExactToInt dmul ddiv of_int ExactDouble].
  set (q := (inject_Z count / inject_Z maxBinCount * inject_Z 40)%Q).
  assert (Hmq : (0 < inject_Z maxBinCount)%Q)
    by (rewrite <- (Zlt_Qlt 0); exact Hm).
  assert (Hr0 : (0 <= inject_Z count / inject_Z maxBinCount)%Q).
  { apply Qle_shift_div_l; [exact Hmq|]. rewrite Qmult_0_l.
    rewrite <- (Zle_Qle 0). exact H0. }
  assert (Hr1 : (inject_Z count / inject_Z maxBinCount <= 1)%Q).
  { apply Qle_shift_div_r; [exact Hmq|]. rewrite Qmult_1_l.
    rewrite <- Zle_Qle. exact Hle. }
  assert (Hq0 : (0 <= q)%Q)
    by (subst q; apply Qmult_le_0_compat; [exact Hr0 | discriminate]).
  assert (Hq40 : (q <= inject_Z 40)%Q).
  { subst q. setoid_replace (inject_Z 40) with (1 * inject_Z 40)%Q at 2
      by ring.
    apply Qmult_le_compat_r; [exact Hr1 | discriminate]. }
  replace (Qltb q 0) with false
    by (symmetry; now apply Qltb_false).
  assert (Hf0 : 0 <= Qfloor q)
    by (rewrite <- (Qfloor_Z 0); now apply Qfloor_resp_le).
  assert (Hf40 : Qfloor q <= 40)
    by (rewrite <- (Qfloor_Z 40); now apply Qfloor_resp_le).
  split; [lia|]. intros _. split.
  - intros Hfull.
    assert (H40 : (inject_Z 40 <= q)%Q)
      by (rewrite <- Hfull; apply Qfloor_le).
    assert (Hqm : (q * inject_Z maxBinCount == inject_Z (count * 40))%Q).
    { subst q. rewrite inject_Z_mult. field.
      intros Hz. rewrite Hz in Hmq. discriminate Hmq. }
    assert (Hc : (inject_Z (40 * maxBinCount) <= inject_Z (count * 40))%Q).
    { rewrite <- Hqm, inject_Z_mult.
      apply Qmult_le_compat_r; [exact H40 | now apply Qlt_le_weak]. }
    rewrite <- Zle_Qle in Hc. lia.
  - intros ->.
    assert (Hq : (q == inject_Z 40)%Q).
    { subst q. field. intros Hz. rewrite Hz in Hmq. discriminate Hmq. }
    rewrite Hq. apply Qfloor_Z.
Qed.

(** In exact arithmetic every bar of a chart has between 0 and 40
    characters, and, when some bin is not empty, a bar has 40 characters
    exactly when its bin holds the greatest count. *)
Theorem bars_within_forty (finalBankrolls : list Q) (betAmount : Q)
    (numBins totalRuns : Z) (h : Source.Histogram Q) :
  Source.printBankrollHistogram finalBankrolls betAmount numBins totalRuns =
    Normal (Some h) ->
  length (printedBars h) = length (Source.hBins h) /\
  Forall (fun bar => 0 <= bar <= 40) (printedBars h) /\
  (0 < Source.hMaxBinCount h ->
   Forall
     (fun binPair =>
        barWidthOf (D := Q) (snd binPair) (Source.hMaxBinCount h) = 40 <->
        snd binPair = Source.hMaxBinCount h)
     (Source.hBins h)).
Proof.
  intros Hp. pose proof (chart_counts_range _ _ _ _ _ Hp) as Hrange.
  unfold printedBars. split; [apply length_map|]. split.
  - rewrite Forall_map. eapply Forall_impl; [|exact Hrange].
    cbn beta. intros e He. apply (barWidthOf_range _ _ He).
  - intros Hpos. eapply Forall_impl; [|exact Hrange].
    cbn beta. intros e He. now apply (barWidthOf_range _ _ He).
Qed.

Lemma Qsum_percentages (n : Q) (l : list (Q * Z)) :
  (Qsum (map (fun e => inject_Z (snd e) / n * inject_Z 100) l) ==
   inject_Z (sumCounts l) / n * inject_Z 100)%Q.
Proof.
  unfold Qsum, sumCounts, map_counts.
  induction l as [|[k v] l IH]; cbn [map snd fold_right].
  - unfold Qdiv. ring.
  - rewrite IH, inject_Z_plus. unfold Qdiv. ring.
Qed.

(** In exact arithmetic, with at least one bin and one survivor, the
    percentages computed for the lines of the chart, which are shares of
    the survivors and not of all the trials, add up to 100.  This is about
    the values of [percentage] as line 160 computes them: line 162 prints
    each with one decimal, and the rounded figures need not add up to
    100. *)
Theorem percentages_add_up_to_hundred (finalBankrolls : list Q)
    (betAmount : Q) (numBins totalRuns : Z) :
  1 <= numBins ->
  0 < countSurviving betAmount finalBankrolls ->
  exists h,
    Source.printBankrollHistogram finalBankrolls betAmount numBins totalRuns
      = Normal (Some h) /\
    (Qsum (linePercentages h) == 100)%Q.
Proof.
  intros HK Hsome.
  destruct (histogram_complete_exact finalBankrolls betAmount numBins
              totalRuns HK) as [[Hzero _] | (h & Hp & Hn & Hsum)]; [lia|].
  exists h. split; [exact Hp|].
  unfold linePercentages, Source.printedRows. rewrite map_map.
  cbn [snd fst]. rewrite Hn.
  replace (0 <? countSurviving betAmount finalBankrolls) with true
    by (symmetry; now apply Z.ltb_lt).
  cbn [dmul ddiv of_int ExactDouble].
  rewrite (Qsum_percentages
             (inject_Z (countSurviving betAmount finalBankrolls))), Hsum.
  field. intros Hz.
  assert (Hq : (0 < inject_Z (countSurviving betAmount finalBankrolls))%Q)
    by (rewrite <- (Zlt_Qlt 0); exact Hsome).
  rewrite Hz in Hq. discriminate Hq.
Qed.

End ExactRendering.

(** The hypothesis of [bars_within_forty] holds on six final bankrolls and
    four bins, where the bars have 40, 0, 20 and 40 characters. *)
Lemma bars_within_forty_witness :
  exists h,
    Source.printBankrollHistogram sixFinals 25%Q 4 6 = Normal (Some h) /\
    Forall (fun bar => 0 <= bar <= 40) (printedBars h) /\
    printedBars h = [40; 0; 20; 40].
Proof.
  eexists. split; [vm_compute; reflexivity|]. split.
  - refine (proj1 (proj2 (bars_within_forty sixFinals 25%Q 4 6 _ _))).
    vm_compute. reflexivity.
  - vm_compute. reflexivity.
Defined.

(** The hypotheses of [percentages_add_up_to_hundred] hold on six final
    bankrolls and four bins, where the percentages computed are 40, 0, 20
    and 40. *)
Lemma percentages_add_up_to_hundred_witness :
  exists h,
    Source.printBankrollHistogram sixFinals 25%Q 4 6 = Normal (Some h) /\
    (Qsum (linePercentages h) == 100)%Q /\
    Forall2 Qeq (linePercentages h) [40; 0; 20; 40]%Q.
Proof.
  destruct (percentages_add_up_to_hundred sixFinals 25%Q 4 6
              ltac:(vm_compute; discriminate) ltac:(reflexivity))
    as (h & Hh & Hsum).
  exists h. split; [exact Hh|]. split; [exact Hsum|].
  assert (E : Normal (Some h) =
              Source.printBankrollHistogram sixFinals 25%Q 4 6)
    by (symmetry; exact Hh).
  vm_compute in E. injection E as ->.
  repeat constructor.
Defined.

Section PrintedRanges.

(** In exact arithmetic, with at least one bin and one survivor, the
    printed lines are as many as the bins asked for; their ranges start at
    the minimum and follow each other without gap, each as wide as the bin
    width; and unless all survivors are equal the last range ends at the
    maximum. *)
Theorem printed_ranges_cover (finalBankrolls : list Q) (betAmount : Q)
    (numBins totalRuns : Z) :
  1 <= numBins ->
  0 < countSurviving betAmount finalBankrolls ->
  exists h,
    Source.printBankrollHistogram finalBankrolls betAmount numBins totalRuns
      = Normal (Some h) /\
    map (fun row => (fst (fst (fst row)), snd (fst (fst row))))
      (Source.printedRows h) =
    map (fun t =>
           let rangeStart :=
             (Source.hMinBankroll h +
              inject_Z (Z.of_nat t) * Source.hBinWidth h)%Q in
           (rangeStart, (rangeStart + Source.hBinWidth h)%Q))
        (seq 0 (Z.to_nat numBins)) /\
    ((Source.hMinBankroll h < Source.hMaxBankroll h)%Q ->
     (Source.hMinBankroll h + inject_Z numBins * Source.hBinWidth h ==
      Source.hMaxBankroll h)%Q).
Proof.
  intros HK Hsome.
  destruct (printBankrollHistogram_normal finalBankrolls betAmount numBins
              totalRuns HK)
    as [[Hzero _] | (h & Hp & _ & _ & Hmin & Hmax & Hw & Hkeys & _)];
    [lia|].
  exists h. split; [exact Hp|].
  set (s := Source.scanBankrolls finalBankrolls betAmount) in *.
  assert (Hle : (Source.minBankroll s <= Source.maxBankroll s)%Q).
  { destruct (scan_bounds betAmount finalBankrolls
                {| Source.survivingBankrolls := [];
                   Source.ruinCount := 0;
                   Source.minBankroll := DBL_MAX;
                   Source.maxBankroll := DBL_LOWEST |})
      as (_ & _ & Hall & _). cbn zeta in Hall.
    fold (Source.scanBankrolls finalBankrolls betAmount) in Hall.
    fold s in Hall.
    destruct (filter (survives betAmount) finalBankrolls)
      as [|x0 rest] eqn:Hxs.
    - unfold countSurviving in Hsome. rewrite Hxs in Hsome.
      cbn in Hsome. lia.
    - destruct (Hall x0 (or_introl eq_refl)) as [H1 H2].
      eapply Qle_trans; eassumption. }
  assert (Hg : Source.initBins (Source.minBankroll s)
                 (Source.chooseBinWidth (Source.minBankroll s)
                    (Source.maxBankroll s) numBins)
                 (Z.to_nat numBins) 0 [] =
               gridFrom (Source.minBankroll s)
                 (Source.chooseBinWidth (Source.minBankroll s)
                    (Source.maxBankroll s) numBins)
                 0 (Z.to_nat numBins))
    by apply (initBins_grid _ _ (Z.to_nat numBins)
                (chooseBinWidth_positive _ _ _ HK Hle) O).
  unfold DoubleMap in *. rewrite Hg in Hkeys. clear Hg.
  rewrite <- Hw, <- Hmin in Hkeys.
  split.
  - unfold Source.printedRows. rewrite map_map. cbn [fst snd].
    transitivity (map (fun k => (k, (k + Source.hBinWidth h)%Q))
                    (map_keys (Source.hBins h))).
    + unfold map_keys. rewrite map_map. reflexivity.
    + rewrite Hkeys. unfold map_keys, gridFrom. rewrite !map_map.
      reflexivity.
  - intros Hlt. rewrite Hmin, Hmax in Hlt.
    rewrite Hw, Hmin, Hmax, chooseBinWidth_regular by assumption.
    field. intros Hz.
    assert (Hq : (0 < inject_Z numBins)%Q) by (rewrite <- (Zlt_Qlt 0); lia).
    rewrite Hz in Hq. discriminate Hq.
Qed.

End PrintedRanges.

(** The hypotheses of [printed_ranges_cover] hold on six final bankrolls
    and four bins. *)
Lemma printed_ranges_cover_witness :
  exists h,
    Source.printBankrollHistogram sixFinals 25%Q 4 6 = Normal (Some h) /\
    ((Source.hMinBankroll h < Source.hMaxBankroll h)%Q ->
     (Source.hMinBankroll h + inject_Z 4 * Source.hBinWidth h ==
      Source.hMaxBankroll h)%Q).
Proof.
  destruct (printed_ranges_cover sixFinals 25%Q 4 6
              ltac:(vm_compute; discriminate) ltac:(reflexivity))
    as (h & Hp & _ & Hend).
  exists h. split; [exact Hp | exact Hend].
Defined.
